(** * Naev input subsystem and ship statistics: a shallow embedding

    The definitions follow [src/input.c] function by function.
    - C [int] and [unsigned int] values are integers of [Z], the 32-bit
      wrap-around of unsigned arithmetic written out ([wrap32]); C
      [double]s are binary64 primitive floats; C strings are [string]s.
    - The file-level [static] variables of [input.c], and the members of
      [player] that it assigns, are the fields of one [State] record that
      every function threads.
    - Calls into other modules (player, pilot, gui, hooks, ...) are not
      interpreted: each is appended to the [calls] trace of the state.
      What those modules answer is read from a [World] record, one answer
      per query for the duration of one handler.
    - Declarations of headers that are not among the sources ([input.h],
      [conf.h], [player.h], [pilot.h], [naev.h]) are modelled from the spec
      and marked so; [shipstats.c] is absent as well, and the operations
      that [shipstats.h] declares are modelled from section 4.5 of the
      spec. *)

From Stdlib Require Import ZArith List String Bool Lia Floats.
Import ListNotations.

Set Warnings "-inexact-float".

Local Open Scope string_scope.
Local Open Scope list_scope.
Local Open Scope Z_scope.

(** ** Machine arithmetic *)

(** [unsigned int] arithmetic is arithmetic modulo 2^32. *)
Definition wrap32 (z : Z) : Z := z mod 2 ^ 32.

(** The range of a C [int]. *)
Definition INT_MIN : Z := - 2 ^ 31.
Definition INT_MAX : Z := 2 ^ 31 - 1.

(** [(int)x] for a [double x]: truncation toward zero.  The conversion is
    undefined in C when the truncated value does not fit an [int], and for
    infinities and NaN; the model then yields [INT_MIN], the value that the
    conversion instruction of x86-64 leaves in that case. *)
Definition int_of_double (x : float) : Z :=
  match Prim2SF x with
  | S754_zero _ => 0
  | S754_finite sg m e =>
      let mag := if (0 <=? e)%Z
                 then Z.pos m * 2 ^ e
                 else Z.pos m / 2 ^ (- e) in
      let z := if sg then - mag else mag in
      if (INT_MIN <=? z)%Z && (z <=? INT_MAX)%Z then z else INT_MIN
  | _ => INT_MIN
  end.

(** [(double)n] for an [int n]. *)
Definition double_of_int (n : Z) : float :=
  if (n <? 0)%Z
  then (- PrimFloat.of_uint63 (Uint63.of_Z (- n)))%float
  else PrimFloat.of_uint63 (Uint63.of_Z n).

(** Modelled from the spec: [pow2], [MAX] and [ABS] are macros of [naev.h]
    and [nmath.h], not among the sources; the spec reads them as the
    square, the maximum ("max(1.5 * entityRadius * zoom, minEntityRadius)")
    and the absolute value ("angular deviation").  [pow2(x)] is the
    macro [(x)*(x)]. *)
Definition pow2 (x : float) : float := (x * x)%float.
(** Modelled from the spec: the macro [MAX(x,y)], [((x)>(y))?(x):(y)]. *)
Definition MAX (x y : float) : float := if (y <? x)%float then x else y.
(** Modelled from the spec: the macro [ABS(x)], [((x)<0)?-(x):(x)]. *)
Definition ABS (x : float) : float := if (x <? 0)%float then (- x)%float else x.

(** ** Keybindings *)

(** Modelled from the spec: [KeybindType] is declared in [input.h], not
    among the sources.  Its enumerators are those that [input.c] names, one
    per kind of the spec's data model (Unbound, Keyboard, JoyAxisPos,
    JoyAxisNeg, JoyButton, JoyHatUp, JoyHatDown, JoyHatLeft, JoyHatRight). *)
Inductive KeybindType : Type :=
| KEYBIND_NULL
| KEYBIND_KEYBOARD
| KEYBIND_JAXISPOS
| KEYBIND_JAXISNEG
| KEYBIND_JBUTTON
| KEYBIND_JHAT_UP
| KEYBIND_JHAT_DOWN
| KEYBIND_JHAT_LEFT
| KEYBIND_JHAT_RIGHT.

Definition KeybindType_eqb (a b : KeybindType) : bool :=
  match a, b with
  | KEYBIND_NULL, KEYBIND_NULL
  | KEYBIND_KEYBOARD, KEYBIND_KEYBOARD
  | KEYBIND_JAXISPOS, KEYBIND_JAXISPOS
  | KEYBIND_JAXISNEG, KEYBIND_JAXISNEG
  | KEYBIND_JBUTTON, KEYBIND_JBUTTON
  | KEYBIND_JHAT_UP, KEYBIND_JHAT_UP
  | KEYBIND_JHAT_DOWN, KEYBIND_JHAT_DOWN
  | KEYBIND_JHAT_LEFT, KEYBIND_JHAT_LEFT
  | KEYBIND_JHAT_RIGHT, KEYBIND_JHAT_RIGHT => true
  | _, _ => false
  end.

Definition SDL_Keycode := Z.
Definition SDL_Keymod := Z.

Definition SDLK_UNKNOWN : SDL_Keycode := 0.

(** SDL's modifier bits ([SDL_keycode.h]). *)
Definition KMOD_LSHIFT : SDL_Keymod := 0x0001.
Definition KMOD_RSHIFT : SDL_Keymod := 0x0002.
Definition KMOD_LCTRL : SDL_Keymod := 0x0040.
Definition KMOD_RCTRL : SDL_Keymod := 0x0080.
Definition KMOD_LALT : SDL_Keymod := 0x0100.
Definition KMOD_RALT : SDL_Keymod := 0x0200.
Definition KMOD_LGUI : SDL_Keymod := 0x0400.
Definition KMOD_RGUI : SDL_Keymod := 0x0800.

(** Modelled from the spec: [input.h], which defines the [NMOD_*] masks, is
    not among the sources.  The data model gives the modifier mask as a
    bit-set over None, Ctrl, Shift, Alt, Meta and Any, where Any is a
    match-all sentinel that translation never produces: no bit for None,
    one bit per modifier, and all sixteen bits of a [Uint16] for Any. *)
Definition NMOD_NONE : SDL_Keymod := 0.
(** Modelled from the spec: the Shift bit of the modifier mask. *)
Definition NMOD_SHIFT : SDL_Keymod := 1.
(** Modelled from the spec: the Ctrl bit of the modifier mask. *)
Definition NMOD_CTRL : SDL_Keymod := 2.
(** Modelled from the spec: the Alt bit of the modifier mask. *)
Definition NMOD_ALT : SDL_Keymod := 4.
(** Modelled from the spec: the Meta bit of the modifier mask. *)
Definition NMOD_META : SDL_Keymod := 8.
(** Modelled from the spec: the match-all mask Any. *)
Definition NMOD_ANY : SDL_Keymod := 0xFFFF.

(** Modelled from the spec: [KEY_PRESS] and [KEY_RELEASE] are macros of
    [input.h], not among the sources.  [input_key] reports [value > 0.] to
    the hooks as the spec's [isPress], so a press is the positive unit
    and a release the negative one. *)
Definition KEY_PRESS : float := 1%float.
(** Modelled from the spec: the value of a release, see [KEY_PRESS]. *)
Definition KEY_RELEASE : float := (-1)%float.

(** [struct Keybind_]. *)
Record Keybind : Type := mkKeybind {
  disabled : bool;
  name : string;
  type : KeybindType;
  key : SDL_Keycode;
  mod_ : SDL_Keymod
}.

(** First column of [keybind_info], up to the terminating [NULL] row. *)
Definition keybind_info : list string :=
  [ "accel"; "left"; "right"; "reverse";
    "target_next"; "target_prev"; "target_nearest"; "target_nextHostile";
    "target_prevHostile"; "target_hostile"; "target_clear";
    "primary"; "face"; "board";
    "secondary"; "weapset1"; "weapset2"; "weapset3"; "weapset4"; "weapset5";
    "weapset6"; "weapset7"; "weapset8"; "weapset9"; "weapset0";
    "e_targetNext"; "e_targetPrev"; "e_attack"; "e_hold"; "e_return";
    "e_clear";
    "autonav"; "target_planet"; "land"; "thyperspace"; "starmap"; "jump";
    "overlay"; "mousefly"; "autobrake";
    "log_up"; "log_down"; "hail"; "autohail";
    "mapzoomin"; "mapzoomout"; "screenshot"; "togglefullscreen"; "pause";
    "speed"; "menu"; "info"; "console";
    "switchtab1"; "switchtab2"; "switchtab3"; "switchtab4"; "switchtab5";
    "switchtab6"; "switchtab7"; "switchtab8"; "switchtab9"; "switchtab0" ].

Definition input_numbinds : Z := Z.of_nat (List.length keybind_info).

(** ** The world outside [input.c] *)

(** Modelled from the spec: the player flags are declared in [player.h],
    not among the sources.  These are the flags that [input.c] sets, clears
    or tests with the [player_setFlag], [player_rmFlag] and [player_isFlag]
    macros: the spec's "held" flag of accelerate, its turn-direction and
    face-reverse flags, and the like. *)
Inductive PlayerFlag : Type :=
| PLAYER_ACCEL
| PLAYER_TURN_LEFT
| PLAYER_TURN_RIGHT
| PLAYER_REVERSE
| PLAYER_PRIMARY
| PLAYER_FACE
| PLAYER_SECONDARY
| PLAYER_CINEMATICS_2X
| PLAYER_DESTROYED.

Definition PlayerFlag_eqb (a b : PlayerFlag) : bool :=
  match a, b with
  | PLAYER_ACCEL, PLAYER_ACCEL
  | PLAYER_TURN_LEFT, PLAYER_TURN_LEFT
  | PLAYER_TURN_RIGHT, PLAYER_TURN_RIGHT
  | PLAYER_REVERSE, PLAYER_REVERSE
  | PLAYER_PRIMARY, PLAYER_PRIMARY
  | PLAYER_FACE, PLAYER_FACE
  | PLAYER_SECONDARY, PLAYER_SECONDARY
  | PLAYER_CINEMATICS_2X, PLAYER_CINEMATICS_2X
  | PLAYER_DESTROYED, PLAYER_DESTROYED => true
  | _, _ => false
  end.

(** Modelled from the spec: the pilot flags are declared in [pilot.h], not
    among the sources.  These are the flags of the player's pilot that the
    guard macros test (not hyperspacing, not dead, not landing). *)
Inductive PilotFlag : Type :=
| PILOT_HYP_PREP
| PILOT_HYP_BEGIN
| PILOT_HYPERSPACE
| PILOT_DEAD
| PILOT_LANDING.

(** Modelled from the spec: the reasons handed to [player_restoreControl]
    are declared in [player.h], not among the sources; [PINPUT_NULL] stands
    for the literal 0 that [input.c] passes. *)
Inductive ControlReason : Type :=
| PINPUT_NULL
| PINPUT_MOVEMENT
| PINPUT_BRAKING.

(** What a [void *] handed to [input_clicked] points at: [pilot_get(id)],
    [cur_system->planets[id]], [&cur_system->jumps[id]], or an asteroid of
    a field.  Distinct objects have distinct addresses. *)
Inductive Clicked : Type :=
| PilotPtr (id : Z)
| PlanetPtr (id : Z)
| JumpPtr (id : Z)
| AsteroidPtr (field asteroid : Z).

Definition Clicked_eqb (a b : Clicked) : bool :=
  match a, b with
  | PilotPtr i, PilotPtr j => (i =? j)%Z
  | PlanetPtr i, PlanetPtr j => (i =? j)%Z
  | JumpPtr i, JumpPtr j => (i =? j)%Z
  | AsteroidPtr f i, AsteroidPtr g j => (f =? g)%Z && (i =? j)%Z
  | _, _ => false
  end.

(** [clicked == input_lastClicked], the latter possibly [NULL]. *)
Definition ptr_eqb (clicked : Clicked) (last : option Clicked) : bool :=
  match last with
  | Some c => Clicked_eqb clicked c
  | None => false
  end.

(** The calls [input.c] makes into other modules, with their arguments. *)
Inductive Call : Type :=
| WARN (fmt arg : string)
| SDL_ShowCursor (toggle : bool)
| hooks_runParam_input (keyname : string) (press : bool)
| hooks_runParam_mouse (button : Z)
| player_restoreControl (reason : ControlReason)
| player_accel (acc : float)
| player_accelOver
| pilot_afterburn
| pilot_afterburnOver
| player_targetNext (mode : Z)
| player_targetPrev (mode : Z)
| player_targetNearest
| player_targetHostile
| player_targetClear
| player_board
| player_targetEscort (prev : Z)
| escorts_attack
| escorts_hold
| escorts_return
| escorts_clear
| player_weapSetPress (id : Z) (value : float) (repeat : bool)
| player_autonavStartWindow
| player_autonavStart
| player_targetPlanet
| player_land
| player_targetHyperspace
| map_open
| player_jump
| ovr_key (value : float)
| player_toggleMouseFly
| player_brake
| gui_messageScrollUp (lines : Z)
| gui_messageScrollDown (lines : Z)
| player_hail
| player_autohail
| gui_setRadarRel (mod_ : Z)
| player_screenshot
| naev_toggleFullscreen
| unpause_game
| pause_player
| player_resetSpeed
| menu_small
| menu_info
| cli_open
| gui_radarClickEvent
| player_targetSet (id : Z)
| player_autonavPil (id : Z)
| player_targetPlanetSet (id : Z)
| player_autonavPnt (planet : Z)
| player_hyperspacePreempt (preempt : Z)
| player_hailPlanet
| map_select (jump : Z)
| player_targetHyperspaceSet (id : Z)
| player_targetAsteroidSet (field asteroid : Z)
| player_autonavPos (x y : float).

(** Modelled from the spec: [conf] is declared in [conf.h], not among the
    sources.  These are the members that [input.c] reads: the repeat delay
    and frequency and the afterburn window in ticks (ms), which enter
    [unsigned int] arithmetic, and the double-click threshold in seconds, a
    [double]. *)
Record Conf : Type := mkConf {
  repeat_delay : Z;
  repeat_freq : Z;
  afterburn_sens : Z;
  mouse_doubleclick : float
}.

(** What the other modules answer when [input.c] asks during one call of
    a handler: configuration, the tick counter, the toolkit, the player's
    pilot, and (for clicks) the camera and the objects of the current
    system.  Functions of arguments stand for queries with arguments; a
    pilot, planet or jump point is named by its id or index. *)
Record World : Type := mkWorld {
  conf : Conf;
  SDL_GetTicks : Z;
  toolkit_isOpen : bool;
  map_isOpen : bool;
  paused : bool;
  landed : bool;
  player_p : bool;                      (* player.p != NULL *)
  pilot_isFlag : PilotFlag -> bool;     (* flags of player.p *)
  player_pos : float * float;           (* player.p->solid->pos *)
  player_target : Z;                    (* player.p->target *)
  player_nav_planet : Z;                (* player.p->nav_planet *)
  player_nav_hyperspace : Z;            (* player.p->nav_hyperspace *)
  space_canHyperspace : bool;
  (* other pilots *)
  pilot_pos : Z -> float * float;
  pilot_sw : Z -> float;                (* p->ship->gfx_space->sw *)
  pilot_isDisabled : Z -> bool;
  pilot_isBoardable : Z -> bool;        (* pilot_isFlag(p, PILOT_BOARDABLE) *)
  PILOT_SIZE_APROX : float;
  pilot_getNearestPos : float -> float -> float * Z;
  pilot_getNearestAng : float -> float * Z;
  (* the current system *)
  system_getClosest : float -> float -> float * (Z * Z * Z * Z);
  system_getClosestAng : float -> float -> float -> float * (Z * Z * Z * Z);
  planet_radius : Z -> float;
  planet_isKnown : Z -> bool;
  planet_faction : Z -> Z;
  planet_can_land : Z -> bool;
  planet_bribed : Z -> bool;
  planet_land_override : Z -> Z;
  jump_radius : Z -> float;
  jp_isUsable : Z -> bool;
  asteroid_gfx_known : Z -> Z -> bool;  (* ast->gfxID < array_size(at->gfxs) *)
  asteroid_gfx : Z -> Z -> float * float;
  (* screen and camera *)
  gl_windowToScreenPos : Z -> Z -> Z * Z;
  gl_screen_w : Z;
  gl_screen_h : Z;
  gl_screenToGameCoords : float -> float -> float * float;
  cam_getZoom : float;
  radar_takes_click : bool;            (* result of gui_radarClickEvent *)
  (* libm and physics.c *)
  atan2 : float -> float -> float;
  angle_diff : float -> float -> float
}.

(** The guard macros of [input_key]. *)
Definition INGAME (w : World) : bool := negb (toolkit_isOpen w).
Definition NOHYP (w : World) : bool :=
  player_p w && negb (pilot_isFlag w PILOT_HYP_PREP)
  && negb (pilot_isFlag w PILOT_HYP_BEGIN)
  && negb (pilot_isFlag w PILOT_HYPERSPACE).
Definition NODEAD (w : World) : bool :=
  player_p w && negb (pilot_isFlag w PILOT_DEAD).
Definition NOLAND (w : World) : bool :=
  player_p w && (negb (landed w) && negb (pilot_isFlag w PILOT_LANDING)).

(** ** The state of [input.c] *)

(** One dispatch of [input_key]: its four arguments. *)
Definition KeyCall : Type := (Z * float * float * bool)%type.

(** The [static] variables of [input.c], the parts of [player] that it
    writes directly ([player.flags] through the flag macros, [player_left],
    [player_right], [player.speed]), and two histories kept for
    specification only: [dispatched] lists the calls of [input_key] so far
    and [calls] the calls into other modules, both oldest first. *)
Record State : Type := mkState {
  input_keybinds : list Keybind;
  input_accelLast : Z;
  input_accelButton : Z;
  repeat_key : Z;
  repeat_keyTimer : Z;
  repeat_keyCounter : Z;
  input_mouseTimer : float;
  input_mouseCounter : Z;
  input_mouseClickLast : Z;
  input_lastClicked : option Clicked;
  player_flags : PlayerFlag -> bool;
  player_left : float;
  player_right : float;
  player_speed : float;
  dispatched : list KeyCall;
  calls : list Call
}.

(** A statement of C that returns nothing is a state transformer. *)
Definition Cmd : Type := State -> State.

Definition skip : Cmd := fun s => s.
Definition andthen (c1 c2 : Cmd) : Cmd := fun s => c2 (c1 s).
Notation "c1 ;; c2" := (andthen c1 c2) (at level 61, right associativity).

Definition set_input_keybinds (v : list Keybind) : Cmd := fun s =>
  mkState v (input_accelLast s) (input_accelButton s) (repeat_key s)
    (repeat_keyTimer s) (repeat_keyCounter s) (input_mouseTimer s)
    (input_mouseCounter s) (input_mouseClickLast s) (input_lastClicked s)
    (player_flags s) (player_left s) (player_right s) (player_speed s)
    (dispatched s) (calls s).
Definition set_input_accelLast (v : Z) : Cmd := fun s =>
  mkState (input_keybinds s) v (input_accelButton s) (repeat_key s)
    (repeat_keyTimer s) (repeat_keyCounter s) (input_mouseTimer s)
    (input_mouseCounter s) (input_mouseClickLast s) (input_lastClicked s)
    (player_flags s) (player_left s) (player_right s) (player_speed s)
    (dispatched s) (calls s).
Definition set_input_accelButton (v : Z) : Cmd := fun s =>
  mkState (input_keybinds s) (input_accelLast s) v (repeat_key s)
    (repeat_keyTimer s) (repeat_keyCounter s) (input_mouseTimer s)
    (input_mouseCounter s) (input_mouseClickLast s) (input_lastClicked s)
    (player_flags s) (player_left s) (player_right s) (player_speed s)
    (dispatched s) (calls s).
(** [repeat_key], [repeat_keyTimer] and [repeat_keyCounter] are always
    assigned together. *)
Definition set_repeat (k t c : Z) : Cmd := fun s =>
  mkState (input_keybinds s) (input_accelLast s) (input_accelButton s) k t c
    (input_mouseTimer s) (input_mouseCounter s) (input_mouseClickLast s)
    (input_lastClicked s) (player_flags s) (player_left s) (player_right s)
    (player_speed s) (dispatched s) (calls s).
Definition set_input_mouseTimer (v : float) : Cmd := fun s =>
  mkState (input_keybinds s) (input_accelLast s) (input_accelButton s)
    (repeat_key s) (repeat_keyTimer s) (repeat_keyCounter s) v
    (input_mouseCounter s) (input_mouseClickLast s) (input_lastClicked s)
    (player_flags s) (player_left s) (player_right s) (player_speed s)
    (dispatched s) (calls s).
Definition set_input_mouseCounter (v : Z) : Cmd := fun s =>
  mkState (input_keybinds s) (input_accelLast s) (input_accelButton s)
    (repeat_key s) (repeat_keyTimer s) (repeat_keyCounter s)
    (input_mouseTimer s) v (input_mouseClickLast s) (input_lastClicked s)
    (player_flags s) (player_left s) (player_right s) (player_speed s)
    (dispatched s) (calls s).
(** [input_lastClicked] and [input_mouseClickLast] are assigned together. *)
Definition set_lastClicked (c : option Clicked) (t : Z) : Cmd := fun s =>
  mkState (input_keybinds s) (input_accelLast s) (input_accelButton s)
    (repeat_key s) (repeat_keyTimer s) (repeat_keyCounter s)
    (input_mouseTimer s) (input_mouseCounter s) t c
    (player_flags s) (player_left s) (player_right s) (player_speed s)
    (dispatched s) (calls s).
Definition set_player_flags (v : PlayerFlag -> bool) : Cmd := fun s =>
  mkState (input_keybinds s) (input_accelLast s) (input_accelButton s)
    (repeat_key s) (repeat_keyTimer s) (repeat_keyCounter s)
    (input_mouseTimer s) (input_mouseCounter s) (input_mouseClickLast s)
    (input_lastClicked s) v (player_left s) (player_right s) (player_speed s)
    (dispatched s) (calls s).
Definition set_player_left (v : float) : Cmd := fun s =>
  mkState (input_keybinds s) (input_accelLast s) (input_accelButton s)
    (repeat_key s) (repeat_keyTimer s) (repeat_keyCounter s)
    (input_mouseTimer s) (input_mouseCounter s) (input_mouseClickLast s)
    (input_lastClicked s) (player_flags s) v (player_right s) (player_speed s)
    (dispatched s) (calls s).
Definition set_player_right (v : float) : Cmd := fun s =>
  mkState (input_keybinds s) (input_accelLast s) (input_accelButton s)
    (repeat_key s) (repeat_keyTimer s) (repeat_keyCounter s)
    (input_mouseTimer s) (input_mouseCounter s) (input_mouseClickLast s)
    (input_lastClicked s) (player_flags s) (player_left s) v (player_speed s)
    (dispatched s) (calls s).
Definition set_player_speed (v : float) : Cmd := fun s =>
  mkState (input_keybinds s) (input_accelLast s) (input_accelButton s)
    (repeat_key s) (repeat_keyTimer s) (repeat_keyCounter s)
    (input_mouseTimer s) (input_mouseCounter s) (input_mouseClickLast s)
    (input_lastClicked s) (player_flags s) (player_left s) (player_right s) v
    (dispatched s) (calls s).
Definition log_dispatch (k : KeyCall) : Cmd := fun s =>
  mkState (input_keybinds s) (input_accelLast s) (input_accelButton s)
    (repeat_key s) (repeat_keyTimer s) (repeat_keyCounter s)
    (input_mouseTimer s) (input_mouseCounter s) (input_mouseClickLast s)
    (input_lastClicked s) (player_flags s) (player_left s) (player_right s)
    (player_speed s) (dispatched s ++ [k]) (calls s).
(** A call into another module. *)
Definition call (c : Call) : Cmd := fun s =>
  mkState (input_keybinds s) (input_accelLast s) (input_accelButton s)
    (repeat_key s) (repeat_keyTimer s) (repeat_keyCounter s)
    (input_mouseTimer s) (input_mouseCounter s) (input_mouseClickLast s)
    (input_lastClicked s) (player_flags s) (player_left s) (player_right s)
    (player_speed s) (dispatched s) (calls s ++ [c]).

(** Modelled from the spec: [player_isFlag], a macro of [player.h] (not
    among the sources), reads a flag of [player.flags]. *)
Definition player_isFlag (f : PlayerFlag) (s : State) : bool :=
  player_flags s f.
(** Modelled from the spec: the macro [player_setFlag] sets a flag. *)
Definition player_setFlag (f : PlayerFlag) : Cmd := fun s =>
  set_player_flags
    (fun g => if PlayerFlag_eqb g f then true else player_flags s g) s.
(** Modelled from the spec: the macro [player_rmFlag] clears a flag. *)
Definition player_rmFlag (f : PlayerFlag) : Cmd := fun s =>
  set_player_flags
    (fun g => if PlayerFlag_eqb g f then false else player_flags s g) s.

(** ** The keybinding table *)

(** The loop of [input_init] that creates a null keybinding per name. *)
Definition null_keybinds (names : list string) : list Keybind :=
  map (fun n => mkKeybind false n KEYBIND_NULL SDLK_UNKNOWN NMOD_NONE) names.

(** The state after [input_init], the other variables holding their
    initialisers (and the player record being at rest). *)
Definition input_init : State :=
  mkState (null_keybinds keybind_info) 0 0 (-1) 0 0 (-1)%float 1 0 None
    (fun _ => false) 0%float 0%float 1%float [] [].

(** The loop of [input_setKeybind]: the first binding named [keybind]
    gets the new type, key and modifier; [None] when no name matches. *)
Fixpoint setKeybind_loop (keybind : string) (ty : KeybindType)
    (k : SDL_Keycode) (m : SDL_Keymod) (binds : list Keybind)
    : option (list Keybind) :=
  match binds with
  | [] => None
  | b :: rest =>
      if String.eqb keybind (name b)
      then Some (mkKeybind (disabled b) (name b) ty k
                   (* Non-keyboards get mod NMOD_ANY to always match. *)
                   (if KeybindType_eqb ty KEYBIND_KEYBOARD then m else NMOD_ANY)
                 :: rest)
      else option_map (cons b) (setKeybind_loop keybind ty k m rest)
  end.

Definition input_setKeybind (keybind : string) (ty : KeybindType)
    (k : SDL_Keycode) (m : SDL_Keymod) : Cmd := fun s =>
  match setKeybind_loop keybind ty k m (input_keybinds s) with
  | Some binds => set_input_keybinds binds s
  | None =>
      call (WARN "Unable to set keybinding '%s', that command doesn't exist"
              keybind) s
  end.

(** The loop of [input_getKeybind]: the first binding named [keybind]. *)
Fixpoint getKeybind_loop (keybind : string) (binds : list Keybind)
    : option Keybind :=
  match binds with
  | [] => None
  | b :: rest =>
      if String.eqb keybind (name b) then Some b
      else getKeybind_loop keybind rest
  end.

(** What [input_getKeybind] hands back: the returned key and the contents
    of the two out-parameters afterwards.  An out-parameter is [None] for a
    [NULL] pointer and [Some v] for a pointer to a cell holding [v]. *)
Record KeybindResult : Type := mkKeybindResult {
  res_key : SDL_Keycode;
  res_type : option KeybindType;
  res_mod : option SDL_Keymod
}.

Definition input_getKeybind (keybind : string)
    (type_out : option KeybindType) (mod_out : option SDL_Keymod)
    (s : State) : KeybindResult * State :=
  match getKeybind_loop keybind (input_keybinds s) with
  | Some b =>
      (mkKeybindResult (key b)
         (match type_out with Some _ => Some (type b) | None => None end)
         (match mod_out with Some _ => Some (mod_ b) | None => None end),
       s)
  | None =>
      (mkKeybindResult (-1) type_out mod_out,
       call (WARN "Unable to get keybinding '%s', that command doesn't exist"
               keybind) s)
  end.

(** [input_enableAll], [input_disableAll] and [input_toggleEnable]. *)
Definition input_enableAll : Cmd := fun s =>
  set_input_keybinds
    (map (fun b => mkKeybind false (name b) (type b) (key b) (mod_ b))
       (input_keybinds s)) s.

Definition input_disableAll : Cmd := fun s =>
  set_input_keybinds
    (map (fun b => mkKeybind true (name b) (type b) (key b) (mod_ b))
       (input_keybinds s)) s.

Fixpoint toggleEnable_loop (k : string) (enable : bool)
    (binds : list Keybind) : list Keybind :=
  match binds with
  | [] => []
  | b :: rest =>
      if String.eqb k (name b)
      then mkKeybind (negb enable) (name b) (type b) (key b) (mod_ b) :: rest
      else b :: toggleEnable_loop k enable rest
  end.

Definition input_toggleEnable (k : string) (enable : bool) : Cmd := fun s =>
  set_input_keybinds (toggleEnable_loop k enable (input_keybinds s)) s.

(** [input_translateMod]: SDL's left and right variants of a modifier
    become one Naev modifier bit. *)
Definition input_translateMod (m : SDL_Keymod) : SDL_Keymod :=
  let mod_filtered := 0 in
  let mod_filtered :=
    if negb (Z.land m (Z.lor KMOD_LSHIFT KMOD_RSHIFT) =? 0)
    then Z.lor mod_filtered NMOD_SHIFT else mod_filtered in
  let mod_filtered :=
    if negb (Z.land m (Z.lor KMOD_LCTRL KMOD_RCTRL) =? 0)
    then Z.lor mod_filtered NMOD_CTRL else mod_filtered in
  let mod_filtered :=
    if negb (Z.land m (Z.lor KMOD_LALT KMOD_RALT) =? 0)
    then Z.lor mod_filtered NMOD_ALT else mod_filtered in
  let mod_filtered :=
    if negb (Z.land m (Z.lor KMOD_LGUI KMOD_RGUI) =? 0)
    then Z.lor mod_filtered NMOD_META else mod_filtered in
  mod_filtered.

(** ** The dispatcher [input_key] *)

(** [input_keybinds[keynum]]. *)
Definition keybind_at (keynum : Z) (s : State) : option Keybind :=
  if keynum <? 0 then None
  else nth_error (input_keybinds s) (Z.to_nat keynum).

(** The "Repetition stuff" at the head of [input_key]. *)
Definition input_key_repetition (w : World) (keynum : Z) (value : float)
    (repeat : bool) : Cmd :=
  if negb (repeat_delay (conf w) =? 0) then
    if (value =? KEY_PRESS)%float && negb repeat then
      set_repeat keynum (SDL_GetTicks w) 0
    else if (value =? KEY_RELEASE)%float then
      set_repeat (-1) 0 0
    else skip
  else skip.

(** The branch of [input_key] for "accel" (taken when [!repeat]). *)
Definition input_key_accel (w : World) (value kabs : float) : Cmd :=
  if (0 <=? kabs)%float then
    call (player_restoreControl PINPUT_MOVEMENT) ;;
    call (player_accel kabs) ;;
    set_input_accelButton 1
  else (* prevent it from getting stuck *)
    (if (value =? KEY_PRESS)%float then
       call (player_restoreControl PINPUT_MOVEMENT) ;;
       player_setFlag PLAYER_ACCEL ;;
       call (player_accel 1%float) ;;
       set_input_accelButton 1
     else if (value =? KEY_RELEASE)%float then
       call player_accelOver ;;
       player_rmFlag PLAYER_ACCEL ;;
       set_input_accelButton 0
     else skip) ;;
    (* double tap accel = afterburn! *)
    (fun s =>
       let t := SDL_GetTicks w in
       ((if negb (afterburn_sens (conf w) =? 0)
            && (value =? KEY_PRESS)%float
            && INGAME w && NOHYP w && NODEAD w
            && (wrap32 (t - input_accelLast s) <=? afterburn_sens (conf w))
         then call pilot_afterburn
         else if (value =? KEY_RELEASE)%float then call pilot_afterburnOver
         else skip) ;;
        (if (value =? KEY_PRESS)%float then set_input_accelLast t
         else skip)) s).

(** The branches for "left" and "right", which differ in the flag and in
    the global they assign. *)
Definition input_key_turn (flag : PlayerFlag) (set_rate : float -> Cmd)
    (value kabs : float) : Cmd :=
  if (0 <=? kabs)%float then
    call (player_restoreControl PINPUT_MOVEMENT) ;;
    player_setFlag flag ;;
    set_rate kabs
  else
    (* set flags for facing correction *)
    if (value =? KEY_PRESS)%float then
      call (player_restoreControl PINPUT_MOVEMENT) ;;
      player_setFlag flag ;;
      set_rate 1%float
    else if (value =? KEY_RELEASE)%float then
      player_rmFlag flag ;;
      set_rate 0%float
    else skip.

(** The branch for "reverse". *)
Definition input_key_reverse (value : float) : Cmd := fun s =>
  if (value =? KEY_PRESS)%float then
    (call (player_restoreControl PINPUT_MOVEMENT) ;;
     player_setFlag PLAYER_REVERSE) s
  else if (value =? KEY_RELEASE)%float && player_isFlag PLAYER_REVERSE s then
    (player_rmFlag PLAYER_REVERSE ;;
     (fun s' => if negb (player_isFlag PLAYER_ACCEL s')
                then call player_accelOver s' else s')) s
  else s.

(** A branch that sets a player flag on press and clears it on release. *)
Definition input_key_flag (flag : PlayerFlag) (value : float) : Cmd :=
  if (value =? KEY_PRESS)%float then player_setFlag flag
  else if (value =? KEY_RELEASE)%float then player_rmFlag flag
  else skip.

(** The branch for "face". *)
Definition input_key_face (value : float) : Cmd := fun s =>
  if (value =? KEY_PRESS)%float then
    (call (player_restoreControl PINPUT_MOVEMENT) ;;
     player_setFlag PLAYER_FACE) s
  else if (value =? KEY_RELEASE)%float && player_isFlag PLAYER_FACE s then
    player_rmFlag PLAYER_FACE s
  else s.

(** [if (value==KEY_PRESS) c]. *)
Definition on_press (value : float) (c : Cmd) : Cmd :=
  if (value =? KEY_PRESS)%float then c else skip.

(** The branch for "speed". *)
Definition input_key_speed (value : float) : Cmd := fun s =>
  if (value =? KEY_PRESS)%float
     && negb (player_isFlag PLAYER_CINEMATICS_2X s) then
    ((if (player_speed s <? 4)%float
      then set_player_speed (player_speed s * 2)%float
      else set_player_speed 1%float) ;;
     call player_resetSpeed) s
  else s.

(** The if/else-if chain of [input_key] for the binding [b], from the
    state [s] left by the repetition code.  [None] is the final
    "Key press not used" [return]; [Some s'] is the state after the branch
    taken, from which the "input" hook is then run. *)
Definition input_key_chain (w : World) (b : Keybind) (value kabs : float)
    (repeat : bool) (s : State) : option State :=
  let KEY := fun n : string => String.eqb (name b) n in
  let press := on_press value in
  (* movement *)
  if KEY "accel" && negb repeat then Some (input_key_accel w value kabs s)
  else if KEY "left" && negb repeat then
    Some (input_key_turn PLAYER_TURN_LEFT set_player_left value kabs s)
  else if KEY "right" && negb repeat then
    Some (input_key_turn PLAYER_TURN_RIGHT set_player_right value kabs s)
  else if KEY "reverse" && negb repeat then Some (input_key_reverse value s)
  (* combat *)
  else if KEY "primary" && NODEAD w && negb repeat then
    Some (input_key_flag PLAYER_PRIMARY value s)
  else if INGAME w && NODEAD w && KEY "target_next" then
    Some (press (call (player_targetNext 0)) s)
  else if INGAME w && NODEAD w && KEY "target_prev" then
    Some (press (call (player_targetPrev 0)) s)
  else if INGAME w && NODEAD w && KEY "target_nearest" then
    Some (press (call player_targetNearest) s)
  else if INGAME w && NODEAD w && KEY "target_nextHostile" then
    Some (press (call (player_targetNext 1)) s)
  else if INGAME w && NODEAD w && KEY "target_prevHostile" then
    Some (press (call (player_targetPrev 1)) s)
  else if INGAME w && NODEAD w && KEY "target_hostile" then
    Some (press (call player_targetHostile) s)
  else if INGAME w && NODEAD w && KEY "target_clear" then
    Some (press (call player_targetClear) s)
  else if INGAME w && NODEAD w && KEY "face" && negb repeat then
    Some (input_key_face value s)
  else if KEY "board" && INGAME w && NOHYP w && NODEAD w && negb repeat then
    Some (press (call (player_restoreControl PINPUT_NULL) ;;
                 call player_board) s)
  (* escorts *)
  else if INGAME w && NODEAD w && KEY "e_targetNext" && negb repeat then
    Some (press (call (player_targetEscort 0)) s)
  else if INGAME w && NODEAD w && KEY "e_targetPrev" && negb repeat then
    Some (press (call (player_targetEscort 1)) s)
  else if INGAME w && NODEAD w && KEY "e_attack" && negb repeat then
    Some (press (call escorts_attack) s)
  else if INGAME w && NODEAD w && KEY "e_hold" && negb repeat then
    Some (press (call escorts_hold) s)
  else if INGAME w && NODEAD w && KEY "e_return" && negb repeat then
    Some (press (call escorts_return) s)
  else if INGAME w && NODEAD w && KEY "e_clear" && negb repeat then
    Some (press (call escorts_clear) s)
  (* secondary weapons *)
  else if KEY "secondary" && NOHYP w && NODEAD w && negb repeat then
    Some (input_key_flag PLAYER_SECONDARY value s)
  else if INGAME w && NODEAD w && KEY "weapset1" then
    Some (call (player_weapSetPress 0 value repeat) s)
  else if INGAME w && NODEAD w && KEY "weapset2" then
    Some (call (player_weapSetPress 1 value repeat) s)
  else if INGAME w && NODEAD w && KEY "weapset3" then
    Some (call (player_weapSetPress 2 value repeat) s)
  else if INGAME w && NODEAD w && KEY "weapset4" then
    Some (call (player_weapSetPress 3 value repeat) s)
  else if INGAME w && NODEAD w && KEY "weapset5" then
    Some (call (player_weapSetPress 4 value repeat) s)
  else if INGAME w && NODEAD w && KEY "weapset6" then
    Some (call (player_weapSetPress 5 value repeat) s)
  else if INGAME w && NODEAD w && KEY "weapset7" then
    Some (call (player_weapSetPress 6 value repeat) s)
  else if INGAME w && NODEAD w && KEY "weapset8" then
    Some (call (player_weapSetPress 7 value repeat) s)
  else if INGAME w && NODEAD w && KEY "weapset9" then
    Some (call (player_weapSetPress 8 value repeat) s)
  else if INGAME w && NODEAD w && KEY "weapset0" then
    Some (call (player_weapSetPress 9 value repeat) s)
  (* space *)
  else if KEY "autonav" && NOHYP w && NODEAD w then
    Some (press (if map_isOpen w then call player_autonavStartWindow
                 else if INGAME w then call player_autonavStart
                 else skip) s)
  else if KEY "target_planet" && INGAME w && NOHYP w && NOLAND w && NODEAD w
  then Some (press (call player_targetPlanet) s)
  else if KEY "land" && INGAME w && NOHYP w && NOLAND w && NODEAD w then
    Some (press (call player_land) s)
  else if KEY "thyperspace" && NOHYP w && NOLAND w && NODEAD w then
    Some (press (call player_targetHyperspace) s)
  else if KEY "starmap" && NOHYP w && NODEAD w && negb repeat then
    Some (press (call map_open) s)
  else if KEY "jump" && INGAME w && negb repeat then
    Some (press (call (player_restoreControl PINPUT_NULL) ;;
                 call player_jump) s)
  else if KEY "overlay" && NODEAD w && INGAME w && negb repeat then
    Some (call (ovr_key value) s)
  else if KEY "mousefly" && NODEAD w && negb repeat then
    Some (press (call player_toggleMouseFly) s)
  else if KEY "autobrake" && NOHYP w && NOLAND w && NODEAD w && negb repeat
  then Some (press (call (player_restoreControl PINPUT_BRAKING) ;;
                    call player_brake) s)
  (* communication *)
  else if KEY "log_up" && INGAME w && NODEAD w then
    Some (press (call (gui_messageScrollUp 5)) s)
  else if KEY "log_down" && INGAME w && NODEAD w then
    Some (press (call (gui_messageScrollDown 5)) s)
  else if KEY "hail" && INGAME w && NOHYP w && NODEAD w && negb repeat then
    Some (press (call player_hail) s)
  else if KEY "autohail" && INGAME w && NOHYP w && NODEAD w && negb repeat
  then Some (press (call player_autohail) s)
  (* misc *)
  else if KEY "mapzoomin" && INGAME w && NODEAD w then
    Some (press (call (gui_setRadarRel (-1))) s)
  else if KEY "mapzoomout" && INGAME w && NODEAD w then
    Some (press (call (gui_setRadarRel 1)) s)
  else if KEY "screenshot" then Some (press (call player_screenshot) s)
  else if KEY "togglefullscreen" && negb repeat then
    Some (press (call naev_toggleFullscreen) s)
  else if KEY "pause" && negb repeat then
    Some (press (if negb (toolkit_isOpen w)
                 then if paused w then call unpause_game
                      else call pause_player
                 else skip) s)
  else if KEY "speed" && negb repeat then Some (input_key_speed value s)
  else if KEY "menu" && NODEAD w && negb repeat then
    Some (press (call menu_small) s)
  else if KEY "info" && NOHYP w && NODEAD w && negb repeat then
    Some (press (call menu_info) s)
  else if KEY "console" && NODEAD w && negb repeat then
    Some (press (call cli_open) s)
  (* Key press not used. *)
  else None.

(** [input_key]: the repetition bookkeeping, the chain, and the "input"
    hook with the binding's name and [value > 0.].  A [keynum] outside the
    table does not occur (every caller passes an index of the table or a
    recorded [repeat_key]); the model then stops after the bookkeeping. *)
Definition input_key (w : World) (keynum : Z) (value kabs : float)
    (repeat : bool) : Cmd := fun s =>
  let s0 := log_dispatch (keynum, value, kabs, repeat) s in
  let s1 := input_key_repetition w keynum value repeat s0 in
  match keybind_at keynum s1 with
  | None => s1
  | Some b =>
      match input_key_chain w b value kabs repeat s1 with
      | None => s1
      | Some s2 =>
          call (hooks_runParam_input (name b) (0 <? value)%float) s2
      end
  end.

(** The first block of [input_update]: the timer that hides the mouse. *)
Definition input_update_mouse (dt : float) : Cmd := fun s =>
  if (0 <? input_mouseTimer s)%float then
    let s' := set_input_mouseTimer (input_mouseTimer s - dt)%float s in
    (* Hide if necessary. *)
    if (input_mouseTimer s' <? 0)%float && (input_mouseCounter s' <=? 0)
    then call (SDL_ShowCursor false) s' else s'
  else s.

(** The second block of [input_update]: "Key repeat if applicable". *)
Definition input_update_repeat (w : World) : Cmd := fun s =>
  if negb (repeat_delay (conf w) =? 0) then
    (* Key must be repeating. *)
    if repeat_key s =? -1 then s
    else
      let t := SDL_GetTicks w in
      (* Should be repeating. *)
      if t <? wrap32 (repeat_keyTimer s + repeat_delay (conf w)
                      + repeat_keyCounter s * repeat_freq (conf w))
      then s
      else
        (* Key repeat. *)
        input_key w (repeat_key s) KEY_PRESS 0%float true
          (set_repeat (repeat_key s) (repeat_keyTimer s)
             (wrap32 (repeat_keyCounter s + 1)) s)
  else s.

(** [input_update]: handles key repeating. *)
Definition input_update (w : World) (dt : float) : Cmd :=
  input_update_mouse dt ;; input_update_repeat w.

(** [event == v] for the [int event] of a filter and a [double v]: the
    integer is converted to [double] and the doubles are compared. *)
Definition event_is (event : Z) (v : float) : bool :=
  (double_of_int event =? v)%float.

(** The body of the loop of [input_keyevent] for index [i]. *)
Definition input_keyevent_body (w : World) (event : Z) (k : SDL_Keycode)
    (mod_filtered : SDL_Keymod) (repeat : bool) (i : nat) : Cmd := fun s =>
  match nth_error (input_keybinds s) i with
  | None => s
  | Some b =>
      if event_is event KEY_PRESS && disabled b then s
      else if KeybindType_eqb (type b) KEYBIND_KEYBOARD && (key b =? k) then
        if (mod_ b =? mod_filtered) || (mod_ b =? NMOD_ANY)
           || event_is event KEY_RELEASE (* Release always gets through. *)
        then input_key w (Z.of_nat i) (double_of_int event) (-1)%float repeat s
        (* No break so all keys get pressed if needed. *)
        else s
      else s
  end.

(** [for (i=from; i<from+n; i++)] over the body. *)
Fixpoint input_keyevent_loop (w : World) (event : Z) (k : SDL_Keycode)
    (mod_filtered : SDL_Keymod) (repeat : bool) (n from : nat) : Cmd :=
  match n with
  | O => skip
  | S n' =>
      input_keyevent_body w event k mod_filtered repeat from ;;
      input_keyevent_loop w event k mod_filtered repeat n' (S from)
  end.

(** [input_keyevent].  [event] is the [int] that holds [KEY_PRESS] or
    [KEY_RELEASE]; the table has [input_numbinds] rows. *)
Definition input_keyevent (w : World) (event : Z) (k : SDL_Keycode)
    (m : SDL_Keymod) (repeat : bool) : Cmd := fun s =>
  (* Filter to "Naev" modifiers. *)
  let mod_filtered := input_translateMod m in
  input_keyevent_loop w event k mod_filtered repeat
    (List.length (input_keybinds s)) 0 s.

(** One of the two blocks of the loop body of [input_joyaxis]: the row [i]
    bound to the side [side] of the axis, for a [value] on that side
    ([on_side]) that is a press when [pressed]; [kabs] is
    [FABS(((double)value)/32767.)].  [None] is the [continue] taken for a
    press on a disabled row. *)
Definition input_joyaxis_side (w : World) (side : KeybindType)
    (on_side pressed : bool) (kabs : float) (i : nat) (s : State)
    : option State :=
  match nth_error (input_keybinds s) i with
  | None => Some s
  | Some b =>
      if KeybindType_eqb (type b) side && on_side then
        if pressed && disabled b then None
        else Some (input_key w (Z.of_nat i)
                     (if pressed then KEY_PRESS else KEY_RELEASE) kabs false s)
      else Some s
  end.

(** The body of the loop of [input_joyaxis] for index [i]. *)
Definition input_joyaxis_body (w : World) (axis : SDL_Keycode) (value : Z)
    (i : nat) : Cmd := fun s =>
  match nth_error (input_keybinds s) i with
  | None => s
  | Some b =>
      if key b =? axis then
        let kabs := abs (double_of_int value / 32767)%float in
        (* Positive axis keybinding. *)
        match input_joyaxis_side w KEYBIND_JAXISPOS (0 <=? value) (0 <? value)
                kabs i s with
        | None => s
        | Some s1 =>
            (* Negative axis keybinding. *)
            match input_joyaxis_side w KEYBIND_JAXISNEG (value <=? 0)
                    (value <? 0) kabs i s1 with
            | None => s1
            | Some s2 => s2
            end
        end
      else s
  end.

Fixpoint input_joyaxis_loop (w : World) (axis : SDL_Keycode) (value : Z)
    (n from : nat) : Cmd :=
  match n with
  | O => skip
  | S n' =>
      input_joyaxis_body w axis value from ;;
      input_joyaxis_loop w axis value n' (S from)
  end.

(** [input_joyaxis]: filters a joystick axis event. *)
Definition input_joyaxis (w : World) (axis : SDL_Keycode) (value : Z) : Cmd :=
  fun s =>
  input_joyaxis_loop w axis value (List.length (input_keybinds s)) 0 s.

(** ** Mouse clicks *)

(** SDL's mouse buttons ([SDL_mouse.h]). *)
Definition SDL_BUTTON_LEFT : Z := 1.
Definition SDL_BUTTON_MIDDLE : Z := 2.
Definition SDL_BUTTON_RIGHT : Z := 3.

(** Modelled from the spec: [PLAYER_ID] is a macro of [pilot.h], not among
    the sources: the id of the controlled ship, which the resolver excludes
    and to which it resets [pid] to reject a pilot. *)
Definition PLAYER_ID : Z := 1.

(** [M_PI] of [math.h]. *)
Definition M_PI : float := 3.14159265358979323846%float.

(** [input_clicked]: sets the last-clicked item. *)
Definition input_clicked (w : World) (clicked : Clicked) : Cmd := fun s =>
  if (mouse_doubleclick (conf w) <=? 0)%float then s
  else set_lastClicked (Some clicked) (SDL_GetTicks w) s.

(** The time window of a double-click in ticks,
    [(int)(conf.mouse_doubleclick * 1000)]. *)
Definition doubleclick_ms (w : World) : Z :=
  int_of_double (mouse_doubleclick (conf w) * 1000)%float.

(** [input_isDoubleClick]: whether a clicked item is the last-clicked. *)
Definition input_isDoubleClick (w : World) (clicked : Clicked) (s : State)
    : bool :=
  if (mouse_doubleclick (conf w) <=? 0)%float then true
  else
    (* Most recent time that constitutes a valid double-click. *)
    let threshold := wrap32 (input_mouseClickLast s + doubleclick_ms w) in
    (SDL_GetTicks w <=? threshold) && ptr_eqb clicked (input_lastClicked s).

(** [input_clickedPilot]; the result is whether the click was used. *)
Definition input_clickedPilot (w : World) (pilot : Z) (autonav : bool)
    (s : State) : bool * State :=
  if pilot =? PLAYER_ID then (false, s)
  else if autonav then
    (true, (call (player_targetSet pilot) ;; call (player_autonavPil pilot)) s)
  else
    let p := PilotPtr pilot in
    let s1 :=
      if (pilot =? player_target w) && input_isDoubleClick w p s then
        if pilot_isDisabled w pilot || pilot_isBoardable w pilot
        then call player_board s
        else call player_hail s
      else call (player_targetSet pilot) s in
    (true, input_clicked w p s1).

(** [input_clickedPlanet]. *)
Definition input_clickedPlanet (w : World) (planet : Z) (autonav : bool)
    (s : State) : bool * State :=
  if negb (planet_isKnown w planet) then (false, s)
  else if autonav then
    (true, (call (player_targetPlanetSet planet) ;;
            call (player_autonavPnt planet)) s)
  else
    let pnt := PlanetPtr planet in
    let s1 :=
      if (planet =? player_nav_planet w) && input_isDoubleClick w pnt s then
        (call (player_hyperspacePreempt 0) ;;
         (if (planet_faction w planet <? 0) || planet_can_land w planet
             || planet_bribed w planet || (0 <? planet_land_override w planet)
          then call player_land
          else call player_hailPlanet)) s
      else call (player_targetPlanetSet planet) s in
    (true, input_clicked w pnt s1).

(** [input_clickedJump]. *)
Definition input_clickedJump (w : World) (jump : Z) (autonav : bool)
    (s : State) : bool * State :=
  if negb (jp_isUsable w jump) then (false, s)
  else
    (* Update map path. *)
    let s0 := if negb (player_nav_hyperspace w =? jump)
              then call (map_select jump) s else s in
    if autonav then
      (true, (call (player_targetHyperspaceSet jump) ;;
              call player_autonavStart) s0)
    else
      let jp := JumpPtr jump in
      let s1 :=
        if (jump =? player_nav_hyperspace w) && input_isDoubleClick w jp s0
        then if space_canHyperspace w then call player_jump s0 else s0
        else call (player_targetHyperspaceSet jump) s0 in
      (true, input_clicked w jp s1).

(** [input_clickedAsteroid]. *)
Definition input_clickedAsteroid (w : World) (field asteroid : Z)
    (s : State) : bool * State :=
  (true,
   (call (player_targetAsteroidSet field asteroid) ;;
    input_clicked w (AsteroidPtr field asteroid)) s).

(** The candidates of a click, [(pid, (pntid, jpid, astid, fieid))]: a
    pilot id ([PLAYER_ID] for none) and the indices of a planet, a jump
    point and an asteroid with its field (-1 for none). *)
Definition Candidates : Type := (Z * (Z * Z * Z * Z))%type.

(** The first half of [input_clickPos], up to the two rejections: which
    pilot and which asset a click of [button] at ([x], [y]) may mean. *)
Definition input_clickPos_candidates (w : World) (button : Z)
    (x y zoom minpr minr : float) (s : State) : Candidates * State :=
  (* Don't allow selecting a new target with the right mouse button
     (prevents pilots from getting in the way of autonav). *)
  let '(dp, pid) :=
    if button =? SDL_BUTTON_RIGHT then
      let pid := player_target w in
      (pow2 (x - fst (pilot_pos w pid)) + pow2 (y - snd (pilot_pos w pid)),
       pid)%float
    else pilot_getNearestPos w x y in
  let '(d, (pntid, jpid, astid, fieid)) := system_getClosest w x y in
  let rp := MAX (1.5 * PILOT_SIZE_APROX w * pilot_sw w pid / 2 * zoom)%float
              minpr in
  let '(r, s) :=
    if 0 <=? pntid then (* Planet is closer. *)
      (MAX (1.5 * planet_radius w pntid * zoom)%float minr, s)
    else if 0 <=? jpid then
      (MAX (1.5 * jump_radius w jpid * zoom)%float minr, s)
    else if 0 <=? astid then
      (MAX (MAX (fst (asteroid_gfx w fieid astid) * zoom)%float minr)
         (snd (asteroid_gfx w fieid astid) * zoom)%float,
       if asteroid_gfx_known w fieid astid then s
       else call (WARN "Gfx index out of range" "") s)
    else (0%float, s) in
  (* Reject pilot if it's too far or a valid asset is closer. *)
  let pid := if (pow2 rp <? dp)%float
                || ((d <? pow2 r)%float && (d <? dp)%float)
             then PLAYER_ID else pid in
  let assets :=
    if (pow2 r <? d)%float (* Planet or jump point is too far. *)
    then (-1, -1, -1, -1) else (pntid, jpid, astid, fieid) in
  ((pid, assets), s).

(** The second half of [input_clickPos]: target a pilot, planet or jump,
    and/or perform an appropriate action. *)
Definition input_clickPos_act (w : World) (button : Z) (x y : float)
    (cand : Candidates) (s : State) : bool * State :=
  let '(pid, (pntid, jpid, astid, fieid)) := cand in
  if button =? SDL_BUTTON_LEFT then
    if negb (pid =? PLAYER_ID) then input_clickedPilot w pid false s
    else if 0 <=? pntid then input_clickedPlanet w pntid false s
    else if 0 <=? jpid then input_clickedJump w jpid false s
    else if 0 <=? astid then input_clickedAsteroid w fieid astid s
    else (false, s)
  (* Right click only controls autonav. *)
  else if button =? SDL_BUTTON_RIGHT then
    let '(used, s) := if negb (pid =? PLAYER_ID)
                      then input_clickedPilot w pid true s else (false, s) in
    if used then (true, s)
    else
      let '(used, s) := if 0 <=? pntid
                        then input_clickedPlanet w pntid true s
                        else (false, s) in
      if used then (true, s)
      else
        let '(used, s) := if 0 <=? jpid
                          then input_clickedJump w jpid true s
                          else (false, s) in
        if used then (true, s)
        else
          (* Go to position, if the position is >= 1500 px away. *)
          (true,
           if (double_of_int (1500 * 1500)
               <=? pow2 (x - fst (player_pos w))
                   + pow2 (y - snd (player_pos w)))%float
           then call (player_autonavPos x y) s
           else s)
  else (false, s).

(** [input_clickPos]: a click of [button] at ([x], [y]) in the system;
    the result is whether the click was used to trigger an action. *)
Definition input_clickPos (w : World) (button : Z) (x y zoom minpr minr : float)
    (s : State) : bool * State :=
  let '(cand, s) := input_clickPos_candidates w button x y zoom minpr minr s in
  input_clickPos_act w button x y cand s.

(** Border targeting in [input_clickevent], first half: the bearing of a
    click at screen position ([mx], [my]). *)
Definition border_mouseang (w : World) (mx my : Z) : float * float * float :=
  let px := fst (player_pos w) in
  let py := snd (player_pos w) in
  let x := ((double_of_int mx - (double_of_int (gl_screen_w w) / 2)) + px)%float in
  let y := ((double_of_int my - (double_of_int (gl_screen_h w) / 2)) + py)%float in
  (x, y, atan2 w (py - y)%float (px - x)%float).

(** Border targeting, second half: the nearest pilot and the nearest asset
    by angle, each rejected when its angle is too far from the bearing, the
    pilot also when the asset is closer by angle. *)
Definition input_clickevent_border_candidates (w : World) (mx my : Z)
    : Candidates :=
  let '(x, y, mouseang) := border_mouseang w mx my in
  let '(angp, pid) := pilot_getNearestAng w mouseang in
  let '(ang, (pntid, jpid, astid, fieid)) :=
    system_getClosestAng w x y mouseang in
  let pid :=
    if (M_PI / 64 <? ABS (angle_diff w mouseang angp))%float
       || (ABS (angle_diff w mouseang ang)
           <? ABS (angle_diff w mouseang angp))%float
    then PLAYER_ID (* Pilot angle is too great, or planet/jump is closer. *)
    else pid in
  let assets :=
    if (M_PI / 64 <? ABS (angle_diff w mouseang ang))%float
    then (-1, -1, -1, -1) (* Asset angle difference is too great. *)
    else (pntid, jpid, astid, fieid) in
  (pid, assets).

(** The border-targeting block of [input_clickevent]: a click at screen
    position ([mx], [my]) within 15 pixels of an edge is resolved by angle.
    The result is whether a handler used the click (the [return]s of the
    block). *)
Definition input_clickevent_border (w : World) (mx my : Z) (autonav : bool)
    (s : State) : bool * State :=
  let '(pid, (pntid, jpid, astid, fieid)) :=
    input_clickevent_border_candidates w mx my in
  if negb (pid =? PLAYER_ID) then input_clickedPilot w pid autonav s
  else if 0 <=? pntid then (* Planet is closest. *)
    input_clickedPlanet w pntid autonav s
  else if 0 <=? jpid then (* Jump point is closest. *)
    input_clickedJump w jpid autonav s
  else if 0 <=? astid then (* Asteroid is closest. *)
    input_clickedAsteroid w fieid astid s
  else (false, s).

(** Whether the screen position is within 15 pixels of an edge. *)
Definition on_border (w : World) (mx my : Z) : bool :=
  ((mx <=? 15) || (my <=? 15))
  || ((gl_screen_h w - 15 <=? my) || (gl_screen_w w - 15 <=? mx)).

(** The end of [input_clickevent], "handle as a normal click": the radar
    gets the click first, then the position under the cursor is resolved
    by distance. *)
Definition input_clickevent_normal (w : World) (button mx my : Z) : Cmd :=
  fun s =>
  let s := call gui_radarClickEvent s in
  if radar_takes_click w then s
  else
    (* Visual (on-screen) *)
    let '(x, y) :=
      gl_screenToGameCoords w (double_of_int mx) (double_of_int my) in
    let res := int_of_double (1 / cam_getZoom w)%float in
    let zoom := double_of_int res in
    snd (input_clickPos w button x y zoom
           (10 * double_of_int res)%float (15 * double_of_int res)%float s).

(** [input_clickevent]: a mouse-button-down event of [button] at window
    position ([ex], [ey]). *)
Definition input_clickevent (w : World) (button ex ey : Z) : Cmd := fun s =>
  (* Generate hook. *)
  let s := call (hooks_runParam_mouse button) s in
  (* Player must not be NULL. *)
  if negb (player_p w) || player_isFlag PLAYER_DESTROYED s then s
  (* Player must not be dead. *)
  else if pilot_isFlag w PILOT_DEAD then s
  (* Middle mouse enables mouse flying. *)
  else if button =? SDL_BUTTON_MIDDLE then call player_toggleMouseFly s
  (* Mouse targeting only uses left and right buttons. *)
  else if negb (button =? SDL_BUTTON_LEFT) && negb (button =? SDL_BUTTON_RIGHT)
  then s
  else
    let autonav := button =? SDL_BUTTON_RIGHT in
    let '(mx, my) := gl_windowToScreenPos w ex ey in
    let '(used, s) :=
      if on_border w mx my
      then
        (* Border targeting is handled as a special case, as it uses
           angles, not coordinates. *)
        input_clickevent_border w mx my autonav s
      else (false, s) in
    if used then s
    else
      (* Fall-through and handle as a normal click. *)
      input_clickevent_normal w button mx my s.

(** ** Specification-side definitions *)

(** The filter rule for keyboard events in the spec's words: a binding
    fires when its kind is Keyboard, its key is the event's key and its
    mask equals the translated mask, or is Any, or the event is a release;
    a disabled binding suppresses presses only. *)
Definition binding_fires (event : Z) (k : SDL_Keycode)
    (mod_filtered : SDL_Keymod) (b : Keybind) : bool :=
  KeybindType_eqb (type b) KEYBIND_KEYBOARD
  && (key b =? k)
  && ((mod_ b =? mod_filtered) || (mod_ b =? NMOD_ANY)
      || event_is event KEY_RELEASE)
  && negb (event_is event KEY_PRESS && disabled b).

(** The indices among [from], ..., [from + n - 1] whose binding fires, in
    table order. *)
Definition firing_indices (event : Z) (k : SDL_Keycode)
    (mod_filtered : SDL_Keymod) (binds : list Keybind) (from n : nat)
    : list nat :=
  filter (fun i => match nth_error binds i with
                   | Some b => binding_fires event k mod_filtered b
                   | None => false
                   end)
    (seq from n).

(** The repeat record: the held key, the tick of its press and the number
    of repeats so far. *)
Definition repeat_record (s : State) : Z * Z * Z :=
  (repeat_key s, repeat_keyTimer s, repeat_keyCounter s).


(** The variables that the chain of [input_key] never assigns: the table,
    the repeat record, the mouse variables and the dispatch history. *)
Definition same_bookkeeping (s s' : State) : Prop :=
  input_keybinds s' = input_keybinds s
  /\ dispatched s' = dispatched s
  /\ repeat_key s' = repeat_key s
  /\ repeat_keyTimer s' = repeat_keyTimer s
  /\ repeat_keyCounter s' = repeat_keyCounter s
  /\ input_mouseClickLast s' = input_mouseClickLast s
  /\ input_lastClicked s' = input_lastClicked s.

(** A click on an entity, whatever its kind: the handler that
    [input_clickPos] and [input_clickevent] call for it. *)
Definition input_clickedEntity (w : World) (c : Clicked) (autonav : bool)
    (s : State) : bool * State :=
  match c with
  | PilotPtr id => input_clickedPilot w id autonav s
  | PlanetPtr id => input_clickedPlanet w id autonav s
  | JumpPtr id => input_clickedJump w id autonav s
  | AsteroidPtr f a => input_clickedAsteroid w f a s
  end.

(** The entity can be selected by a click: a pilot other than the player,
    a known planet, a usable jump point, any asteroid. *)
Definition selectable (w : World) (c : Clicked) : bool :=
  match c with
  | PilotPtr id => negb (id =? PLAYER_ID)
  | PlanetPtr id => planet_isKnown w id
  | JumpPtr id => jp_isUsable w id
  | AsteroidPtr _ _ => true
  end.

(** The entity is what the player currently targets (asteroid targets
    take no part in double-clicks). *)
Definition already_targeted (w : World) (c : Clicked) : bool :=
  match c with
  | PilotPtr id => id =? player_target w
  | PlanetPtr id => id =? player_nav_planet w
  | JumpPtr id => id =? player_nav_hyperspace w
  | AsteroidPtr _ _ => false
  end.

(** The calls that make up the primary action of an entity: board or hail
    a pilot, land on or hail a planet, jump (when the ship can). *)
Definition primary_action (w : World) (c : Clicked) : list Call :=
  match c with
  | PilotPtr id =>
      [if pilot_isDisabled w id || pilot_isBoardable w id
       then player_board else player_hail]
  | PlanetPtr id =>
      [player_hyperspacePreempt 0;
       if (planet_faction w id <? 0) || planet_can_land w id
          || planet_bribed w id || (0 <? planet_land_override w id)
       then player_land else player_hailPlanet]
  | JumpPtr id => if space_canHyperspace w then [player_jump] else []
  | AsteroidPtr _ _ => []
  end.

(** The calls that merely select an entity. *)
Definition select_action (c : Clicked) : list Call :=
  match c with
  | PilotPtr id => [player_targetSet id]
  | PlanetPtr id => [player_targetPlanetSet id]
  | JumpPtr id => [player_targetHyperspaceSet id]
  | AsteroidPtr f a => [player_targetAsteroidSet f a]
  end.

(** The window of the double-click fits an [int], so that the conversion
    [(int)(conf.mouse_doubleclick * 1000)] is defined. *)
Definition window_fits_int (w : World) : Prop :=
  (mouse_doubleclick (conf w) * 1000 <? 2147483648)%float = true.

(** The entities whose handler tells a right (autonav) click from a left
    one: [input_clickedAsteroid] does not. *)
Definition has_autonav (c : Clicked) : bool :=
  match c with
  | AsteroidPtr _ _ => false
  | _ => true
  end.

(** The calls of a right (autonav) click on an entity. *)
Definition autonav_action (w : World) (c : Clicked) : list Call :=
  match c with
  | PilotPtr id => [player_targetSet id; player_autonavPil id]
  | PlanetPtr id => [player_targetPlanetSet id; player_autonavPnt id]
  | JumpPtr id =>
      (if negb (player_nav_hyperspace w =? id) then [map_select id] else [])
      ++ [player_targetHyperspaceSet id; player_autonavStart]
  | AsteroidPtr f a => [player_targetAsteroidSet f a]
  end.

(** The calls of a click on an entity that the player targets and, for a
    left click, double-clicks: autonav for a right click, the primary
    action for a left one. *)
Definition click_action (w : World) (c : Clicked) (autonav : bool)
    : list Call :=
  if autonav then autonav_action w c else primary_action w c.

(** Clicks on the entity [c], one per element of [clicks], in order: a
    right (autonav) click in the world of the element when its flag is
    set, a left click otherwise. *)
Definition clicks_on (c : Clicked) (clicks : list (bool * World)) (s : State)
    : State :=
  fold_left (fun s click => snd (input_clickedEntity (snd click) c (fst click) s))
    clicks s.

(** Every right click of [clicks] finds [c] selectable (and [c] is no
    asteroid); every left click comes with double-click detection enabled
    and a window that fits an [int], finds [c] selectable and targeted, and
    is at most the double-click window after the left click before it, the
    first one after tick [last]; and the deadline [last + window] fits 32
    bits.  Right clicks in between do not count. *)
Fixpoint quick_clicks (c : Clicked) (last : Z) (clicks : list (bool * World))
    : Prop :=
  match clicks with
  | [] => True
  | (true, w) :: rest =>
      has_autonav c = true
      /\ selectable w c = true
      /\ quick_clicks c last rest
  | (false, w) :: rest =>
      (0 <? mouse_doubleclick (conf w))%float = true
      /\ window_fits_int w
      /\ selectable w c = true
      /\ already_targeted w c = true
      /\ last <= SDL_GetTicks w <= last + doubleclick_ms w
      /\ last + doubleclick_ms w < 2 ^ 32
      /\ quick_clicks c (SDL_GetTicks w) rest
  end.

(** The square of the distance between a click at ([x], [y]) and the
    player's ship, as [input_clickPos] computes it. *)
Definition click_distance2 (w : World) (x y : float) : float :=
  (pow2 (x - fst (player_pos w)) + pow2 (y - snd (player_pos w)))%float.

(** The angular deviations that border targeting compares: of the nearest
    pilot by angle and of the nearest asset by angle from the bearing of
    the click, and the pilot that [pilot_getNearestAng] proposes. *)
Definition border_pilot (w : World) (mx my : Z) : Z :=
  snd (pilot_getNearestAng w (snd (border_mouseang w mx my))).
Definition border_pilot_deviation (w : World) (mx my : Z) : float :=
  let mouseang := snd (border_mouseang w mx my) in
  ABS (angle_diff w mouseang (fst (pilot_getNearestAng w mouseang))).
Definition border_asset_deviation (w : World) (mx my : Z) : float :=
  let '(x, y, mouseang) := border_mouseang w mx my in
  ABS (angle_diff w mouseang (fst (system_getClosestAng w x y mouseang))).

(** Whether a call is the "input" hook, and how many of a trace are. *)
Definition is_input_hook (c : Call) : bool :=
  match c with
  | hooks_runParam_input _ _ => true
  | _ => false
  end.

Definition count_input_hooks (l : list Call) : nat :=
  List.length (filter is_input_hook l).

(** ** Sample inputs *)

Definition no_asset : Z * Z * Z * Z := (-1, -1, -1, -1).

(** A world with the player alive, in game and in open space, alone in an
    empty system, seen through a 1280x720 window at zoom 1; [c] is the
    configuration and [ticks] the tick counter. *)
Definition quiet_world (c : Conf) (ticks : Z) : World :=
  {| conf := c;
     SDL_GetTicks := ticks;
     toolkit_isOpen := false;
     map_isOpen := false;
     paused := false;
     landed := false;
     player_p := true;
     pilot_isFlag := fun _ => false;
     player_pos := (0%float, 0%float);
     player_target := PLAYER_ID;
     player_nav_planet := -1;
     player_nav_hyperspace := -1;
     space_canHyperspace := false;
     pilot_pos := fun _ => (0%float, 0%float);
     pilot_sw := fun _ => 0%float;
     pilot_isDisabled := fun _ => false;
     pilot_isBoardable := fun _ => false;
     PILOT_SIZE_APROX := 0.8%float;
     pilot_getNearestPos := fun x y => ((x * x + y * y)%float, PLAYER_ID);
     pilot_getNearestAng := fun _ => (0%float, PLAYER_ID);
     system_getClosest := fun _ _ => (infinity, no_asset);
     system_getClosestAng := fun _ _ _ => (100%float, no_asset);
     planet_radius := fun _ => 0%float;
     planet_isKnown := fun _ => false;
     planet_faction := fun _ => 0;
     planet_can_land := fun _ => false;
     planet_bribed := fun _ => false;
     planet_land_override := fun _ => 0;
     jump_radius := fun _ => 0%float;
     jp_isUsable := fun _ => false;
     asteroid_gfx_known := fun _ _ => true;
     asteroid_gfx := fun _ _ => (0%float, 0%float);
     gl_windowToScreenPos := fun x y => (x, 720 - y);
     gl_screen_w := 1280;
     gl_screen_h := 720;
     gl_screenToGameCoords :=
       fun x y => ((x - 640)%float, (y - 360)%float);
     cam_getZoom := 1%float;
     radar_takes_click := false;
     atan2 := fun _ _ => 0%float;
     angle_diff := fun ref a => (a - ref)%float |}.

(** Key repeat after 500 ms every 30 ms, afterburner on a double tap
    within 250 ms, double clicks within half a second. *)
Definition usual_conf : Conf :=
  {| repeat_delay := 500; repeat_freq := 30; afterburn_sens := 250;
     mouse_doubleclick := 0.5%float |}.


(** The table after [input_init] with "accel" on the key [a] and on the
    positive side of joystick axis 1. *)
Definition accel_on_a : State :=
  input_setKeybind "accel" KEYBIND_KEYBOARD 97 NMOD_ANY input_init.


(** The key [a] pressed at tick 1000, released at 1050, pressed again at
    1100 and released at 1150, as keyboard events without modifiers. *)
Definition tap1_down : State :=
  input_keyevent (quiet_world usual_conf 1000) 1 97 0 false accel_on_a.

(** The quiet world with the pilot, planet and jump point [id] targeted. *)
Definition targeting (id : Z) (w : World) : World :=
  {| conf := conf w;
     SDL_GetTicks := SDL_GetTicks w;
     toolkit_isOpen := toolkit_isOpen w;
     map_isOpen := map_isOpen w;
     paused := paused w;
     landed := landed w;
     player_p := player_p w;
     pilot_isFlag := pilot_isFlag w;
     player_pos := player_pos w;
     player_target := id;
     player_nav_planet := id;
     player_nav_hyperspace := id;
     space_canHyperspace := space_canHyperspace w;
     pilot_pos := pilot_pos w;
     pilot_sw := pilot_sw w;
     pilot_isDisabled := pilot_isDisabled w;
     pilot_isBoardable := pilot_isBoardable w;
     PILOT_SIZE_APROX := PILOT_SIZE_APROX w;
     pilot_getNearestPos := pilot_getNearestPos w;
     pilot_getNearestAng := pilot_getNearestAng w;
     system_getClosest := system_getClosest w;
     system_getClosestAng := system_getClosestAng w;
     planet_radius := planet_radius w;
     planet_isKnown := planet_isKnown w;
     planet_faction := planet_faction w;
     planet_can_land := planet_can_land w;
     planet_bribed := planet_bribed w;
     planet_land_override := planet_land_override w;
     jump_radius := jump_radius w;
     jp_isUsable := jp_isUsable w;
     asteroid_gfx_known := asteroid_gfx_known w;
     asteroid_gfx := asteroid_gfx w;
     gl_windowToScreenPos := gl_windowToScreenPos w;
     gl_screen_w := gl_screen_w w;
     gl_screen_h := gl_screen_h w;
     gl_screenToGameCoords := gl_screenToGameCoords w;
     cam_getZoom := cam_getZoom w;
     radar_takes_click := radar_takes_click w;
     atan2 := atan2 w;
     angle_diff := angle_diff w |}.

(** A first left click on pilot 7 at tick 1000, and one 100 ms before the
    tick counter wraps. *)
Definition clicked_7_at_1000 : State :=
  snd (input_clickedPilot (quiet_world usual_conf 1000) 7 false input_init).
Definition clicked_7_before_wrap : State :=
  snd (input_clickedPilot (quiet_world usual_conf 4294967196) 7 false
         input_init).

(** Further clicks on the targeted pilot 7: a left click, a right click,
    and two more left clicks, each left click within half a second of the
    left click before. *)
Definition more_clicks_on_7 : list (bool * World) :=
  [ (false, targeting 7 (quiet_world usual_conf 1100));
    (true, targeting 7 (quiet_world usual_conf 1300));
    (false, targeting 7 (quiet_world usual_conf 1500));
    (false, targeting 7 (quiet_world usual_conf 1990)) ].

(** The key [a], bound to "accel", pressed at tick 4294966791, 505 ms
    before the 32-bit tick counter wraps. *)
Definition held_before_wrap : State :=
  input_keyevent (quiet_world usual_conf 4294966791) 1 97 0 false accel_on_a.

(** A right click on pilot 7 at tick 100. *)
Definition autonav_7_at_100 : State :=
  snd (input_clickedPilot (quiet_world usual_conf 100) 7 true input_init).

(** "accel" on the positive side of joystick axis 1. *)
Definition accel_on_axis : State :=
  input_setKeybind "accel" KEYBIND_JAXISPOS 1 NMOD_NONE input_init.

(** Pilot 7, a ship 200 units wide, sits 745 units to the left of the
    player and 40 above, past the left edge of the window (which is 640
    units from the player at zoom 1); the system is empty.  Seen from the
    player the pilot is 0.05364 rad off the horizontal, along which a click
    on the left edge of the window at mid-height points.  Angles are those
    of the vector from the object to the player, as [input_clickevent]
    takes the bearing of the click. *)
Definition pilot_past_left_edge : World :=
  {| conf := usual_conf;
     SDL_GetTicks := 1000;
     toolkit_isOpen := false;
     map_isOpen := false;
     paused := false;
     landed := false;
     player_p := true;
     pilot_isFlag := fun _ => false;
     player_pos := (0%float, 0%float);
     player_target := PLAYER_ID;
     player_nav_planet := -1;
     player_nav_hyperspace := -1;
     space_canHyperspace := false;
     pilot_pos := fun _ => ((-745)%float, 40%float);
     pilot_sw := fun _ => 200%float;
     pilot_isDisabled := fun _ => false;
     pilot_isBoardable := fun _ => false;
     PILOT_SIZE_APROX := 0.8%float;
     pilot_getNearestPos :=
       fun x y => ((pow2 (x + 745) + pow2 (y - 40))%float, 7);
     pilot_getNearestAng := fun _ => ((-0.05364)%float, 7);
     system_getClosest := fun _ _ => (infinity, no_asset);
     system_getClosestAng := fun _ _ ang => ((ang + M_PI)%float, no_asset);
     planet_radius := fun _ => 0%float;
     planet_isKnown := fun _ => false;
     planet_faction := fun _ => 0;
     planet_can_land := fun _ => false;
     planet_bribed := fun _ => false;
     planet_land_override := fun _ => 0;
     jump_radius := fun _ => 0%float;
     jp_isUsable := fun _ => false;
     asteroid_gfx_known := fun _ _ => true;
     asteroid_gfx := fun _ _ => (0%float, 0%float);
     gl_windowToScreenPos := fun x y => (x, 720 - y);
     gl_screen_w := 1280;
     gl_screen_h := 720;
     gl_screenToGameCoords :=
       fun x y => ((x - 640)%float, (y - 360)%float);
     cam_getZoom := 1%float;
     radar_takes_click := false;
     atan2 := fun y x => if ((y =? 0) && (0 <? x))%float then 0%float
                         else nan;
     angle_diff := fun ref a => (a - ref)%float |}.

(** A click points at bearing 0; the nearest pilot by angle is pilot 7 at
    angle [angp] and the nearest asset by angle the known planet 3 at
    angle [ang]. *)
Definition two_candidates (angp ang : float) : World :=
  {| conf := usual_conf;
     SDL_GetTicks := 1000;
     toolkit_isOpen := false;
     map_isOpen := false;
     paused := false;
     landed := false;
     player_p := true;
     pilot_isFlag := fun _ => false;
     player_pos := (0%float, 0%float);
     player_target := PLAYER_ID;
     player_nav_planet := -1;
     player_nav_hyperspace := -1;
     space_canHyperspace := false;
     pilot_pos := fun _ => (0%float, 0%float);
     pilot_sw := fun _ => 100%float;
     pilot_isDisabled := fun _ => false;
     pilot_isBoardable := fun _ => false;
     PILOT_SIZE_APROX := 0.8%float;
     pilot_getNearestPos := fun _ _ => (infinity, 7);
     pilot_getNearestAng := fun _ => (angp, 7);
     system_getClosest := fun _ _ => (infinity, (3, -1, -1, -1));
     system_getClosestAng := fun _ _ _ => (ang, (3, -1, -1, -1));
     planet_radius := fun _ => 100%float;
     planet_isKnown := fun _ => true;
     planet_faction := fun _ => 0;
     planet_can_land := fun _ => false;
     planet_bribed := fun _ => false;
     planet_land_override := fun _ => 0;
     jump_radius := fun _ => 0%float;
     jp_isUsable := fun _ => false;
     asteroid_gfx_known := fun _ _ => true;
     asteroid_gfx := fun _ _ => (0%float, 0%float);
     gl_windowToScreenPos := fun x y => (x, 720 - y);
     gl_screen_w := 1280;
     gl_screen_h := 720;
     gl_screenToGameCoords :=
       fun x y => ((x - 640)%float, (y - 360)%float);
     cam_getZoom := 1%float;
     radar_takes_click := false;
     atan2 := fun _ _ => 0%float;
     angle_diff := fun ref a => (a - ref)%float |}.

(** "accel" on the key [w] with any modifier, "primary" on the same key
    without modifier, and "board" on it with Ctrl, then disabled.  They are
    rows 0, 11 and 13 of the table. *)
Definition three_on_w : State :=
  input_toggleEnable "board" false
    (input_setKeybind "board" KEYBIND_KEYBOARD 119 NMOD_CTRL
       (input_setKeybind "primary" KEYBIND_KEYBOARD 119 NMOD_NONE
          (input_setKeybind "accel" KEYBIND_KEYBOARD 119 NMOD_ANY
             input_init))).

(** * The rest of [input.c] *)

(** ** The table of actions with its descriptions *)

(** [keybind_info] in full: the name of each action, its title and its
    description ([gettext_noop] marks the last two for translation). *)
Definition keybind_info_rows : list (string * string * string) :=
  [
  ("accel", "Accelerate",
   "Makes your ship accelerate forward.");
  ("left", "Turn Left",
   "Makes your ship turn left.");
  ("right", "Turn Right",
   "Makes your ship turn right.");
  ("reverse", "Reverse",
   "Makes your ship face the direction you're moving from. Useful for braking.");
  ("target_next", "Target Next",
   "Cycles through ship targets.");
  ("target_prev", "Target Previous",
   "Cycles backwards through ship targets.");
  ("target_nearest", "Target Nearest",
   "Targets the nearest non-disabled ship.");
  ("target_nextHostile", "Target Next Hostile",
   "Cycles through hostile ship targets.");
  ("target_prevHostile", "Target Previous Hostile",
   "Cycles backwards through hostile ship targets.");
  ("target_hostile", "Target Nearest Hostile",
   "Targets the nearest hostile ship.");
  ("target_clear", "Clear Target",
   "Clears the currently-targeted ship, planet or jump point.");
  ("primary", "Fire Primary Weapon",
   "Fires primary weapons.");
  ("face", "Face Target",
   "Faces the targeted ship if one is targeted, otherwise faces targeted planet or jump point.");
  ("board", "Board Target",
   "Attempts to board the targeted ship.");
  ("secondary", "Fire Secondary Weapon",
   "Fires secondary weapons.");
  ("weapset1", "Weapon Set 1",
   "Activates weapon set 1.");
  ("weapset2", "Weapon Set 2",
   "Activates weapon set 2.");
  ("weapset3", "Weapon Set 3",
   "Activates weapon set 3.");
  ("weapset4", "Weapon Set 4",
   "Activates weapon set 4.");
  ("weapset5", "Weapon Set 5",
   "Activates weapon set 5.");
  ("weapset6", "Weapon Set 6",
   "Activates weapon set 6.");
  ("weapset7", "Weapon Set 7",
   "Activates weapon set 7.");
  ("weapset8", "Weapon Set 8",
   "Activates weapon set 8.");
  ("weapset9", "Weapon Set 9",
   "Activates weapon set 9.");
  ("weapset0", "Weapon Set 0",
   "Activates weapon set 0.");
  ("e_targetNext", "Target Next Escort",
   "Cycles through your escorts.");
  ("e_targetPrev", "Target Previous Escort",
   "Cycles backwards through your escorts.");
  ("e_attack", "Escort Attack Command",
   "Orders escorts to attack your target.");
  ("e_hold", "Escort Hold Command",
   "Orders escorts to hold their positions.");
  ("e_return", "Escort Return Command",
   "Orders escorts to return to your ship hangars.");
  ("e_clear", "Escort Clear Commands",
   "Clears your escorts of commands.");
  ("autonav", "Autonavigation On",
   "Initializes the autonavigation system.");
  ("target_planet", "Target Planet",
   "Cycles through planet targets.");
  ("land", "Land",
   "Attempts to land on the targeted planet or targets the nearest landable planet. Requests permission if necessary.");
  ("thyperspace", "Target Jumpgate",
   "Cycles through jump points.");
  ("starmap", "Star Map",
   "Opens the star map.");
  ("jump", "Initiate Jump",
   "Attempts to jump via a jump point.");
  ("overlay", "Overlay Map",
   "Opens the in-system overlay map.");
  ("mousefly", "Mouse Flight",
   "Toggles mouse flying.");
  ("autobrake", "Autobrake",
   "Begins automatic braking or active cooldown, if stopped.");
  ("log_up", "Log Scroll Up",
   "Scrolls the log upwards.");
  ("log_down", "Log Scroll Down",
   "Scrolls the log downwards.");
  ("hail", "Hail Target",
   "Attempts to initialize communication with the targeted ship.");
  ("autohail", "Autohail",
   "Automatically initialize communication with a ship that is hailing you.");
  ("mapzoomin", "Radar Zoom In",
   "Zooms in on the radar.");
  ("mapzoomout", "Radar Zoom Out",
   "Zooms out on the radar.");
  ("screenshot", "Screenshot",
   "Takes a screenshot.");
  ("togglefullscreen", "Toggle Fullscreen",
   "Toggles between windowed and fullscreen mode.");
  ("pause", "Pause",
   "Pauses the game.");
  ("speed", "Toggle Speed",
   "Toggles speed modifier.");
  ("menu", "Small Menu",
   "Opens the small in-game menu.");
  ("info", "Information Menu",
   "Opens the information menu.");
  ("console", "Lua Console",
   "Opens the Lua console.");
  ("switchtab1", "Switch Tab 1",
   "Switches to tab 1.");
  ("switchtab2", "Switch Tab 2",
   "Switches to tab 2.");
  ("switchtab3", "Switch Tab 3",
   "Switches to tab 3.");
  ("switchtab4", "Switch Tab 4",
   "Switches to tab 4.");
  ("switchtab5", "Switch Tab 5",
   "Switches to tab 5.");
  ("switchtab6", "Switch Tab 6",
   "Switches to tab 6.");
  ("switchtab7", "Switch Tab 7",
   "Switches to tab 7.");
  ("switchtab8", "Switch Tab 8",
   "Switches to tab 8.");
  ("switchtab9", "Switch Tab 9",
   "Switches to tab 9.");
  ("switchtab0", "Switch Tab 0",
   "Switches to tab 0.")
  ].

(** ** Default bindings *)

(** SDL's key codes ([SDL_keycode.h]): a key with a character is that
    character, any other key is its scancode with bit 30 set. *)
Definition SDLK_SCANCODE_MASK : Z := Z.shiftl 1 30.
Definition SDL_SCANCODE_TO_KEYCODE (X : Z) : SDL_Keycode :=
  Z.lor X SDLK_SCANCODE_MASK.

Definition SDLK_BACKSPACE : SDL_Keycode := 8.
Definition SDLK_TAB : SDL_Keycode := 9.
Definition SDLK_ESCAPE : SDL_Keycode := 27.
Definition SDLK_SPACE : SDL_Keycode := 32.
Definition SDLK_BACKQUOTE : SDL_Keycode := 96.
Definition SDLK_DELETE : SDL_Keycode := 127.
Definition SDLK_0 : SDL_Keycode := 48.
Definition SDLK_1 : SDL_Keycode := 49.
Definition SDLK_2 : SDL_Keycode := 50.
Definition SDLK_3 : SDL_Keycode := 51.
Definition SDLK_4 : SDL_Keycode := 52.
Definition SDLK_5 : SDL_Keycode := 53.
Definition SDLK_6 : SDL_Keycode := 54.
Definition SDLK_7 : SDL_Keycode := 55.
Definition SDLK_8 : SDL_Keycode := 56.
Definition SDLK_9 : SDL_Keycode := 57.
Definition SDLK_a : SDL_Keycode := 97.
Definition SDLK_b : SDL_Keycode := 98.
Definition SDLK_c : SDL_Keycode := 99.
Definition SDLK_d : SDL_Keycode := 100.
Definition SDLK_e : SDL_Keycode := 101.
Definition SDLK_h : SDL_Keycode := 104.
Definition SDLK_i : SDL_Keycode := 105.
Definition SDLK_j : SDL_Keycode := 106.
Definition SDLK_l : SDL_Keycode := 108.
Definition SDLK_m : SDL_Keycode := 109.
Definition SDLK_n : SDL_Keycode := 110.
Definition SDLK_p : SDL_Keycode := 112.
Definition SDLK_q : SDL_Keycode := 113.
Definition SDLK_r : SDL_Keycode := 114.
Definition SDLK_s : SDL_Keycode := 115.
Definition SDLK_t : SDL_Keycode := 116.
Definition SDLK_w : SDL_Keycode := 119.
Definition SDLK_x : SDL_Keycode := 120.
Definition SDLK_y : SDL_Keycode := 121.
Definition SDLK_z : SDL_Keycode := 122.
Definition SDLK_F2 : SDL_Keycode := SDL_SCANCODE_TO_KEYCODE 59.
Definition SDLK_F11 : SDL_Keycode := SDL_SCANCODE_TO_KEYCODE 68.
Definition SDLK_PAUSE : SDL_Keycode := SDL_SCANCODE_TO_KEYCODE 72.
Definition SDLK_INSERT : SDL_Keycode := SDL_SCANCODE_TO_KEYCODE 73.
Definition SDLK_HOME : SDL_Keycode := SDL_SCANCODE_TO_KEYCODE 74.
Definition SDLK_PAGEUP : SDL_Keycode := SDL_SCANCODE_TO_KEYCODE 75.
Definition SDLK_END : SDL_Keycode := SDL_SCANCODE_TO_KEYCODE 77.
Definition SDLK_PAGEDOWN : SDL_Keycode := SDL_SCANCODE_TO_KEYCODE 78.
Definition SDLK_RIGHT : SDL_Keycode := SDL_SCANCODE_TO_KEYCODE 79.
Definition SDLK_LEFT : SDL_Keycode := SDL_SCANCODE_TO_KEYCODE 80.
Definition SDLK_DOWN : SDL_Keycode := SDL_SCANCODE_TO_KEYCODE 81.
Definition SDLK_UP : SDL_Keycode := SDL_SCANCODE_TO_KEYCODE 82.
Definition SDLK_KP_MULTIPLY : SDL_Keycode := SDL_SCANCODE_TO_KEYCODE 85.
Definition SDLK_KP_MINUS : SDL_Keycode := SDL_SCANCODE_TO_KEYCODE 86.
Definition SDLK_KP_PLUS : SDL_Keycode := SDL_SCANCODE_TO_KEYCODE 87.
Definition SDLK_LSHIFT : SDL_Keycode := SDL_SCANCODE_TO_KEYCODE 225.

(** [input_setDefault]: sets the default input keys, of the WASD layout
    when [wasd]. *)
Definition input_setDefault (wasd : bool) : Cmd :=
  (* Movement *)
  (if wasd then
     input_setKeybind "accel" KEYBIND_KEYBOARD SDLK_w NMOD_ANY ;;
     input_setKeybind "left" KEYBIND_KEYBOARD SDLK_a NMOD_ANY ;;
     input_setKeybind "right" KEYBIND_KEYBOARD SDLK_d NMOD_ANY ;;
     input_setKeybind "reverse" KEYBIND_KEYBOARD SDLK_s NMOD_ANY
   else
     input_setKeybind "accel" KEYBIND_KEYBOARD SDLK_UP NMOD_ANY ;;
     input_setKeybind "left" KEYBIND_KEYBOARD SDLK_LEFT NMOD_ANY ;;
     input_setKeybind "right" KEYBIND_KEYBOARD SDLK_RIGHT NMOD_ANY ;;
     input_setKeybind "reverse" KEYBIND_KEYBOARD SDLK_DOWN NMOD_ANY) ;;
  (* Targeting *)
  (if wasd then
     input_setKeybind "target_next" KEYBIND_KEYBOARD SDLK_e NMOD_CTRL ;;
     input_setKeybind "target_prev" KEYBIND_KEYBOARD SDLK_q NMOD_CTRL ;;
     input_setKeybind "target_nearest" KEYBIND_KEYBOARD SDLK_t NMOD_ANY ;;
     input_setKeybind "target_nextHostile" KEYBIND_NULL SDLK_UNKNOWN NMOD_NONE ;;
     input_setKeybind "target_prevHostile" KEYBIND_NULL SDLK_UNKNOWN NMOD_NONE ;;
     input_setKeybind "target_hostile" KEYBIND_KEYBOARD SDLK_r NMOD_ANY ;;
     input_setKeybind "target_clear" KEYBIND_KEYBOARD SDLK_c NMOD_ANY
   else
     input_setKeybind "target_next" KEYBIND_KEYBOARD SDLK_t NMOD_NONE ;;
     input_setKeybind "target_prev" KEYBIND_KEYBOARD SDLK_t NMOD_CTRL ;;
     input_setKeybind "target_nearest" KEYBIND_KEYBOARD SDLK_n NMOD_NONE ;;
     input_setKeybind "target_nextHostile" KEYBIND_KEYBOARD SDLK_r NMOD_CTRL ;;
     input_setKeybind "target_prevHostile" KEYBIND_NULL SDLK_UNKNOWN NMOD_NONE ;;
     input_setKeybind "target_hostile" KEYBIND_KEYBOARD SDLK_r NMOD_NONE ;;
     input_setKeybind "target_clear" KEYBIND_KEYBOARD SDLK_BACKSPACE NMOD_ANY) ;;
  (* Combat *)
  input_setKeybind "primary" KEYBIND_KEYBOARD SDLK_SPACE NMOD_ANY ;;
  (if wasd then
     input_setKeybind "face" KEYBIND_KEYBOARD SDLK_q NMOD_NONE
   else
     input_setKeybind "face" KEYBIND_KEYBOARD SDLK_a NMOD_ANY) ;;
  input_setKeybind "board" KEYBIND_KEYBOARD SDLK_b NMOD_NONE ;;
  (* Secondary Weapons *)
  input_setKeybind "secondary" KEYBIND_KEYBOARD SDLK_LSHIFT NMOD_ANY ;;
  input_setKeybind "weapset1" KEYBIND_KEYBOARD SDLK_1 NMOD_ANY ;;
  input_setKeybind "weapset2" KEYBIND_KEYBOARD SDLK_2 NMOD_ANY ;;
  input_setKeybind "weapset3" KEYBIND_KEYBOARD SDLK_3 NMOD_ANY ;;
  input_setKeybind "weapset4" KEYBIND_KEYBOARD SDLK_4 NMOD_ANY ;;
  input_setKeybind "weapset5" KEYBIND_KEYBOARD SDLK_5 NMOD_ANY ;;
  input_setKeybind "weapset6" KEYBIND_KEYBOARD SDLK_6 NMOD_ANY ;;
  input_setKeybind "weapset7" KEYBIND_KEYBOARD SDLK_7 NMOD_ANY ;;
  input_setKeybind "weapset8" KEYBIND_KEYBOARD SDLK_8 NMOD_ANY ;;
  input_setKeybind "weapset9" KEYBIND_KEYBOARD SDLK_9 NMOD_ANY ;;
  input_setKeybind "weapset0" KEYBIND_KEYBOARD SDLK_0 NMOD_ANY ;;
  (* Escorts *)
  input_setKeybind "e_targetNext" KEYBIND_NULL SDLK_UNKNOWN NMOD_NONE ;;
  input_setKeybind "e_targetPrev" KEYBIND_NULL SDLK_UNKNOWN NMOD_NONE ;;
  input_setKeybind "e_attack" KEYBIND_KEYBOARD SDLK_END NMOD_ANY ;;
  input_setKeybind "e_hold" KEYBIND_KEYBOARD SDLK_INSERT NMOD_ANY ;;
  input_setKeybind "e_return" KEYBIND_KEYBOARD SDLK_DELETE NMOD_ANY ;;
  input_setKeybind "e_clear" KEYBIND_KEYBOARD SDLK_HOME NMOD_ANY ;;
  (* Space Navigation *)
  input_setKeybind "autonav" KEYBIND_KEYBOARD SDLK_j NMOD_CTRL ;;
  input_setKeybind "target_planet" KEYBIND_KEYBOARD SDLK_p NMOD_NONE ;;
  input_setKeybind "land" KEYBIND_KEYBOARD SDLK_l NMOD_NONE ;;
  input_setKeybind "thyperspace" KEYBIND_KEYBOARD SDLK_h NMOD_NONE ;;
  input_setKeybind "starmap" KEYBIND_KEYBOARD SDLK_m NMOD_NONE ;;
  input_setKeybind "jump" KEYBIND_KEYBOARD SDLK_j NMOD_NONE ;;
  input_setKeybind "overlay" KEYBIND_KEYBOARD SDLK_TAB NMOD_ANY ;;
  input_setKeybind "mousefly" KEYBIND_KEYBOARD SDLK_x NMOD_CTRL ;;
  input_setKeybind "autobrake" KEYBIND_KEYBOARD SDLK_s NMOD_CTRL ;;
  (* Communication *)
  input_setKeybind "log_up" KEYBIND_KEYBOARD SDLK_PAGEUP NMOD_ANY ;;
  input_setKeybind "log_down" KEYBIND_KEYBOARD SDLK_PAGEDOWN NMOD_ANY ;;
  input_setKeybind "hail" KEYBIND_KEYBOARD SDLK_y NMOD_NONE ;;
  input_setKeybind "autohail" KEYBIND_KEYBOARD SDLK_y NMOD_CTRL ;;
  (* Misc. *)
  input_setKeybind "mapzoomin" KEYBIND_KEYBOARD SDLK_KP_PLUS NMOD_ANY ;;
  input_setKeybind "mapzoomout" KEYBIND_KEYBOARD SDLK_KP_MINUS NMOD_ANY ;;
  input_setKeybind "screenshot" KEYBIND_KEYBOARD SDLK_KP_MULTIPLY NMOD_ANY ;;
  input_setKeybind "togglefullscreen" KEYBIND_KEYBOARD SDLK_F11 NMOD_ANY ;;
  input_setKeybind "pause" KEYBIND_KEYBOARD SDLK_PAUSE NMOD_ANY ;;
  input_setKeybind "speed" KEYBIND_KEYBOARD SDLK_BACKQUOTE NMOD_ANY ;;
  input_setKeybind "menu" KEYBIND_KEYBOARD SDLK_ESCAPE NMOD_ANY ;;
  input_setKeybind "info" KEYBIND_KEYBOARD SDLK_i NMOD_NONE ;;
  input_setKeybind "console" KEYBIND_KEYBOARD SDLK_F2 NMOD_ANY ;;
  input_setKeybind "switchtab1" KEYBIND_KEYBOARD SDLK_1 NMOD_ALT ;;
  input_setKeybind "switchtab2" KEYBIND_KEYBOARD SDLK_2 NMOD_ALT ;;
  input_setKeybind "switchtab3" KEYBIND_KEYBOARD SDLK_3 NMOD_ALT ;;
  input_setKeybind "switchtab4" KEYBIND_KEYBOARD SDLK_4 NMOD_ALT ;;
  input_setKeybind "switchtab5" KEYBIND_KEYBOARD SDLK_5 NMOD_ALT ;;
  input_setKeybind "switchtab6" KEYBIND_KEYBOARD SDLK_6 NMOD_ALT ;;
  input_setKeybind "switchtab7" KEYBIND_KEYBOARD SDLK_7 NMOD_ALT ;;
  input_setKeybind "switchtab8" KEYBIND_KEYBOARD SDLK_8 NMOD_ALT ;;
  input_setKeybind "switchtab9" KEYBIND_KEYBOARD SDLK_9 NMOD_ALT ;;
  input_setKeybind "switchtab0" KEYBIND_KEYBOARD SDLK_0 NMOD_ALT.

(** ** Showing and hiding the mouse *)

(** [MOUSE_HIDE]: time in seconds to wait before hiding mouse again. *)
Definition MOUSE_HIDE : float := 3%float.

(** [input_mouseShow].  [input_mouseCounter] is an [int]; counting past
    [INT_MAX] is undefined in C and left out of the model. *)
Definition input_mouseShow : Cmd :=
  call (SDL_ShowCursor true) ;;
  (fun s => set_input_mouseCounter (input_mouseCounter s + 1) s).

(** [input_mouseHide]. *)
Definition input_mouseHide : Cmd := fun s =>
  let s := set_input_mouseCounter (input_mouseCounter s - 1) s in
  if input_mouseCounter s <=? 0 then
    (set_input_mouseTimer MOUSE_HIDE ;; set_input_mouseCounter 0) s
  else s.

(** ** Modifier names, conflicts and descriptions *)

(** [input_modToText]: the human readable version of a modifier mask, as
    the message that [gettext] is asked to translate. *)
Definition input_modToText (m : SDL_Keymod) : string :=
  if m =? NMOD_NONE then "None"
  else if m =? NMOD_CTRL then "Ctrl"
  else if m =? NMOD_SHIFT then "Shift"
  else if m =? NMOD_ALT then "Alt"
  else if m =? NMOD_META then "Meta"
  else if m =? NMOD_ANY then "Any"
  else "unknown".

(** The loop of [input_keyAlreadyBound] over the rows [i] below
    [input_numbinds], each with its name [keybind_info[i][0]]. *)
Fixpoint keyAlreadyBound_loop (ty : KeybindType) (k : SDL_Keycode)
    (m : SDL_Keymod) (rows : list (string * Keybind)) : option string :=
  match rows with
  | [] => None (* Not found. *)
  | (info, b) :: rest =>
      (* Type must match. *)
      if negb (KeybindType_eqb (type b) ty) then
        keyAlreadyBound_loop ty k m rest
      (* Must match key. *)
      else if negb (k =? key b) then keyAlreadyBound_loop ty k m rest
      else
        (* Handle per case. *)
        match ty with
        | KEYBIND_KEYBOARD =>
            if (mod_ b =? NMOD_ANY) || (m =? NMOD_ANY) || (mod_ b =? m)
            then Some info
            else keyAlreadyBound_loop ty k m rest
        | KEYBIND_JAXISPOS | KEYBIND_JAXISNEG | KEYBIND_JBUTTON
        | KEYBIND_JHAT_UP | KEYBIND_JHAT_DOWN | KEYBIND_JHAT_LEFT
        | KEYBIND_JHAT_RIGHT => Some info
        | KEYBIND_NULL => keyAlreadyBound_loop ty k m rest
        end
  end.

(** [input_keyAlreadyBound]: the name of the action that is already bound
    to the key, [None] for [NULL]. *)
Definition input_keyAlreadyBound (ty : KeybindType) (k : SDL_Keycode)
    (m : SDL_Keymod) (s : State) : option string :=
  keyAlreadyBound_loop ty k m (combine keybind_info (input_keybinds s)).

(** The loop of [input_getKeybindDescription] over the rows of
    [keybind_info], each with the binding of the same index. *)
Fixpoint getKeybindDescription_loop (keybind : string)
    (rows : list ((string * string * string) * Keybind)) : option string :=
  match rows with
  | [] => None
  | (info, b) :: rest =>
      if String.eqb keybind (name b) then Some (snd info)
      else getKeybindDescription_loop keybind rest
  end.

(** [input_getKeybindDescription]: the description of the keybinding,
    [None] for [NULL]. *)
Definition input_getKeybindDescription (keybind : string) (s : State)
    : option string * State :=
  match getKeybindDescription_loop keybind
          (combine keybind_info_rows (input_keybinds s)) with
  | Some d => (Some d, s)
  | None =>
      (None,
       call (WARN
               "Unable to get keybinding description '%s', that command doesn't exist"
               keybind) s)
  end.

(** ** Joystick buttons and hats *)

(** [for (i=from; i<from+n; i++)] over a loop body. *)
Fixpoint for_keybinds (body : nat -> Cmd) (n from : nat) : Cmd :=
  match n with
  | O => skip
  | S n' => body from ;; for_keybinds body n' (S from)
  end.

(** The body of the loop of [input_joyevent] for index [i]. *)
Definition input_joyevent_body (w : World) (event : Z) (button : SDL_Keycode)
    (i : nat) : Cmd := fun s =>
  match nth_error (input_keybinds s) i with
  | None => s
  | Some b =>
      if event_is event KEY_PRESS && disabled b then s
      else if KeybindType_eqb (type b) KEYBIND_JBUTTON && (key b =? button)
      then input_key w (Z.of_nat i) (double_of_int event) (-1)%float false s
      else s
  end.

(** [input_joyevent]: filters a joystick button event. *)
Definition input_joyevent (w : World) (event : Z) (button : SDL_Keycode)
    : Cmd := fun s =>
  for_keybinds (input_joyevent_body w event button)
    (List.length (input_keybinds s)) 0 s.

(** The directions of a hat ([SDL_joystick.h]). *)
Definition SDL_HAT_UP : Z := 0x01.
Definition SDL_HAT_RIGHT : Z := 0x02.
Definition SDL_HAT_DOWN : Z := 0x04.
Definition SDL_HAT_LEFT : Z := 0x08.

(** One branch of the loop body of [input_joyhatevent]: the row [i] is
    bound to the direction [direction] of the hat.  The [int event] is
    [KEY_PRESS] when the direction is set in [value] and [KEY_RELEASE]
    otherwise. *)
Definition input_joyhatevent_direction (w : World) (value direction : Z)
    (i : nat) (b : Keybind) : Cmd := fun s =>
  let event := if negb (Z.land value direction =? 0) then 1 else -1 in
  if negb (event_is event KEY_PRESS && disabled b)
  then input_key w (Z.of_nat i) (double_of_int event) (-1)%float false s
  else s.

(** The body of the loop of [input_joyhatevent] for index [i]. *)
Definition input_joyhatevent_body (w : World) (value hat : Z) (i : nat)
    : Cmd := fun s =>
  match nth_error (input_keybinds s) i with
  | None => s
  | Some b =>
      if negb (key b =? hat) then s
      else if KeybindType_eqb (type b) KEYBIND_JHAT_UP then
        input_joyhatevent_direction w value SDL_HAT_UP i b s
      else if KeybindType_eqb (type b) KEYBIND_JHAT_DOWN then
        input_joyhatevent_direction w value SDL_HAT_DOWN i b s
      else if KeybindType_eqb (type b) KEYBIND_JHAT_LEFT then
        input_joyhatevent_direction w value SDL_HAT_LEFT i b s
      else if KeybindType_eqb (type b) KEYBIND_JHAT_RIGHT then
        input_joyhatevent_direction w value SDL_HAT_RIGHT i b s
      else s
  end.

(** [input_joyhatevent]: filters a joystick hat event. *)
Definition input_joyhatevent (w : World) (value hat : Z) : Cmd := fun s =>
  for_keybinds (input_joyhatevent_body w value hat)
    (List.length (input_keybinds s)) 0 s.

(** ** The event entry point [input_handle] *)

(** The events that [input_handle] tells apart, each with the fields of
    the [SDL_Event] that [input.c] reads. *)
Inductive SDL_Event : Type :=
  | SDL_JOYAXISMOTION (axis value : Z)
  | SDL_JOYBUTTONDOWN (button : Z)
  | SDL_JOYBUTTONUP (button : Z)
  | SDL_JOYHATMOTION (hat value : Z)
  | SDL_KEYDOWN (sym : SDL_Keycode) (keymod : SDL_Keymod) (repeat : Z)
  | SDL_KEYUP (sym : SDL_Keycode) (keymod : SDL_Keymod) (repeat : Z)
  | SDL_MOUSEBUTTONDOWN (button x y : Z)
  | SDL_MOUSEBUTTONUP (button x y : Z)
  | SDL_MOUSEWHEEL (y : Z)
  | SDL_MOUSEMOTION (x y : Z)
  | SDL_OTHER_EVENT.

(** What the toolkit, the map overlay, the GUI and the camera answer during
    one call of [input_handle]: whether each takes the event, whether the
    overlay is open, and the current zoom target. *)
Record Handlers : Type := mkHandlers {
  toolkit_input : bool;
  ovr_isOpen : bool;
  ovr_input : bool;
  gui_handleEvent : bool;
  cam_getZoomTarget : float
}.

(** The modules that were offered the event. *)
Inductive Offered : Type := to_toolkit | to_overlay | to_gui.

(** What a call of [input_handle] leaves behind: the state of [input.c]
    (with the cursor call and the calls of the dispatch in its history),
    the modules that were offered the event, in order (all of them after
    the cursor call and before any dispatch), the argument of
    [cam_setZoomTarget] when it was called, and the new [player.mousex] and
    [player.mousey] when they were assigned. *)
Record Handled : Type := mkHandled {
  handled_state : State;
  offered : list Offered;
  cam_setZoomTarget : option float;
  player_mouse : option (Z * Z)
}.

(** [input_clickZoom]: handles zoom; the result is the argument of
    [cam_setZoomTarget] when it is called. *)
Definition input_clickZoom (w : World) (h : Handlers) (modifier : float)
    : option float :=
  if player_p w then Some (cam_getZoomTarget h * modifier)%float else None.

(** [input_mouseMove]: provides mouse X and Y coordinates for mouse
    flying; the result is the new [player.mousex] and [player.mousey]. *)
Definition input_mouseMove (w : World) (x y : Z) : Z * Z :=
  gl_windowToScreenPos w x y.

(** The [switch] at the end of [input_handle]. *)
Definition input_handle_switch (w : World) (h : Handlers) (event : SDL_Event)
    (asked : list Offered) (s : State) : Handled :=
  match event with
  (* game itself *)
  | SDL_JOYAXISMOTION axis value =>
      mkHandled (input_joyaxis w axis value s) asked None None
  | SDL_JOYBUTTONDOWN button =>
      mkHandled (input_joyevent w 1 button s) asked None None
  | SDL_JOYBUTTONUP button =>
      mkHandled (input_joyevent w (-1) button s) asked None None
  | SDL_JOYHATMOTION hat value =>
      mkHandled (input_joyhatevent w value hat s) asked None None
  | SDL_KEYDOWN sym keymod repeat =>
      if negb (repeat =? 0) then mkHandled s asked None None
      else mkHandled (input_keyevent w 1 sym keymod false s) asked None None
  | SDL_KEYUP sym keymod repeat =>
      if negb (repeat =? 0) then mkHandled s asked None None
      else mkHandled (input_keyevent w (-1) sym keymod false s) asked None None
  (* Mouse stuff. *)
  | SDL_MOUSEBUTTONDOWN button x y =>
      mkHandled (input_clickevent w button x y s) asked None None
  | SDL_MOUSEWHEEL y =>
      if 0 <? y then mkHandled s asked (input_clickZoom w h 1.1%float) None
      else mkHandled s asked (input_clickZoom w h 0.9%float) None
  | SDL_MOUSEMOTION x y =>
      mkHandled s asked None (Some (input_mouseMove w x y))
  | _ => mkHandled s asked None None
  end.

(** Whether the event is of the mouse: motion, button down or button up. *)
Definition ismouse (event : SDL_Event) : bool :=
  match event with
  | SDL_MOUSEMOTION _ _ | SDL_MOUSEBUTTONDOWN _ _ _
  | SDL_MOUSEBUTTONUP _ _ _ => true
  | _ => false
  end.

(** [input_handle]: handles global input; basically separates the event
    types.  The answers of [w] and [h] hold throughout the call. *)
Definition input_handle (w : World) (h : Handlers) (event : SDL_Event)
    (s : State) : Handled :=
  (* Special case mouse stuff. *)
  let s :=
    if ismouse event
    then (set_input_mouseTimer MOUSE_HIDE ;; call (SDL_ShowCursor true)) s
    else s in
  let stop := fun asked => mkHandled s asked None None in
  let after_toolkit := fun asked =>
    let after_overlay := fun asked =>
      (* GUI gets event. *)
      if gui_handleEvent h then stop (asked ++ [to_gui])
      else input_handle_switch w h event (asked ++ [to_gui]) s in
    if ovr_isOpen h then
      if ovr_input h
      then stop (asked ++ [to_overlay]) (* the map overlay wants it *)
      else after_overlay (asked ++ [to_overlay])
    else after_overlay asked in
  if toolkit_isOpen w then (* toolkit handled completely separately *)
    if toolkit_input h then stop [to_toolkit] (* toolkit grabs it *)
    else if ismouse event then stop [to_toolkit] (* absorbs everything mousy *)
    else after_toolkit [to_toolkit]
  else after_toolkit [].

(** ** Specification-side definitions for the rest of [input.c] *)

(** What a row is bound to: its type, key and modifier mask. *)
Definition binding (b : Keybind) : KeybindType * SDL_Keycode * SDL_Keymod :=
  (type b, key b, mod_ b).

(** The bindings of every action, by name. *)
Definition bindings (s : State)
    : list (string * (KeybindType * SDL_Keycode * SDL_Keymod)) :=
  map (fun b => (name b, binding b)) (input_keybinds s).

(** The table has the rows of [input_init]: one per action of
    [keybind_info], in its order. *)
Definition table_of_actions (s : State) : Prop :=
  map name (input_keybinds s) = keybind_info.

(** The commands that keep the names and the enable flags of the rows. *)
Definition keeps_rows (c : Cmd) : Prop :=
  forall s : State,
    map name (input_keybinds (c s)) = map name (input_keybinds s)
    /\ map disabled (input_keybinds (c s)) = map disabled (input_keybinds s).

(** The dispatches of a filter over the rows [from], ..., [from + n - 1],
    in table order, when [fires i b] are those for the row [i] holding
    [b]. *)
Definition dispatches_of (fires : nat -> Keybind -> list KeyCall)
    (binds : list Keybind) (from n : nat) : list KeyCall :=
  flat_map (fun i => match nth_error binds i with
                     | Some b => fires i b
                     | None => []
                     end)
    (seq from n).

(** A digital press or release of the row [i]. *)
Definition digital (i : nat) (value : float) : KeyCall :=
  (Z.of_nat i, value, (-1)%float, false).

(** The filter rule for joystick buttons: a binding fires when it is a
    button binding of that button; a disabled binding suppresses presses
    only. *)
Definition joybutton_fires (event : Z) (button : SDL_Keycode) (b : Keybind)
    : bool :=
  KeybindType_eqb (type b) KEYBIND_JBUTTON
  && (key b =? button)
  && negb (event_is event KEY_PRESS && disabled b).

(** The direction of a hat that a type of binding stands for. *)
Definition hat_direction (ty : KeybindType) : option Z :=
  match ty with
  | KEYBIND_JHAT_UP => Some SDL_HAT_UP
  | KEYBIND_JHAT_DOWN => Some SDL_HAT_DOWN
  | KEYBIND_JHAT_LEFT => Some SDL_HAT_LEFT
  | KEYBIND_JHAT_RIGHT => Some SDL_HAT_RIGHT
  | _ => None
  end.

(** The filter rule for hats: a row bound to a direction of the hat gets a
    press when the direction is set in [value] (unless the row is
    disabled) and a release when it is not. *)
Definition hat_fires (value hat : Z) (i : nat) (b : Keybind) : list KeyCall :=
  if key b =? hat then
    match hat_direction (type b) with
    | Some direction =>
        if Z.land value direction =? 0 then [digital i KEY_RELEASE]
        else if disabled b then []
        else [digital i KEY_PRESS]
    | None => []
    end
  else [].

(** The magnitude that [input_joyaxis] passes on. *)
Definition axis_kabs (value : Z) : float :=
  abs (double_of_int value / 32767)%float.

(** The filter rule for axes: a row bound to a side of the axis gets a
    press for a value on that side (unless the row is disabled), a release
    for the value 0, and nothing for a value on the other side. *)
Definition axis_fires (axis : SDL_Keycode) (value : Z) (i : nat) (b : Keybind)
    : list KeyCall :=
  let side_value :=
    match type b with
    | KEYBIND_JAXISPOS => Some value
    | KEYBIND_JAXISNEG => Some (- value)
    | _ => None
    end in
  if key b =? axis then
    match side_value with
    | Some v =>
        if 0 <? v then
          if disabled b then []
          else [(Z.of_nat i, KEY_PRESS, axis_kabs value, false)]
        else if v =? 0 then [(Z.of_nat i, KEY_RELEASE, axis_kabs value, false)]
        else []
    | None => []
    end
  else [].

(** Whether [P] holds for each of the [2 ^ n] integers from [lo] on. *)
Fixpoint holds_from (P : Z -> bool) (n : nat) (lo : Z) : bool :=
  match n with
  | O => P lo
  | S n' => holds_from P n' lo && holds_from P n' (lo + 2 ^ Z.of_nat n')
  end.

(** Whether a call starts or stops the afterburner. *)
Definition is_afterburn (c : Call) : bool :=
  match c with
  | pilot_afterburn | pilot_afterburnOver => true
  | _ => false
  end.

(** From [s] to [s'] some calls were made, none of them to the
    afterburner, and the tick of the last tap on "accel" was kept. *)
Definition without_afterburn (s s' : State) : Prop :=
  exists l : list Call,
    calls s' = calls s ++ l
    /\ forallb (fun c => negb (is_afterburn c)) l = true
    /\ input_accelLast s' = input_accelLast s.

(** From [s] to [s'] nothing changed but the record of the last click and
    the history of calls, which grew by [l]. *)
Definition click_frame (l : list Call) (s s' : State) : Prop :=
  calls s' = calls s ++ l
  /\ input_keybinds s' = input_keybinds s
  /\ dispatched s' = dispatched s
  /\ repeat_record s' = repeat_record s
  /\ input_accelLast s' = input_accelLast s
  /\ input_accelButton s' = input_accelButton s
  /\ input_mouseTimer s' = input_mouseTimer s
  /\ input_mouseCounter s' = input_mouseCounter s
  /\ player_flags s' = player_flags s
  /\ player_left s' = player_left s
  /\ player_right s' = player_right s
  /\ player_speed s' = player_speed s.

(** Whether a call is one of those a click handler makes for a left click
    (selecting, and the primary actions), for a right click (selecting and
    autonav), or either. *)
Definition is_autonav_call (c : Call) : bool :=
  match c with
  | player_autonavPil _ | player_autonavPnt _ | player_autonavStart
  | player_autonavPos _ _ | player_autonavStartWindow => true
  | _ => false
  end.

Definition is_primary_call (c : Call) : bool :=
  match c with
  | player_board | player_hail | player_land | player_hailPlanet
  | player_jump | player_hyperspacePreempt _ => true
  | _ => false
  end.

(** Whether a call shows or hides the cursor. *)
Definition is_cursor_call (c : Call) : bool :=
  match c with
  | SDL_ShowCursor _ => true
  | _ => false
  end.

(** The calls that fit a click: none moves the cursor, a left click
    ([autonav] false) starts no autonav, a right click performs no primary
    action. *)
Definition click_call_ok (autonav : bool) (c : Call) : bool :=
  negb (is_cursor_call c)
  && (if autonav then negb (is_primary_call c) else negb (is_autonav_call c)).

(** The record of the last click. *)
Definition click_record (s : State) : option Clicked * Z :=
  (input_lastClicked s, input_mouseClickLast s).

(** The value (press or release) of a dispatch. *)
Definition dispatch_value (d : KeyCall) : float := snd (fst (fst d)).

(** What [input_handle] does first for an event of the mouse. *)
Definition mouse_woken (event : SDL_Event) (s : State) : State :=
  if ismouse event
  then call (SDL_ShowCursor true) (set_input_mouseTimer MOUSE_HIDE s)
  else s.

(** From [s] to [s'] the timer and the counter of the mouse were kept and
    no call showed or hid the cursor. *)
Definition cursor_untouched (s s' : State) : Prop :=
  input_mouseTimer s' = input_mouseTimer s
  /\ input_mouseCounter s' = input_mouseCounter s
  /\ exists l : list Call,
       calls s' = calls s ++ l
       /\ forallb (fun c => negb (is_cursor_call c)) l = true.

(** The event is a key event that the keyboard generated by itself while
    the key was held. *)
Definition is_key_autorepeat (event : SDL_Event) : bool :=
  match event with
  | SDL_KEYDOWN _ _ repeat | SDL_KEYUP _ _ repeat => negb (repeat =? 0)
  | _ => false
  end.

(** The event is taken before [input.c] looks at its type: by the toolkit
    when it is open (which also absorbs every event of the mouse), by the
    map overlay when it is open, or by the GUI. *)
Definition taken_by_others (w : World) (h : Handlers) (event : SDL_Event)
    : bool :=
  (toolkit_isOpen w && (toolkit_input h || ismouse event))
  || (ovr_isOpen h && ovr_input h)
  || gui_handleEvent h.

(** The event has no case in the [switch] of [input_handle]. *)
Definition has_no_case (event : SDL_Event) : bool :=
  match event with
  | SDL_MOUSEBUTTONUP _ _ _ | SDL_OTHER_EVENT => true
  | _ => false
  end.

(** Every row of the table is disabled. *)
Definition all_disabled (s : State) : Prop :=
  Forall (fun b => disabled b = true) (input_keybinds s).

(** The modules that are offered an event, in order: the toolkit when it
    is open; unless it keeps the event, the map overlay when it is open;
    unless that takes the event, the GUI. *)
Definition offered_to (w : World) (h : Handlers) (event : SDL_Event)
    : list Offered :=
  (if toolkit_isOpen w then [to_toolkit] else [])
  ++ (if toolkit_isOpen w && (toolkit_input h || ismouse event) then []
      else (if ovr_isOpen h then [to_overlay] else [])
           ++ (if ovr_isOpen h && ovr_input h then [] else [to_gui])).

(** The actions that [input_key] still performs without a live player
    ([NODEAD] fails), and those it still performs while the toolkit is
    open ([INGAME] fails). *)
Definition actions_when_dead : list string :=
  ["accel"; "left"; "right"; "reverse"; "jump"; "screenshot";
   "togglefullscreen"; "pause"; "speed"].

Definition actions_in_toolkit : list string :=
  ["accel"; "left"; "right"; "reverse"; "primary"; "secondary"; "autonav";
   "thyperspace"; "starmap"; "mousefly"; "autobrake"; "screenshot";
   "togglefullscreen"; "pause"; "speed"; "menu"; "info"; "console"].



(** Whether [input_update] finds a key repeat due. *)
Definition repeat_due (w : World) (s : State) : bool :=
  negb (repeat_delay (conf w) =? 0)
  && negb (repeat_key s =? -1)
  && negb (SDL_GetTicks w
           <? wrap32 (repeat_keyTimer s + repeat_delay (conf w)
                      + repeat_keyCounter s * repeat_freq (conf w))).

(** The conflict rule of [input_keyAlreadyBound]: the row [b] is bound to
    the key [k] with the type [ty], and for a keyboard binding the masks
    are equal or one of them is [NMOD_ANY]; an unbound row never
    conflicts. *)
Definition key_conflicts (ty : KeybindType) (k : SDL_Keycode) (m : SDL_Keymod)
    (b : Keybind) : bool :=
  KeybindType_eqb (type b) ty
  && (k =? key b)
  && match ty with
     | KEYBIND_NULL => false
     | KEYBIND_KEYBOARD => (mod_ b =? NMOD_ANY) || (m =? NMOD_ANY) || (mod_ b =? m)
     | _ => true
     end.

(** How many of the four groups of modifier keys (Shift, Ctrl, Alt, GUI,
    left or right) are held in an SDL modifier state. *)
Definition held_groups (m : SDL_Keymod) : nat :=
  List.length
    (filter (fun group => negb (Z.land m group =? 0))
       [Z.lor KMOD_LSHIFT KMOD_RSHIFT; Z.lor KMOD_LCTRL KMOD_RCTRL;
        Z.lor KMOD_LALT KMOD_RALT; Z.lor KMOD_LGUI KMOD_RGUI]).

(** Whether the strings of a list are pairwise different. *)
Fixpoint distinct (l : list string) : bool :=
  match l with
  | [] => true
  | x :: rest => negb (existsb (String.eqb x) rest) && distinct rest
  end.

(** Whether a call stops something or passes a release on: the end of
    acceleration or of the afterburner, the release of a weapon set or of
    the overlay key, the "input" hook for a release. *)
Definition is_stop_call (c : Call) : bool :=
  match c with
  | player_accelOver | pilot_afterburnOver => true
  | player_weapSetPress _ value _ => (value =? KEY_RELEASE)%float
  | ovr_key value => (value =? KEY_RELEASE)%float
  | hooks_runParam_input _ pressed => negb pressed
  | _ => false
  end.

(** From [s] to [s'] things were only stopped: the calls made are stop
    calls, no player flag was set, a turn rate is kept or reset to 0, and
    the speed and the tick of the last accel tap are kept. *)
Definition only_stopped (s s' : State) : Prop :=
  (exists l : list Call,
      calls s' = calls s ++ l /\ forallb is_stop_call l = true)
  /\ (forall f : PlayerFlag, player_flags s' f = true -> player_flags s f = true)
  /\ (player_left s' = player_left s \/ player_left s' = 0%float)
  /\ (player_right s' = player_right s \/ player_right s' = 0%float)
  /\ player_speed s' = player_speed s
  /\ input_accelLast s' = input_accelLast s.

(** The release that an event brings to the row [i] holding [b],
    whether or not the row is disabled: a key-up of its key (that is not
    an automatic repeat) whatever the modifiers, a button-up of its
    button, a hat motion that leaves its direction clear, an axis motion
    to 0 on its axis. *)
Definition released_by (event : SDL_Event) (i : nat) (b : Keybind)
    : list KeyCall :=
  match event with
  | SDL_KEYUP sym _ repeat =>
      if (repeat =? 0) && KeybindType_eqb (type b) KEYBIND_KEYBOARD
         && (key b =? sym)
      then [digital i KEY_RELEASE] else []
  | SDL_JOYBUTTONUP button =>
      if KeybindType_eqb (type b) KEYBIND_JBUTTON && (key b =? button)
      then [digital i KEY_RELEASE] else []
  | SDL_JOYHATMOTION hat value =>
      if key b =? hat then
        match hat_direction (type b) with
        | Some direction =>
            if Z.land value direction =? 0 then [digital i KEY_RELEASE]
            else []
        | None => []
        end
      else []
  | SDL_JOYAXISMOTION axis value =>
      if (value =? 0) && (key b =? axis)
         && (KeybindType_eqb (type b) KEYBIND_JAXISPOS
             || KeybindType_eqb (type b) KEYBIND_JAXISNEG)
      then [(Z.of_nat i, KEY_RELEASE, axis_kabs value, false)] else []
  | _ => []
  end.

(** The releases that an event brings to the table of [s], in table
    order; none when another module takes the event. *)
Definition releases_of (w : World) (h : Handlers) (event : SDL_Event)
    (s : State) : list KeyCall :=
  if taken_by_others w h event then []
  else dispatches_of (released_by event) (input_keybinds s)
         0 (List.length (input_keybinds s)).

(** ** Sample inputs for the rest of [input.c] *)

(** The world [w] with a toolkit window open. *)
Definition behind_toolkit (w : World) : World :=
  {| conf := conf w;
     SDL_GetTicks := SDL_GetTicks w;
     toolkit_isOpen := true;
     map_isOpen := map_isOpen w;
     paused := paused w;
     landed := landed w;
     player_p := player_p w;
     pilot_isFlag := pilot_isFlag w;
     player_pos := player_pos w;
     player_target := player_target w;
     player_nav_planet := player_nav_planet w;
     player_nav_hyperspace := player_nav_hyperspace w;
     space_canHyperspace := space_canHyperspace w;
     pilot_pos := pilot_pos w;
     pilot_sw := pilot_sw w;
     pilot_isDisabled := pilot_isDisabled w;
     pilot_isBoardable := pilot_isBoardable w;
     PILOT_SIZE_APROX := PILOT_SIZE_APROX w;
     pilot_getNearestPos := pilot_getNearestPos w;
     pilot_getNearestAng := pilot_getNearestAng w;
     system_getClosest := system_getClosest w;
     system_getClosestAng := system_getClosestAng w;
     planet_radius := planet_radius w;
     planet_isKnown := planet_isKnown w;
     planet_faction := planet_faction w;
     planet_can_land := planet_can_land w;
     planet_bribed := planet_bribed w;
     planet_land_override := planet_land_override w;
     jump_radius := jump_radius w;
     jp_isUsable := jp_isUsable w;
     asteroid_gfx_known := asteroid_gfx_known w;
     asteroid_gfx := asteroid_gfx w;
     gl_windowToScreenPos := gl_windowToScreenPos w;
     gl_screen_w := gl_screen_w w;
     gl_screen_h := gl_screen_h w;
     gl_screenToGameCoords := gl_screenToGameCoords w;
     cam_getZoom := cam_getZoom w;
     radar_takes_click := radar_takes_click w;
     atan2 := atan2 w;
     angle_diff := angle_diff w |}.

(** Nobody takes the event, and the zoom target is 1. *)
Definition nobody_takes : Handlers := mkHandlers false false false false 1%float.

(** * Ship statistics ([shipstats.h]) *)

Module Shipstats.

(** [ShipStatsType]: all the possible types. *)
Inductive ShipStatsType : Type :=
| SS_TYPE_NIL
| SS_TYPE_D_SPEED_MOD
| SS_TYPE_D_TURN_MOD
| SS_TYPE_D_THRUST_MOD
| SS_TYPE_D_CARGO_MOD
| SS_TYPE_D_ARMOUR_MOD
| SS_TYPE_D_ARMOUR_REGEN_MOD
| SS_TYPE_D_SHIELD_MOD
| SS_TYPE_D_SHIELD_REGEN_MOD
| SS_TYPE_D_ENERGY_MOD
| SS_TYPE_D_ENERGY_REGEN_MOD
| SS_TYPE_D_CPU_MOD
| SS_TYPE_D_JUMP_DELAY
| SS_TYPE_D_LAND_DELAY
| SS_TYPE_D_CARGO_INERTIA
| SS_TYPE_D_EW_HIDE
| SS_TYPE_D_EW_DETECT
| SS_TYPE_D_EW_JUMPDETECT
| SS_TYPE_D_LAUNCH_RATE
| SS_TYPE_D_LAUNCH_RANGE
| SS_TYPE_D_LAUNCH_DAMAGE
| SS_TYPE_D_AMMO_CAPACITY
| SS_TYPE_D_LAUNCH_LOCKON
| SS_TYPE_D_LAUNCH_RELOAD
| SS_TYPE_D_FBAY_DAMAGE
| SS_TYPE_D_FBAY_HEALTH
| SS_TYPE_D_FBAY_MOVEMENT
| SS_TYPE_D_FBAY_CAPACITY
| SS_TYPE_D_FBAY_RATE
| SS_TYPE_D_FBAY_RELOAD
| SS_TYPE_D_FORWARD_HEAT
| SS_TYPE_D_FORWARD_DAMAGE
| SS_TYPE_D_FORWARD_FIRERATE
| SS_TYPE_D_FORWARD_ENERGY
| SS_TYPE_D_FORWARD_DAMAGE_AS_DISABLE
| SS_TYPE_D_TURRET_HEAT
| SS_TYPE_D_TURRET_DAMAGE
| SS_TYPE_D_TURRET_TRACKING
| SS_TYPE_D_TURRET_FIRERATE
| SS_TYPE_D_TURRET_ENERGY
| SS_TYPE_D_TURRET_DAMAGE_AS_DISABLE
| SS_TYPE_D_NEBULA_ABSORB_SHIELD
| SS_TYPE_D_NEBULA_ABSORB_ARMOUR
| SS_TYPE_D_HEAT_DISSIPATION
| SS_TYPE_D_STRESS_DISSIPATION
| SS_TYPE_D_CREW
| SS_TYPE_D_MASS
| SS_TYPE_D_ENGINE_LIMIT_REL
| SS_TYPE_D_LOOT_MOD
| SS_TYPE_D_TIME_MOD
| SS_TYPE_D_TIME_SPEEDUP
| SS_TYPE_A_ENERGY_FLAT
| SS_TYPE_A_ENERGY_REGEN_FLAT
| SS_TYPE_A_SHIELD_FLAT
| SS_TYPE_A_SHIELD_REGEN_FLAT
| SS_TYPE_A_ARMOUR_FLAT
| SS_TYPE_A_ARMOUR_REGEN_FLAT
| SS_TYPE_A_CPU_MAX
| SS_TYPE_A_ENGINE_LIMIT
| SS_TYPE_I_HIDDEN_JUMP_DETECT
| SS_TYPE_B_INSTANT_JUMP
| SS_TYPE_B_REVERSE_THRUST
| SS_TYPE_B_ASTEROID_SCAN
| SS_TYPE_SENTINEL.

(** The value of an enumerator. *)
Definition ss_index (t : ShipStatsType) : Z :=
  match t with
  | SS_TYPE_NIL => 0
  | SS_TYPE_D_SPEED_MOD => 1
  | SS_TYPE_D_TURN_MOD => 2
  | SS_TYPE_D_THRUST_MOD => 3
  | SS_TYPE_D_CARGO_MOD => 4
  | SS_TYPE_D_ARMOUR_MOD => 5
  | SS_TYPE_D_ARMOUR_REGEN_MOD => 6
  | SS_TYPE_D_SHIELD_MOD => 7
  | SS_TYPE_D_SHIELD_REGEN_MOD => 8
  | SS_TYPE_D_ENERGY_MOD => 9
  | SS_TYPE_D_ENERGY_REGEN_MOD => 10
  | SS_TYPE_D_CPU_MOD => 11
  | SS_TYPE_D_JUMP_DELAY => 12
  | SS_TYPE_D_LAND_DELAY => 13
  | SS_TYPE_D_CARGO_INERTIA => 14
  | SS_TYPE_D_EW_HIDE => 15
  | SS_TYPE_D_EW_DETECT => 16
  | SS_TYPE_D_EW_JUMPDETECT => 17
  | SS_TYPE_D_LAUNCH_RATE => 18
  | SS_TYPE_D_LAUNCH_RANGE => 19
  | SS_TYPE_D_LAUNCH_DAMAGE => 20
  | SS_TYPE_D_AMMO_CAPACITY => 21
  | SS_TYPE_D_LAUNCH_LOCKON => 22
  | SS_TYPE_D_LAUNCH_RELOAD => 23
  | SS_TYPE_D_FBAY_DAMAGE => 24
  | SS_TYPE_D_FBAY_HEALTH => 25
  | SS_TYPE_D_FBAY_MOVEMENT => 26
  | SS_TYPE_D_FBAY_CAPACITY => 27
  | SS_TYPE_D_FBAY_RATE => 28
  | SS_TYPE_D_FBAY_RELOAD => 29
  | SS_TYPE_D_FORWARD_HEAT => 30
  | SS_TYPE_D_FORWARD_DAMAGE => 31
  | SS_TYPE_D_FORWARD_FIRERATE => 32
  | SS_TYPE_D_FORWARD_ENERGY => 33
  | SS_TYPE_D_FORWARD_DAMAGE_AS_DISABLE => 34
  | SS_TYPE_D_TURRET_HEAT => 35
  | SS_TYPE_D_TURRET_DAMAGE => 36
  | SS_TYPE_D_TURRET_TRACKING => 37
  | SS_TYPE_D_TURRET_FIRERATE => 38
  | SS_TYPE_D_TURRET_ENERGY => 39
  | SS_TYPE_D_TURRET_DAMAGE_AS_DISABLE => 40
  | SS_TYPE_D_NEBULA_ABSORB_SHIELD => 41
  | SS_TYPE_D_NEBULA_ABSORB_ARMOUR => 42
  | SS_TYPE_D_HEAT_DISSIPATION => 43
  | SS_TYPE_D_STRESS_DISSIPATION => 44
  | SS_TYPE_D_CREW => 45
  | SS_TYPE_D_MASS => 46
  | SS_TYPE_D_ENGINE_LIMIT_REL => 47
  | SS_TYPE_D_LOOT_MOD => 48
  | SS_TYPE_D_TIME_MOD => 49
  | SS_TYPE_D_TIME_SPEEDUP => 50
  | SS_TYPE_A_ENERGY_FLAT => 51
  | SS_TYPE_A_ENERGY_REGEN_FLAT => 52
  | SS_TYPE_A_SHIELD_FLAT => 53
  | SS_TYPE_A_SHIELD_REGEN_FLAT => 54
  | SS_TYPE_A_ARMOUR_FLAT => 55
  | SS_TYPE_A_ARMOUR_REGEN_FLAT => 56
  | SS_TYPE_A_CPU_MAX => 57
  | SS_TYPE_A_ENGINE_LIMIT => 58
  | SS_TYPE_I_HIDDEN_JUMP_DETECT => 59
  | SS_TYPE_B_INSTANT_JUMP => 60
  | SS_TYPE_B_REVERSE_THRUST => 61
  | SS_TYPE_B_ASTEROID_SCAN => 62
  | SS_TYPE_SENTINEL => 63
  end.

Definition ShipStatsType_eqb (a b : ShipStatsType) : bool :=
  ss_index a =? ss_index b.

(** The letter after [SS_TYPE_]: D for double (relative), A for absolute
    double, I for integer, B for boolean. *)
Inductive StatKind : Type := KIND_NONE | KIND_D | KIND_A | KIND_I | KIND_B.

Definition ss_kind (t : ShipStatsType) : StatKind :=
  match t with
  | SS_TYPE_NIL | SS_TYPE_SENTINEL => KIND_NONE
  | SS_TYPE_D_SPEED_MOD | SS_TYPE_D_TURN_MOD | SS_TYPE_D_THRUST_MOD
  | SS_TYPE_D_CARGO_MOD | SS_TYPE_D_ARMOUR_MOD | SS_TYPE_D_ARMOUR_REGEN_MOD
  | SS_TYPE_D_SHIELD_MOD | SS_TYPE_D_SHIELD_REGEN_MOD
  | SS_TYPE_D_ENERGY_MOD | SS_TYPE_D_ENERGY_REGEN_MOD | SS_TYPE_D_CPU_MOD
  | SS_TYPE_D_JUMP_DELAY | SS_TYPE_D_LAND_DELAY | SS_TYPE_D_CARGO_INERTIA
  | SS_TYPE_D_EW_HIDE | SS_TYPE_D_EW_DETECT | SS_TYPE_D_EW_JUMPDETECT
  | SS_TYPE_D_LAUNCH_RATE | SS_TYPE_D_LAUNCH_RANGE
  | SS_TYPE_D_LAUNCH_DAMAGE | SS_TYPE_D_AMMO_CAPACITY
  | SS_TYPE_D_LAUNCH_LOCKON | SS_TYPE_D_LAUNCH_RELOAD
  | SS_TYPE_D_FBAY_DAMAGE | SS_TYPE_D_FBAY_HEALTH | SS_TYPE_D_FBAY_MOVEMENT
  | SS_TYPE_D_FBAY_CAPACITY | SS_TYPE_D_FBAY_RATE | SS_TYPE_D_FBAY_RELOAD
  | SS_TYPE_D_FORWARD_HEAT | SS_TYPE_D_FORWARD_DAMAGE
  | SS_TYPE_D_FORWARD_FIRERATE | SS_TYPE_D_FORWARD_ENERGY
  | SS_TYPE_D_FORWARD_DAMAGE_AS_DISABLE | SS_TYPE_D_TURRET_HEAT
  | SS_TYPE_D_TURRET_DAMAGE | SS_TYPE_D_TURRET_TRACKING
  | SS_TYPE_D_TURRET_FIRERATE | SS_TYPE_D_TURRET_ENERGY
  | SS_TYPE_D_TURRET_DAMAGE_AS_DISABLE | SS_TYPE_D_NEBULA_ABSORB_SHIELD
  | SS_TYPE_D_NEBULA_ABSORB_ARMOUR | SS_TYPE_D_HEAT_DISSIPATION
  | SS_TYPE_D_STRESS_DISSIPATION | SS_TYPE_D_CREW | SS_TYPE_D_MASS
  | SS_TYPE_D_ENGINE_LIMIT_REL | SS_TYPE_D_LOOT_MOD | SS_TYPE_D_TIME_MOD
  | SS_TYPE_D_TIME_SPEEDUP => KIND_D
  | SS_TYPE_A_ENERGY_FLAT | SS_TYPE_A_ENERGY_REGEN_FLAT
  | SS_TYPE_A_SHIELD_FLAT | SS_TYPE_A_SHIELD_REGEN_FLAT
  | SS_TYPE_A_ARMOUR_FLAT | SS_TYPE_A_ARMOUR_REGEN_FLAT | SS_TYPE_A_CPU_MAX
  | SS_TYPE_A_ENGINE_LIMIT => KIND_A
  | SS_TYPE_I_HIDDEN_JUMP_DETECT => KIND_I
  | SS_TYPE_B_INSTANT_JUMP | SS_TYPE_B_REVERSE_THRUST
  | SS_TYPE_B_ASTEROID_SCAN => KIND_B
  end.

(** The union of a [ShipStatList]: floating point or integer data. *)
Inductive StatData : Type :=
| data_d (d : float)
| data_i (i : Z).

(** A node of [ShipStatList]; the linked list is a [list] of nodes. *)
Record ShipStatList : Type := mkShipStatList {
  target : Z;
  type : ShipStatsType;
  d : StatData
}.

(** Modelled from the spec: [struct ShipStats_] has one field per stat
    type, and [shipstats.c], which holds the table from types to fields
    ([ss_offsetFromType]), is not among the sources.  The aggregate is
    addressed by type: its doubles (relative and absolute) and its integers
    (integers and booleans). *)
Record ShipStats : Type := mkShipStats {
  doubles : ShipStatsType -> float;
  ints : ShipStatsType -> Z
}.

Definition set_double (t : ShipStatsType) (v : float) (s : ShipStats)
    : ShipStats :=
  mkShipStats (fun u => if ShipStatsType_eqb u t then v else doubles s u)
    (ints s).

Definition set_int (t : ShipStatsType) (v : Z) (s : ShipStats) : ShipStats :=
  mkShipStats (doubles s)
    (fun u => if ShipStatsType_eqb u t then v else ints s u).

(** Modelled from the spec: [ss_statsInit] is declared in [shipstats.h] and
    defined in [shipstats.c], not among the sources.  It "sets every
    relative-double field to 1.0 multiplicative identity, absolute/flat
    fields to 0.0, booleans/integers to 0". *)
Definition ss_statsInit : ShipStats :=
  mkShipStats
    (fun t => match ss_kind t with KIND_D => 1%float | _ => 0%float end)
    (fun _ => 0).

(** Modelled from the spec: [ss_statsModSingle] is declared in
    [shipstats.h] and defined in [shipstats.c], not among the sources.  It
    "applies one entry scaled by amount": "relative-double entries use
    stats.field *= (1 + entry.value * amountFactor)", "absolute/integer
    entries add entry.value * amountFactor", "boolean entries OR in
    (entry.value != 0)".  The factor is the field of [amount] for the
    entry's type; an entry whose data does not fit its type changes
    nothing. *)
Definition ss_statsModSingle (stats : ShipStats) (entry : ShipStatList)
    (amount : ShipStats) : ShipStats :=
  let t := type entry in
  match ss_kind t, d entry with
  | KIND_D, data_d v =>
      set_double t (doubles stats t * (1 + v * doubles amount t))%float stats
  | KIND_A, data_d v =>
      set_double t (doubles stats t + v * doubles amount t)%float stats
  | KIND_I, data_i v => set_int t (ints stats t + v * ints amount t) stats
  | KIND_B, data_i v =>
      set_int t (if negb (ints stats t =? 0) || negb (v =? 0) then 1 else 0)
        stats
  | _, _ => stats
  end.

(** Modelled from the spec: [ss_statsModFromList], of [shipstats.c] as
    well, "folds every entry in the list via statsModSingle, in list
    order". *)
Definition ss_statsModFromList (stats : ShipStats)
    (list : list ShipStatList) (amount : ShipStats) : ShipStats :=
  fold_left (fun st entry => ss_statsModSingle st entry amount) list stats.

(** The amount that applies every entry in full: all factors 1. *)
Definition full_amount : ShipStats :=
  mkShipStats (fun _ => 1%float) (fun _ => 1).

(** A relative entry of +10% for the stat [t]. *)
Definition plus_ten_percent (t : ShipStatsType) : ShipStatList :=
  mkShipStatList 0 t (data_d 0.1%float).

(** The stat [t] once two such entries have been applied in full to the
    initial aggregate. *)
Definition two_plus_ten_percent (t : ShipStatsType) : float :=
  doubles
    (ss_statsModFromList ss_statsInit
       [plus_ten_percent t; plus_ten_percent t] full_amount) t.

End Shipstats.

(** * Properties *)

(** ** The keybinding table *)

Lemma setKeybind_loop_found (keybind : string) (ty : KeybindType)
    (k : SDL_Keycode) (m : SDL_Keymod) (binds : list Keybind) :
  In keybind (map name binds) ->
  exists binds' b,
    setKeybind_loop keybind ty k m binds = Some binds'
    /\ getKeybind_loop keybind binds' = Some b
    /\ type b = ty /\ key b = k
    /\ mod_ b = (if KeybindType_eqb ty KEYBIND_KEYBOARD then m else NMOD_ANY).
Proof.
  induction binds as [|b rest IH]; simpl; [tauto|].
  intros Hin.
  destruct (String.eqb keybind (name b)) eqn:E.
  - eexists; eexists; split; [reflexivity|].
    simpl. rewrite E. repeat split.
  - destruct Hin as [Hin|Hin].
    + apply String.eqb_neq in E. congruence.
    + destruct (IH Hin) as (binds' & b' & Hset & Hget & Hb).
      exists (b :: binds'), b'. rewrite Hset. simpl. rewrite E. auto.
Qed.

Lemma setKeybind_loop_missing (keybind : string) (ty : KeybindType)
    (k : SDL_Keycode) (m : SDL_Keymod) (binds : list Keybind) :
  ~ In keybind (map name binds) ->
  setKeybind_loop keybind ty k m binds = None.
Proof.
  induction binds as [|b rest IH]; simpl; [reflexivity|].
  intros Hnot.
  destruct (String.eqb keybind (name b)) eqn:E.
  - apply String.eqb_eq in E. exfalso. apply Hnot. left. congruence.
  - rewrite IH; [reflexivity | tauto].
Qed.

Lemma getKeybind_loop_missing (keybind : string) (binds : list Keybind) :
  ~ In keybind (map name binds) ->
  getKeybind_loop keybind binds = None.
Proof.
  induction binds as [|b rest IH]; simpl; [reflexivity|].
  intros Hnot.
  destruct (String.eqb keybind (name b)) eqn:E.
  - apply String.eqb_eq in E. exfalso. apply Hnot. left. congruence.
  - apply IH. tauto.
Qed.

(** C2, as the code has it: for every name of the table, [input_setKeybind]
    followed by [input_getKeybind] reads back the kind and the key that
    were set; the modifier mask reads back as set when the kind is
    [KEYBIND_KEYBOARD] and as [NMOD_ANY] for every other kind.  Neither
    call warns. *)
Theorem setKeybind_getKeybind_roundtrip (s : State) (keybind : string)
    (ty : KeybindType) (k : SDL_Keycode) (m : SDL_Keymod)
    (type_old : KeybindType) (mod_old : SDL_Keymod) :
  In keybind (map name (input_keybinds s)) ->
  let s' := input_setKeybind keybind ty k m s in
  input_getKeybind keybind (Some type_old) (Some mod_old) s'
  = (mkKeybindResult k (Some ty)
       (Some (if KeybindType_eqb ty KEYBIND_KEYBOARD then m else NMOD_ANY)),
     s')
  /\ calls s' = calls s.
Proof.
  intros Hin s'. subst s'.
  destruct (setKeybind_loop_found keybind ty k m _ Hin)
    as (binds' & b & Hset & Hget & Hty & Hkey & Hmod).
  unfold input_setKeybind. rewrite Hset.
  unfold input_getKeybind. simpl. rewrite Hget.
  rewrite Hty, Hkey, Hmod. split; reflexivity.
Qed.

Lemma setKeybind_getKeybind_roundtrip_witness :
  In "accel" (map name (input_keybinds input_init))
  /\ fst (input_getKeybind "accel" (Some KEYBIND_NULL) (Some NMOD_NONE)
            (input_setKeybind "accel" KEYBIND_KEYBOARD 119 NMOD_CTRL input_init))
     = mkKeybindResult 119 (Some KEYBIND_KEYBOARD) (Some NMOD_CTRL).
Proof.
  split.
  - simpl. auto.
  - rewrite (proj1 (setKeybind_getKeybind_roundtrip input_init "accel"
                      KEYBIND_KEYBOARD 119 NMOD_CTRL KEYBIND_NULL NMOD_NONE
                      (or_introl eq_refl))).
    reflexivity.
Defined.

(** C2 as stated fails: binding "accel" to joystick button 3 with mask Ctrl
    and reading it back yields the mask Any, not Ctrl. *)
Lemma setKeybind_getKeybind_mask_not_kept :
  let s' := input_setKeybind "accel" KEYBIND_JBUTTON 3 NMOD_CTRL input_init in
  fst (input_getKeybind "accel" (Some KEYBIND_NULL) (Some NMOD_NONE) s')
  = mkKeybindResult 3 (Some KEYBIND_JBUTTON) (Some NMOD_ANY)
  /\ fst (input_getKeybind "accel" (Some KEYBIND_NULL) (Some NMOD_NONE) s')
     <> mkKeybindResult 3 (Some KEYBIND_JBUTTON) (Some NMOD_CTRL).
Proof.
  split; [reflexivity | discriminate].
Qed.

(** C8: for a name that is not in the table, [input_setKeybind] only
    warns, so every binding (and every other variable) is as before, and
    [input_getKeybind] warns, returns the key -1, writes to neither
    out-parameter and changes nothing else. *)
Theorem unknown_keybind_reported (s : State) (keybind : string)
    (ty : KeybindType) (k : SDL_Keycode) (m : SDL_Keymod)
    (type_out : option KeybindType) (mod_out : option SDL_Keymod) :
  ~ In keybind (map name (input_keybinds s)) ->
  input_setKeybind keybind ty k m s
  = call (WARN "Unable to set keybinding '%s', that command doesn't exist"
            keybind) s
  /\ input_keybinds (input_setKeybind keybind ty k m s) = input_keybinds s
  /\ input_getKeybind keybind type_out mod_out s
     = (mkKeybindResult (-1) type_out mod_out,
        call (WARN "Unable to get keybinding '%s', that command doesn't exist"
                keybind) s)
  /\ input_keybinds (snd (input_getKeybind keybind type_out mod_out s))
     = input_keybinds s.
Proof.
  intros Hnot.
  unfold input_setKeybind, input_getKeybind.
  rewrite (setKeybind_loop_missing _ ty k m _ Hnot).
  rewrite (getKeybind_loop_missing _ _ Hnot).
  repeat split.
Qed.

Lemma unknown_keybind_reported_witness :
  ~ In "warp" (map name (input_keybinds input_init))
  /\ input_keybinds
       (input_setKeybind "warp" KEYBIND_KEYBOARD 119 NMOD_NONE input_init)
     = input_keybinds input_init.
Proof.
  assert (H : ~ In "warp" (map name (input_keybinds input_init))).
  { simpl. intros H.
    repeat (destruct H as [H|H]; [discriminate H|]). exact H. }
  split; [exact H|].
  exact (proj1 (proj2 (unknown_keybind_reported input_init "warp"
                         KEYBIND_KEYBOARD 119 NMOD_NONE None None H))).
Defined.

(** ** What [input_key] leaves alone *)

Ltac break_ifs :=
  repeat match goal with
         | |- context [if ?b then _ else _] => destruct b
         end.

Lemma input_key_chain_bookkeeping (w : World) (b : Keybind)
    (value kabs : float) (repeat : bool) (s s' : State) :
  input_key_chain w b value kabs repeat s = Some s' ->
  same_bookkeeping s s'.
Proof.
  unfold input_key_chain, same_bookkeeping.
  unfold input_key_accel, input_key_turn, input_key_reverse, input_key_flag,
    input_key_face, input_key_speed, on_press, andthen, skip.
  intros H.
  repeat match type of H with
         | context [if ?c then _ else _] => destruct c
         end;
    try discriminate H; injection H as <-; repeat split; reflexivity.
Qed.

Lemma input_key_repetition_bookkeeping (w : World) (keynum : Z)
    (value : float) (repeat : bool) (s : State) :
  input_keybinds (input_key_repetition w keynum value repeat s)
  = input_keybinds s
  /\ dispatched (input_key_repetition w keynum value repeat s) = dispatched s.
Proof.
  unfold input_key_repetition, skip. break_ifs; split; reflexivity.
Qed.

(** [input_key] never changes the table and records exactly one dispatch. *)
Lemma input_key_table_and_dispatch (w : World) (keynum : Z)
    (value kabs : float) (repeat : bool) (s : State) :
  input_keybinds (input_key w keynum value kabs repeat s) = input_keybinds s
  /\ dispatched (input_key w keynum value kabs repeat s)
     = dispatched s ++ [(keynum, value, kabs, repeat)].
Proof.
  unfold input_key.
  set (s0 := log_dispatch (keynum, value, kabs, repeat) s).
  destruct (input_key_repetition_bookkeeping w keynum value repeat s0)
    as [Hk Hd].
  set (s1 := input_key_repetition w keynum value repeat s0) in *.
  assert (H1 : input_keybinds s1 = input_keybinds s
               /\ dispatched s1 = dispatched s ++ [(keynum, value, kabs, repeat)]).
  { rewrite Hk, Hd. split; reflexivity. }
  destruct (keybind_at keynum s1) as [b|]; [|exact H1].
  destruct (input_key_chain w b value kabs repeat s1) as [s2|] eqn:E;
    [|exact H1].
  apply input_key_chain_bookkeeping in E.
  destruct E as (E1 & E2 & _). simpl. rewrite E1, E2. exact H1.
Qed.

Lemma input_keyevent_body_spec (w : World) (event : Z) (k : SDL_Keycode)
    (mod_filtered : SDL_Keymod) (repeat : bool) (i : nat) (s : State) :
  let s' := input_keyevent_body w event k mod_filtered repeat i s in
  input_keybinds s' = input_keybinds s
  /\ dispatched s'
     = dispatched s
       ++ map (fun j => (Z.of_nat j, double_of_int event, (-1)%float, repeat))
            (firing_indices event k mod_filtered (input_keybinds s) i 1).
Proof.
  unfold input_keyevent_body, firing_indices, binding_fires. simpl.
  destruct (nth_error (input_keybinds s) i) as [b|].
  - destruct (event_is event KEY_PRESS), (disabled b),
      (KeybindType_eqb (type b) KEYBIND_KEYBOARD), (key b =? k),
      (mod_ b =? mod_filtered), (mod_ b =? NMOD_ANY),
      (event_is event KEY_RELEASE);
      simpl;
      first [ apply input_key_table_and_dispatch
            | split; [reflexivity | symmetry; apply app_nil_r] ].
  - split; [reflexivity | symmetry; apply app_nil_r].
Qed.

Lemma firing_indices_step (event : Z) (k : SDL_Keycode)
    (mod_filtered : SDL_Keymod) (binds : list Keybind) (from n : nat) :
  firing_indices event k mod_filtered binds from (S n)
  = firing_indices event k mod_filtered binds from 1
    ++ firing_indices event k mod_filtered binds (S from) n.
Proof.
  unfold firing_indices.
  change (seq from (S n)) with (seq from 1 ++ seq (S from) n).
  apply filter_app.
Qed.

Lemma input_keyevent_loop_spec (w : World) (event : Z) (k : SDL_Keycode)
    (mod_filtered : SDL_Keymod) (repeat : bool) (n : nat) :
  forall (from : nat) (s : State),
    let s' := input_keyevent_loop w event k mod_filtered repeat n from s in
    input_keybinds s' = input_keybinds s
    /\ dispatched s'
       = dispatched s
         ++ map (fun j => (Z.of_nat j, double_of_int event, (-1)%float, repeat))
              (firing_indices event k mod_filtered (input_keybinds s) from n).
Proof.
  induction n as [|n IH]; intros from s; cbv zeta.
  - split; [reflexivity | symmetry; apply app_nil_r].
  - cbn [input_keyevent_loop]. unfold andthen.
    destruct (input_keyevent_body_spec w event k mod_filtered repeat from s)
      as [Hk Hd].
    destruct (IH (S from)
                (input_keyevent_body w event k mod_filtered repeat from s))
      as [Hk' Hd'].
    split.
    + rewrite Hk'. exact Hk.
    + rewrite Hd', Hd, Hk.
      rewrite (firing_indices_step event k mod_filtered _ from n).
      rewrite map_app, app_assoc. reflexivity.
Qed.

Lemma KeybindType_eqb_eq (a b : KeybindType) :
  KeybindType_eqb a b = true <-> a = b.
Proof. destruct a, b; simpl; split; intros H; congruence. Qed.

Lemma binding_fires_iff (event : Z) (k : SDL_Keycode)
    (mod_filtered : SDL_Keymod) (b : Keybind) :
  binding_fires event k mod_filtered b = true
  <-> type b = KEYBIND_KEYBOARD /\ key b = k
      /\ (mod_ b = mod_filtered \/ mod_ b = NMOD_ANY
          \/ event_is event KEY_RELEASE = true)
      /\ ~ (event_is event KEY_PRESS = true /\ disabled b = true).
Proof.
  unfold binding_fires.
  rewrite !andb_true_iff, !orb_true_iff, negb_true_iff, andb_false_iff,
    KeybindType_eqb_eq, !Z.eqb_eq.
  split.
  - intros (((Ht & Hk) & Hm) & Hd). repeat split; try assumption.
    + tauto.
    + intros [He Hdis]. destruct Hd as [Hd|Hd]; congruence.
  - intros (Ht & Hk & Hm & Hd). repeat split; try assumption.
    + tauto.
    + destruct (event_is event KEY_PRESS); [|left; reflexivity].
      right. destruct (disabled b); [exfalso; apply Hd; split; auto|reflexivity].
Qed.

Lemma firing_indices_In (event : Z) (k : SDL_Keycode)
    (mod_filtered : SDL_Keymod) (binds : list Keybind) (i : nat) (b : Keybind) :
  nth_error binds i = Some b ->
  In i (firing_indices event k mod_filtered binds 0 (List.length binds))
  <-> binding_fires event k mod_filtered b = true.
Proof.
  intros Hb. unfold firing_indices. rewrite filter_In, Hb, in_seq.
  assert (Hlt : (i < List.length binds)%nat).
  { apply nth_error_Some. congruence. }
  split; [tauto | intros H; split; [lia | exact H]].
Qed.

(** C3: on a keyboard event for key [k] with modifiers [m], the calls of
    [input_key] that [input_keyevent] makes are, in table order, those for
    the bindings that fire, each with the event's value, the absolute value
    -1 and the repeat flag; and the binding at index [i] fires exactly when
    its kind is Keyboard, its key is [k], and its mask is the translated
    mask or Any or the event is a release, unless it is disabled and the
    event is a press.  So every matching binding fires, not only the first;
    a release (the event -1) reaches a matching binding whatever the
    modifiers and also when the binding is disabled; a press (the event 1)
    never reaches a disabled one. *)
Theorem keyevent_fires_matching_bindings (w : World) (event : Z)
    (k : SDL_Keycode) (m : SDL_Keymod) (repeat : bool) (s : State) :
  dispatched (input_keyevent w event k m repeat s)
  = dispatched s
    ++ map (fun i => (Z.of_nat i, double_of_int event, (-1)%float, repeat))
         (firing_indices event k (input_translateMod m) (input_keybinds s)
            0 (List.length (input_keybinds s)))
  /\ (forall (i : nat) (b : Keybind),
         nth_error (input_keybinds s) i = Some b ->
         In i (firing_indices event k (input_translateMod m) (input_keybinds s)
                 0 (List.length (input_keybinds s)))
         <-> type b = KEYBIND_KEYBOARD /\ key b = k
             /\ (mod_ b = input_translateMod m \/ mod_ b = NMOD_ANY
                 \/ event_is event KEY_RELEASE = true)
             /\ ~ (event_is event KEY_PRESS = true /\ disabled b = true))
  /\ (forall (i : nat) (b : Keybind),
         nth_error (input_keybinds s) i = Some b ->
         type b = KEYBIND_KEYBOARD -> key b = k -> event = -1 ->
         In i (firing_indices event k (input_translateMod m) (input_keybinds s)
                 0 (List.length (input_keybinds s))))
  /\ (forall (i : nat) (b : Keybind),
         nth_error (input_keybinds s) i = Some b ->
         disabled b = true -> event = 1 ->
         ~ In i (firing_indices event k (input_translateMod m)
                   (input_keybinds s) 0 (List.length (input_keybinds s)))).
Proof.
  split; [|split; [|split]].
  - unfold input_keyevent. apply input_keyevent_loop_spec.
  - intros i b Hb. rewrite (firing_indices_In _ _ _ _ _ _ Hb).
    apply binding_fires_iff.
  - intros i b Hb Ht Hk ->.
    rewrite (firing_indices_In _ _ _ _ _ _ Hb), binding_fires_iff.
    repeat split; auto. intros [He' _]. discriminate He'.
  - intros i b Hb Hd ->.
    rewrite (firing_indices_In _ _ _ _ _ _ Hb), binding_fires_iff.
    intros (_ & _ & _ & Hn). apply Hn. split; [reflexivity | assumption].
Qed.

Lemma keyevent_fires_matching_bindings_witness :
  dispatched (input_keyevent (quiet_world usual_conf 1000) 1 119 0 false
                three_on_w)
  = [(0, 1%float, (-1)%float, false); (11, 1%float, (-1)%float, false)]
  /\ dispatched (input_keyevent (quiet_world usual_conf 1000) (-1) 119 0 false
                   three_on_w)
     = [(0, (-1)%float, (-1)%float, false);
        (11, (-1)%float, (-1)%float, false);
        (13, (-1)%float, (-1)%float, false)].
Proof.
  split.
  - rewrite (proj1 (keyevent_fires_matching_bindings
                      (quiet_world usual_conf 1000) 1 119 0 false three_on_w)).
    vm_compute. reflexivity.
  - rewrite (proj1 (keyevent_fires_matching_bindings
                      (quiet_world usual_conf 1000) (-1) 119 0 false
                      three_on_w)).
    vm_compute. reflexivity.
Defined.

(** ** Accelerate and the afterburner *)

Lemma press_is_press : (KEY_PRESS =? KEY_PRESS)%float = true.
Proof. reflexivity. Qed.
Lemma press_is_not_release : (KEY_PRESS =? KEY_RELEASE)%float = false.
Proof. reflexivity. Qed.
Lemma release_is_release : (KEY_RELEASE =? KEY_RELEASE)%float = true.
Proof. reflexivity. Qed.
Lemma release_is_not_press : (KEY_RELEASE =? KEY_PRESS)%float = false.
Proof. reflexivity. Qed.
Lemma press_is_positive : (0 <? KEY_PRESS)%float = true.
Proof. reflexivity. Qed.
Lemma release_is_not_positive : (0 <? KEY_RELEASE)%float = false.
Proof. reflexivity. Qed.

Ltac key_values :=
  rewrite ?press_is_press, ?press_is_not_release, ?release_is_release,
    ?release_is_not_press, ?press_is_positive, ?release_is_not_positive.

(** The repetition code touches the repeat record only. *)
Lemma input_key_repetition_shape (w : World) (keynum : Z) (value : float)
    (repeat : bool) (s : State) :
  exists k t c, input_key_repetition w keynum value repeat s = set_repeat k t c s.
Proof.
  unfold input_key_repetition, skip.
  break_ifs; try (do 3 eexists; reflexivity);
    exists (repeat_key s), (repeat_keyTimer s), (repeat_keyCounter s);
    destruct s; reflexivity.
Qed.





(** ** Key repeat *)

Lemma input_key_repeat_record (w : World) (keynum : Z) (value kabs : float)
    (repeat : bool) (s : State) :
  repeat_record (input_key w keynum value kabs repeat s)
  = repeat_record (input_key_repetition w keynum value repeat s).
Proof.
  unfold input_key.
  set (s0 := log_dispatch (keynum, value, kabs, repeat) s).
  assert (H0 : repeat_record (input_key_repetition w keynum value repeat s0)
               = repeat_record (input_key_repetition w keynum value repeat s)).
  { unfold input_key_repetition, skip. break_ifs; reflexivity. }
  destruct (keybind_at keynum _) as [b|]; [|exact H0].
  destruct (input_key_chain w b value kabs repeat _) as [s2|] eqn:E;
    [|exact H0].
  apply input_key_chain_bookkeeping in E.
  destruct E as (_ & _ & E1 & E2 & E3 & _).
  rewrite <- H0. unfold repeat_record. simpl. rewrite E1, E2, E3. reflexivity.
Qed.

Lemma input_update_mouse_bookkeeping (dt : float) (s : State) :
  repeat_record (input_update_mouse dt s) = repeat_record s
  /\ dispatched (input_update_mouse dt s) = dispatched s
  /\ input_keybinds (input_update_mouse dt s) = input_keybinds s.
Proof.
  unfold input_update_mouse. break_ifs; repeat split.
Qed.

Lemma wrap32_le (z : Z) : 0 <= z -> wrap32 z <= z.
Proof.
  intros Hz. unfold wrap32. apply Z.mod_le; lia.
Qed.

(** Key repeat while the tick counter does not wrap between the press and
    the frame: with a non-zero repeat delay, every press that is not a
    repeat records the key, the current tick and the counter 0, and every
    release clears the record; a frame at which, over the integers,
    [now - recordedTime > delay + counter * frequency] (so [now] is a tick
    after [recordedTime], with no wrap in between) calls [input_key] again
    for the recorded key as a press flagged as a repeat, and increments the
    counter (as an [unsigned int]).  With the delay 0 [input_key] never
    touches the record and [input_update] dispatches nothing. *)
Theorem key_repeat_timer (w : World) :
  (repeat_delay (conf w) <> 0 ->
   (forall (keynum : Z) (kabs : float) (s : State),
       repeat_record (input_key w keynum KEY_PRESS kabs false s)
       = (keynum, SDL_GetTicks w, 0))
   /\ (forall (keynum : Z) (kabs : float) (repeat : bool) (s : State),
          repeat_record (input_key w keynum KEY_RELEASE kabs repeat s)
          = (-1, 0, 0))
   /\ (forall (dt : float) (s : State),
          repeat_key s <> -1 ->
          0 <= repeat_keyTimer s -> 0 <= repeat_keyCounter s ->
          0 <= repeat_delay (conf w) -> 0 <= repeat_freq (conf w) ->
          SDL_GetTicks w - repeat_keyTimer s
          > repeat_delay (conf w) + repeat_keyCounter s * repeat_freq (conf w) ->
          dispatched (input_update w dt s)
          = dispatched s ++ [(repeat_key s, KEY_PRESS, 0%float, true)]
          /\ repeat_record (input_update w dt s)
             = (repeat_key s, repeat_keyTimer s,
                wrap32 (repeat_keyCounter s + 1))))
  /\ (repeat_delay (conf w) = 0 ->
      (forall (keynum : Z) (value kabs : float) (repeat : bool) (s : State),
          repeat_record (input_key w keynum value kabs repeat s)
          = repeat_record s)
      /\ (forall (dt : float) (s : State),
             dispatched (input_update w dt s) = dispatched s
             /\ repeat_record (input_update w dt s) = repeat_record s)).
Proof.
  split.
  - intros Hdelay. apply Z.eqb_neq in Hdelay. split; [|split].
    + intros keynum kabs s. rewrite input_key_repeat_record.
      unfold input_key_repetition. rewrite Hdelay. key_values. reflexivity.
    + intros keynum kabs repeat s. rewrite input_key_repeat_record.
      unfold input_key_repetition. rewrite Hdelay. key_values. reflexivity.
    + intros dt s Hkey Htimer Hcounter Hd Hf Hdue.
      unfold input_update, andthen.
      destruct (input_update_mouse_bookkeeping dt s) as (Hr & Hdis & _).
      set (s1 := input_update_mouse dt s) in *.
      injection Hr as Hr1 Hr2 Hr3.
      unfold input_update_repeat. rewrite Hdelay, Hr1, Hr2, Hr3.
      apply Z.eqb_neq in Hkey. rewrite Hkey. cbn [negb].
      assert (Hnow : (SDL_GetTicks w
                      <? wrap32 (repeat_keyTimer s + repeat_delay (conf w)
                                 + repeat_keyCounter s * repeat_freq (conf w)))
                     = false).
      { apply Z.ltb_ge.
        pose proof (wrap32_le (repeat_keyTimer s + repeat_delay (conf w)
                               + repeat_keyCounter s * repeat_freq (conf w))).
        nia. }
      rewrite Hnow. split.
      * rewrite (proj2 (input_key_table_and_dispatch _ _ _ _ _ _)).
        cbn [dispatched set_repeat]. rewrite Hdis. reflexivity.
      * rewrite input_key_repeat_record.
        unfold input_key_repetition. rewrite Hdelay. key_values. reflexivity.
  - intros Hdelay. split.
    + intros keynum value kabs repeat s. rewrite input_key_repeat_record.
      unfold input_key_repetition. rewrite Hdelay. reflexivity.
    + intros dt s. unfold input_update, andthen, input_update_repeat.
      rewrite Hdelay. cbn [Z.eqb negb].
      destruct (input_update_mouse_bookkeeping dt s) as (Hr & Hdis & _).
      split; assumption.
Qed.

Lemma key_repeat_timer_witness :
  repeat_record tap1_down = (0, 1000, 0)
  /\ dispatched (input_update (quiet_world usual_conf 1600) 0.016%float
                   tap1_down)
     = dispatched tap1_down ++ [(0, KEY_PRESS, 0%float, true)]
  /\ repeat_record (input_update (quiet_world usual_conf 1600) 0.016%float
                      tap1_down)
     = (0, 1000, 1).
Proof.
  split; [reflexivity|].
  apply (proj1 (key_repeat_timer (quiet_world usual_conf 1600))).
  - discriminate.
  - vm_compute. discriminate.
  - vm_compute. discriminate.
  - vm_compute. discriminate.
  - vm_compute. discriminate.
  - vm_compute. discriminate.
  - vm_compute. reflexivity.
Defined.

(** C6 at the failing input.  The key [a] is pressed at tick 4294966791,
    505 ms before the 32-bit tick counter wraps, with a repeat delay of
    500 ms.  At tick 6, 511 ms after the press in 32-bit tick arithmetic,
    the repeat is due, but [input_update] compares the counter with the
    deadline 4294966791 + 500 = 4294967291, which the wrapped counter does
    not reach: nothing is dispatched, at that frame nor at any later tick
    of the new round such as 100000, while the key is held.  The same hold
    pressed at tick 1000 repeats at tick 1511. *)
Lemma key_repeat_missed_at_tick_wrap :
  (repeat_record held_before_wrap = (0, 4294966791, 0)
   /\ repeat_delay (conf (quiet_world usual_conf 6)) = 500
   /\ wrap32 (6 - 4294966791) = 511
   /\ dispatched (input_update (quiet_world usual_conf 6) 0.016%float
                    held_before_wrap)
      = dispatched held_before_wrap
   /\ repeat_record (input_update (quiet_world usual_conf 6) 0.016%float
                       held_before_wrap)
      = (0, 4294966791, 0)
   /\ dispatched (input_update (quiet_world usual_conf 100000) 0.016%float
                    held_before_wrap)
      = dispatched held_before_wrap)
  /\ (repeat_record tap1_down = (0, 1000, 0)
      /\ dispatched (input_update (quiet_world usual_conf 1511) 0.016%float
                       tap1_down)
         = dispatched tap1_down ++ [(0, KEY_PRESS, 0%float, true)]).
Proof.
  repeat match goal with |- _ /\ _ => split end; vm_compute; reflexivity.
Qed.

(** ** Comparisons of doubles *)

Lemma SFcompare_Lt_swap (x y : spec_float) :
  SFcompare x y = Some Lt -> SFcompare y x = Some Gt.
Proof.
  destruct x as [sx|sx| |sx mx ex], y as [sy|sy| |sy my ey]; simpl;
    try discriminate;
    try (destruct sx; discriminate); try (destruct sy; discriminate);
    try (destruct sx, sy; (discriminate || reflexivity)).
  change (PosDef.Pos.compare_cont Eq mx my) with (mx ?= my)%positive.
  change (PosDef.Pos.compare_cont Eq my mx) with (my ?= mx)%positive.
  rewrite (Z.compare_antisym ex ey), (Pos.compare_antisym mx my).
  destruct sx, sy; try discriminate; try reflexivity;
    destruct (ex ?= ey)%Z; simpl; try discriminate; try reflexivity;
    destruct (mx ?= my)%positive; simpl; try discriminate; reflexivity.
Qed.

(** [x < y] gives [x <= y] ... *)
Lemma double_lt_le (x y : float) :
  (x <? y)%float = true -> (x <=? y)%float = true.
Proof.
  rewrite ltb_spec, leb_spec. unfold SFltb, SFleb.
  destruct (SFcompare (Prim2SF x) (Prim2SF y)) as [[| |]|]; congruence.
Qed.

(** ... and excludes [y <= x]. *)
Lemma double_lt_not_ge (x y : float) :
  (x <? y)%float = true -> (y <=? x)%float = false.
Proof.
  rewrite ltb_spec, leb_spec. unfold SFltb, SFleb.
  destruct (SFcompare (Prim2SF x) (Prim2SF y)) as [[| |]|] eqn:E;
    try discriminate.
  intros _. rewrite (SFcompare_Lt_swap _ _ E). reflexivity.
Qed.

(** ** Double clicks *)

Lemma Clicked_eqb_eq (a b : Clicked) : Clicked_eqb a b = true <-> a = b.
Proof.
  destruct a, b; simpl; rewrite ?andb_true_iff, ?Z.eqb_eq;
    split; intros H; try discriminate; try congruence.
  - destruct H; congruence.
  - injection H as -> ->. split; reflexivity.
Qed.

Lemma ptr_eqb_same (c : Clicked) : ptr_eqb c (Some c) = true.
Proof. simpl. apply Clicked_eqb_eq. reflexivity. Qed.

Lemma ptr_eqb_other (c : Clicked) (last : option Clicked) :
  last <> Some c -> ptr_eqb c last = false.
Proof.
  intros Hne. destruct last as [c0|]; [|reflexivity]. simpl.
  destruct (Clicked_eqb c c0) eqn:E; [|reflexivity].
  apply Clicked_eqb_eq in E. congruence.
Qed.

Lemma wrap32_small (z : Z) : 0 <= z < 2 ^ 32 -> wrap32 z = z.
Proof. intros Hz. unfold wrap32. apply Z.mod_small. exact Hz. Qed.

(** With detection enabled, [input_isDoubleClick] is the deadline test
    together with the identity test. *)
Lemma input_isDoubleClick_enabled (w : World) (c : Clicked) (s : State) :
  (0 <? mouse_doubleclick (conf w))%float = true ->
  input_isDoubleClick w c s
  = (SDL_GetTicks w <=? wrap32 (input_mouseClickLast s + doubleclick_ms w))
    && ptr_eqb c (input_lastClicked s).
Proof.
  intros Hpos. unfold input_isDoubleClick.
  rewrite (double_lt_not_ge _ _ Hpos). reflexivity.
Qed.

Lemma input_clicked_enabled (w : World) (c : Clicked) (s : State) :
  (0 <? mouse_doubleclick (conf w))%float = true ->
  input_clicked w c s = set_lastClicked (Some c) (SDL_GetTicks w) s.
Proof.
  intros Hpos. unfold input_clicked.
  rewrite (double_lt_not_ge _ _ Hpos). reflexivity.
Qed.

(** A left click on a selectable entity with detection enabled is always
    used and always records the entity and the tick. *)
Lemma left_click_records (w : World) (c : Clicked) (s : State) :
  (0 <? mouse_doubleclick (conf w))%float = true ->
  selectable w c = true ->
  fst (input_clickedEntity w c false s) = true
  /\ input_lastClicked (snd (input_clickedEntity w c false s)) = Some c
  /\ input_mouseClickLast (snd (input_clickedEntity w c false s))
     = SDL_GetTicks w.
Proof.
  intros Hpos Hsel.
  destruct c as [id|id|id|f a]; simpl in Hsel |- *.
  - unfold input_clickedPilot.
    apply negb_true_iff in Hsel. rewrite Hsel.
    rewrite input_clicked_enabled by exact Hpos. repeat split.
  - unfold input_clickedPlanet. rewrite Hsel.
    rewrite input_clicked_enabled by exact Hpos. repeat split.
  - unfold input_clickedJump. rewrite Hsel.
    rewrite input_clicked_enabled by exact Hpos. repeat split.
  - unfold input_clickedAsteroid, andthen.
    rewrite input_clicked_enabled by exact Hpos. repeat split.
Qed.

(** A left click on a selectable entity that is already targeted runs its
    primary action when the click is a double-click and re-selects it
    otherwise. *)
Lemma left_click_on_target (w : World) (c : Clicked) (s : State) :
  selectable w c = true ->
  already_targeted w c = true ->
  calls (snd (input_clickedEntity w c false s))
  = calls s ++ (if input_isDoubleClick w c s
                then primary_action w c else select_action c).
Proof.
  intros Hsel Htgt.
  assert (Hclicked : forall c' s', calls (input_clicked w c' s') = calls s').
  { intros c' s'. unfold input_clicked. break_ifs; reflexivity. }
  assert (Hdc : forall c' s' x,
             input_isDoubleClick w c' (call x s') = input_isDoubleClick w c' s').
  { reflexivity. }
  destruct c as [id|id|id|f a]; simpl in Hsel, Htgt |- *;
    try discriminate Htgt.
  - unfold input_clickedPilot.
    apply negb_true_iff in Hsel. rewrite Hsel, Htgt. cbn [snd andb].
    rewrite Hclicked.
    destruct (input_isDoubleClick w (PilotPtr id) s);
      [destruct (pilot_isDisabled w id || pilot_isBoardable w id)|];
      reflexivity.
  - unfold input_clickedPlanet. rewrite Hsel, Htgt. cbn [snd andb negb].
    rewrite Hclicked.
    destruct (input_isDoubleClick w (PlanetPtr id) s); [|reflexivity].
    unfold andthen.
    destruct ((planet_faction w id <? 0) || planet_can_land w id
              || planet_bribed w id || (0 <? planet_land_override w id));
      cbn; rewrite <- app_assoc; reflexivity.
  - unfold input_clickedJump. rewrite Hsel.
    apply Z.eqb_eq in Htgt. rewrite <- Htgt, Z.eqb_refl. cbn [snd andb negb].
    rewrite Hclicked.
    destruct (input_isDoubleClick w (JumpPtr id) s); [|reflexivity].
    destruct (space_canHyperspace w); cbn; [reflexivity|].
    symmetry. apply app_nil_r.
Qed.

(** C7 at the failing input.  The first left click on pilot 7 comes at
    tick 4294967196, 100 ms before the 32-bit tick counter wraps, and the
    second 50 ms later, well within the window of 500 ms: the deadline
    computed as [input_mouseClickLast + 500] wraps to 400, so the second
    click is not a double-click and only selects the pilot again.  The same
    two clicks at ticks 1000 and 1050 are a double-click and hail the
    pilot. *)
Lemma double_click_missed_at_tick_wrap :
  (input_lastClicked clicked_7_before_wrap = Some (PilotPtr 7)
   /\ input_mouseClickLast clicked_7_before_wrap = 4294967196
   /\ doubleclick_ms (quiet_world usual_conf 4294967246) = 500
   /\ input_isDoubleClick (targeting 7 (quiet_world usual_conf 4294967246))
        (PilotPtr 7) clicked_7_before_wrap = false
   /\ calls (snd (input_clickedPilot
                    (targeting 7 (quiet_world usual_conf 4294967246)) 7 false
                    clicked_7_before_wrap))
      = [player_targetSet 7; player_targetSet 7])
  /\ (input_isDoubleClick (targeting 7 (quiet_world usual_conf 1050))
        (PilotPtr 7) clicked_7_at_1000 = true
      /\ calls (snd (input_clickedPilot
                       (targeting 7 (quiet_world usual_conf 1050)) 7 false
                       clicked_7_at_1000))
         = [player_targetSet 7; player_hail]).
Proof.
  repeat split; vm_compute; reflexivity.
Qed.

Lemma clicks_on_cons (c : Clicked) (autonav : bool) (w : World)
    (clicks : list (bool * World)) (s : State) :
  clicks_on c ((autonav, w) :: clicks) s
  = clicks_on c clicks (snd (input_clickedEntity w c autonav s)).
Proof. reflexivity. Qed.

(** A right click on a selectable pilot, planet or jump point makes the
    autonav calls and leaves the record of the last click as it was. *)
Lemma right_click_keeps_record (w : World) (c : Clicked) (s : State) :
  has_autonav c = true ->
  input_lastClicked (snd (input_clickedEntity w c true s))
  = input_lastClicked s
  /\ input_mouseClickLast (snd (input_clickedEntity w c true s))
     = input_mouseClickLast s
  /\ (selectable w c = true ->
      calls (snd (input_clickedEntity w c true s))
      = calls s ++ autonav_action w c).
Proof.
  intros Hautonav.
  destruct c as [id|id|id|f a]; [| | |discriminate Hautonav];
    cbn [input_clickedEntity selectable autonav_action].
  - unfold input_clickedPilot, andthen.
    destruct (id =? PLAYER_ID); cbn [negb snd];
      repeat split; try discriminate.
    intros _. cbn. rewrite <- app_assoc. reflexivity.
  - unfold input_clickedPlanet, andthen.
    destruct (planet_isKnown w id); cbn [negb snd];
      repeat split; try discriminate.
    intros _. cbn. rewrite <- app_assoc. reflexivity.
  - unfold input_clickedJump, andthen.
    destruct (jp_isUsable w id); cbn [negb snd];
      [|repeat split; discriminate].
    destruct (negb (player_nav_hyperspace w =? id)); cbn;
      repeat split; intros _; rewrite <- ?app_assoc; reflexivity.
Qed.

(** C10, as the code has it: with double-click detection enabled every
    left click that selects an entity records the entity and the tick,
    whether or not it was itself a double-click, and a right click on a
    pilot, planet or jump point neither records itself nor resets the
    record.  So after a left click on an entity, each further left click
    on it while it is targeted, at most the window after the left click
    before (with a window that fits an [int] and a deadline that fits the
    tick counter), runs the primary action of the entity, also when right
    clicks on it came in between, which run its autonav action. *)
Theorem further_clicks_stay_double_clicks (c : Clicked) :
  (forall (w : World) (s : State),
      (0 <? mouse_doubleclick (conf w))%float = true ->
      selectable w c = true ->
      fst (input_clickedEntity w c false s) = true
      /\ input_lastClicked (snd (input_clickedEntity w c false s)) = Some c
      /\ input_mouseClickLast (snd (input_clickedEntity w c false s))
         = SDL_GetTicks w)
  /\ (forall (w : World) (s : State),
         has_autonav c = true ->
         input_lastClicked (snd (input_clickedEntity w c true s))
         = input_lastClicked s
         /\ input_mouseClickLast (snd (input_clickedEntity w c true s))
            = input_mouseClickLast s)
  /\ (forall (clicks : list (bool * World)) (s : State),
         input_lastClicked s = Some c ->
         0 <= input_mouseClickLast s ->
         quick_clicks c (input_mouseClickLast s) clicks ->
         calls (clicks_on c clicks s)
         = calls s
           ++ flat_map (fun click => click_action (snd click) c (fst click))
                clicks).
Proof.
  split; [intros w s; apply left_click_records|].
  split.
  { intros w s Hautonav.
    destruct (right_click_keeps_record w c s Hautonav) as (Hc & Ht & _).
    split; assumption. }
  induction clicks as [|[autonav w] clicks IH]; intros s Hlast Hpos Hquick.
  - simpl. symmetry. apply app_nil_r.
  - rewrite clicks_on_cons. destruct autonav.
    + destruct Hquick as (Hautonav & Hsel & Hrest).
      destruct (right_click_keeps_record w c s Hautonav)
        as (Hrec & Htick & Hcalls).
      rewrite IH.
      * rewrite (Hcalls Hsel). cbn [flat_map click_action fst snd].
        rewrite <- app_assoc. reflexivity.
      * rewrite Hrec. exact Hlast.
      * rewrite Htick. exact Hpos.
      * rewrite Htick. exact Hrest.
    + destruct Hquick as (Hen & _ & Hsel & Htgt & Hwin & Hfit & Hrest).
      destruct (left_click_records w c s Hen Hsel) as (_ & Hrec & Htick).
      rewrite IH.
      * rewrite (left_click_on_target w c s Hsel Htgt).
        rewrite (input_isDoubleClick_enabled w c s Hen), Hlast, ptr_eqb_same.
        rewrite wrap32_small by lia.
        replace (SDL_GetTicks w
                 <=? input_mouseClickLast s + doubleclick_ms w)
          with true by (symmetry; apply Z.leb_le; lia).
        cbn [andb flat_map click_action fst snd].
        rewrite <- app_assoc. reflexivity.
      * exact Hrec.
      * rewrite Htick. lia.
      * rewrite Htick. exact Hrest.
Qed.

Lemma further_clicks_stay_double_clicks_witness :
  calls (clicks_on (PilotPtr 7) more_clicks_on_7 clicked_7_at_1000)
  = [player_targetSet 7; player_hail; player_targetSet 7;
     player_autonavPil 7; player_hail; player_hail].
Proof.
  apply (proj2 (proj2 (further_clicks_stay_double_clicks (PilotPtr 7)))
           more_clicks_on_7 clicked_7_at_1000).
  - reflexivity.
  - vm_compute. discriminate.
  - vm_compute. repeat split; discriminate.
Defined.

(** C10 as stated fails: a right click that resolves to pilot 7 (it
    targets the pilot and starts autonav) records neither the pilot nor
    the tick; no left click having come before it, the left click on the
    now targeted pilot 100 ms later, before the deadline, is not a
    double-click: it only selects the pilot again. *)
Lemma autonav_click_is_not_recorded :
  fst (input_clickedPilot (quiet_world usual_conf 100) 7 true input_init)
  = true
  /\ calls autonav_7_at_100 = [player_targetSet 7; player_autonavPil 7]
  /\ input_lastClicked autonav_7_at_100 = None
  /\ input_mouseClickLast autonav_7_at_100 = 0
  /\ input_isDoubleClick (targeting 7 (quiet_world usual_conf 200))
       (PilotPtr 7) autonav_7_at_100 = false
  /\ calls (snd (input_clickedPilot
                   (targeting 7 (quiet_world usual_conf 200)) 7 false
                   autonav_7_at_100))
     = [player_targetSet 7; player_autonavPil 7; player_targetSet 7].
Proof.
  repeat split; vm_compute; reflexivity.
Qed.

(** ** Right clicks on empty space *)

Lemma input_clickPos_candidates_warns_only (w : World) (button : Z)
    (x y zoom minpr minr : float) (s : State) :
  snd (input_clickPos_candidates w button x y zoom minpr minr s) = s
  \/ snd (input_clickPos_candidates w button x y zoom minpr minr s)
     = call (WARN "Gfx index out of range" "") s.
Proof.
  unfold input_clickPos_candidates.
  destruct (if button =? SDL_BUTTON_RIGHT then _ else _) as [dp pid].
  destruct (system_getClosest w x y) as [d [[[pntid jpid] astid] fieid]].
  destruct (0 <=? pntid); [left; reflexivity|].
  destruct (0 <=? jpid); [left; reflexivity|].
  destruct (0 <=? astid); [|left; reflexivity].
  destruct (asteroid_gfx_known w fieid astid); [left|right]; reflexivity.
Qed.

(** C5: a right click whose candidates resolve to no pilot, no known
    planet and no usable jump point issues exactly one
    [player_autonavPos] for the clicked position when that position is
    farther than 1500 units from the player's ship, and nothing when it is
    closer; either way the click counts as used.  (Before that the
    candidate search changes nothing, except for a warning when the nearest
    asteroid has an unknown graphic.) *)
Theorem right_click_on_empty_space (w : World) (x y zoom minpr minr : float)
    (s s1 : State) (pid pntid jpid astid fieid : Z) :
  input_clickPos_candidates w SDL_BUTTON_RIGHT x y zoom minpr minr s
  = ((pid, (pntid, jpid, astid, fieid)), s1) ->
  pid = PLAYER_ID ->
  pntid < 0 \/ planet_isKnown w pntid = false ->
  jpid < 0 \/ jp_isUsable w jpid = false ->
  ((double_of_int (1500 * 1500) <? click_distance2 w x y)%float = true ->
   input_clickPos w SDL_BUTTON_RIGHT x y zoom minpr minr s
   = (true, call (player_autonavPos x y) s1))
  /\ ((click_distance2 w x y <? double_of_int (1500 * 1500))%float = true ->
      input_clickPos w SDL_BUTTON_RIGHT x y zoom minpr minr s = (true, s1))
  /\ (s1 = s \/ s1 = call (WARN "Gfx index out of range" "") s).
Proof.
  intros Hcand Hpid Hpnt Hjp.
  assert (Hact : input_clickPos w SDL_BUTTON_RIGHT x y zoom minpr minr s
                 = (true,
                    if (double_of_int (1500 * 1500)
                        <=? click_distance2 w x y)%float
                    then call (player_autonavPos x y) s1 else s1)).
  { unfold input_clickPos. rewrite Hcand. unfold input_clickPos_act.
    change (SDL_BUTTON_RIGHT =? SDL_BUTTON_LEFT) with false.
    change (SDL_BUTTON_RIGHT =? SDL_BUTTON_RIGHT) with true.
    cbv iota. rewrite Hpid, Z.eqb_refl. cbn [negb].
    assert (Hp : (if 0 <=? pntid then input_clickedPlanet w pntid true s1
                  else (false, s1)) = (false, s1)).
    { destruct (0 <=? pntid) eqn:E; [|reflexivity].
      destruct Hpnt as [Hlt|Hun]; [apply Z.leb_le in E; lia|].
      unfold input_clickedPlanet. rewrite Hun. reflexivity. }
    rewrite Hp.
    assert (Hj : (if 0 <=? jpid then input_clickedJump w jpid true s1
                  else (false, s1)) = (false, s1)).
    { destruct (0 <=? jpid) eqn:E; [|reflexivity].
      destruct Hjp as [Hlt|Hun]; [apply Z.leb_le in E; lia|].
      unfold input_clickedJump. rewrite Hun. reflexivity. }
    rewrite Hj. reflexivity. }
  split; [|split].
  - intros Hfar. rewrite Hact, (double_lt_le _ _ Hfar). reflexivity.
  - intros Hnear. rewrite Hact, (double_lt_not_ge _ _ Hnear). reflexivity.
  - pose proof (input_clickPos_candidates_warns_only w SDL_BUTTON_RIGHT
                  x y zoom minpr minr s) as H.
    rewrite Hcand in H. exact H.
Qed.

Lemma right_click_on_empty_space_witness :
  input_clickPos (quiet_world usual_conf 1000) SDL_BUTTON_RIGHT
    2000%float 0%float 1%float 10%float 15%float input_init
  = (true, call (player_autonavPos 2000%float 0%float) input_init)
  /\ input_clickPos (quiet_world usual_conf 1000) SDL_BUTTON_RIGHT
       1000%float 0%float 1%float 10%float 15%float input_init
     = (true, input_init).
Proof.
  split.
  - apply (proj1 (right_click_on_empty_space (quiet_world usual_conf 1000)
                    2000%float 0%float 1%float 10%float 15%float
                    input_init input_init PLAYER_ID (-1) (-1) (-1) (-1)
                    eq_refl eq_refl (or_introl eq_refl) (or_introl eq_refl))).
    reflexivity.
  - apply (proj1 (proj2 (right_click_on_empty_space
                           (quiet_world usual_conf 1000)
                           1000%float 0%float 1%float 10%float 15%float
                           input_init input_init PLAYER_ID (-1) (-1) (-1) (-1)
                           eq_refl eq_refl (or_introl eq_refl)
                           (or_introl eq_refl)))).
    reflexivity.
Defined.

(** ** Clicks near the edge of the screen *)

Lemma border_candidates_unfold (w : World) (mx my : Z) :
  input_clickevent_border_candidates w mx my
  = (if (M_PI / 64 <? border_pilot_deviation w mx my)%float
        || (border_asset_deviation w mx my
            <? border_pilot_deviation w mx my)%float
     then PLAYER_ID else border_pilot w mx my,
     if (M_PI / 64 <? border_asset_deviation w mx my)%float
     then (-1, -1, -1, -1)
     else snd (system_getClosestAng w
                 (fst (fst (border_mouseang w mx my)))
                 (snd (fst (border_mouseang w mx my)))
                 (snd (border_mouseang w mx my)))).
Proof.
  unfold input_clickevent_border_candidates, border_pilot_deviation,
    border_asset_deviation, border_pilot.
  destruct (border_mouseang w mx my) as [[x y] mouseang]. cbn [fst snd].
  destruct (pilot_getNearestAng w mouseang) as [angp pid].
  destruct (system_getClosestAng w x y mouseang)
    as [ang [[[pntid jpid] astid] fieid]].
  reflexivity.
Qed.

(** C4, as the code has it: for a click within 15 pixels of a screen edge
    the angular stage runs first.  In it the nearest pilot by angle stays
    the candidate exactly when there is one, its angular deviation from the
    bearing of the click does not exceed pi/64 and the asset's deviation is
    not strictly smaller; a pilot or an asset whose deviation exceeds pi/64
    is dropped there, no distance being looked at; a pilot that stays gets
    the click, which is then used.  When the stage uses the click the event
    ends there; otherwise the click falls through to the radar and to the
    resolution by distance of [input_clickPos]. *)
Theorem border_click_angular_choice (w : World) (mx my : Z) :
  (fst (input_clickevent_border_candidates w mx my) <> PLAYER_ID
   <-> border_pilot w mx my <> PLAYER_ID
       /\ (M_PI / 64 <? border_pilot_deviation w mx my)%float = false
       /\ (border_asset_deviation w mx my
           <? border_pilot_deviation w mx my)%float = false)
  /\ (fst (input_clickevent_border_candidates w mx my) <> PLAYER_ID ->
      fst (input_clickevent_border_candidates w mx my) = border_pilot w mx my)
  /\ ((M_PI / 64 <? border_pilot_deviation w mx my)%float = true ->
      fst (input_clickevent_border_candidates w mx my) = PLAYER_ID)
  /\ ((M_PI / 64 <? border_asset_deviation w mx my)%float = true ->
      snd (input_clickevent_border_candidates w mx my) = (-1, -1, -1, -1))
  /\ (forall (autonav : bool) (s : State),
         fst (input_clickevent_border_candidates w mx my) <> PLAYER_ID ->
         input_clickevent_border w mx my autonav s
         = input_clickedPilot w
             (fst (input_clickevent_border_candidates w mx my)) autonav s
         /\ fst (input_clickevent_border w mx my autonav s) = true)
  /\ (forall (button ex ey : Z) (s : State),
         player_p w = true ->
         player_isFlag PLAYER_DESTROYED s = false ->
         pilot_isFlag w PILOT_DEAD = false ->
         button = SDL_BUTTON_LEFT \/ button = SDL_BUTTON_RIGHT ->
         gl_windowToScreenPos w ex ey = (mx, my) ->
         on_border w mx my = true ->
         input_clickevent w button ex ey s
         = let r := input_clickevent_border w mx my
                      (button =? SDL_BUTTON_RIGHT)
                      (call (hooks_runParam_mouse button) s) in
           if fst r then snd r
           else input_clickevent_normal w button mx my (snd r)).
Proof.
  rewrite border_candidates_unfold. cbn [fst snd].
  split; [|split; [|split; [|split; [|split]]]].
  - destruct (M_PI / 64 <? border_pilot_deviation w mx my)%float;
      destruct (border_asset_deviation w mx my
                <? border_pilot_deviation w mx my)%float;
      cbn [orb]; split; intros H; try tauto;
      destruct H as (_ & H1 & H2); discriminate.
  - destruct (_ || _); tauto.
  - intros ->. reflexivity.
  - intros ->. reflexivity.
  - intros autonav s Hpid.
    unfold input_clickevent_border. rewrite border_candidates_unfold.
    set (pid := if _ || _ then PLAYER_ID else border_pilot w mx my) in *.
    destruct (if (M_PI / 64 <? border_asset_deviation w mx my)%float
              then _ else _) as [[[pntid jpid] astid] fieid].
    apply Z.eqb_neq in Hpid. rewrite Hpid. cbn [negb].
    split; [reflexivity|].
    unfold input_clickedPilot. rewrite Hpid.
    destruct autonav; reflexivity.
  - intros button ex ey s Hp Hdestroyed Hdead Hbutton Hpos Hborder.
    unfold input_clickevent.
    change (player_isFlag PLAYER_DESTROYED
              (call (hooks_runParam_mouse button) s))
      with (player_isFlag PLAYER_DESTROYED s).
    rewrite Hp, Hdestroyed, Hdead, Hpos, Hborder. cbn [negb orb].
    assert (Hb : (button =? SDL_BUTTON_MIDDLE) = false
                 /\ negb (button =? SDL_BUTTON_LEFT)
                    && negb (button =? SDL_BUTTON_RIGHT) = false).
    { destruct Hbutton as [-> | ->]; split; reflexivity. }
    destruct Hb as [-> ->].
    destruct (input_clickevent_border w mx my (button =? SDL_BUTTON_RIGHT)
                (call (hooks_runParam_mouse button) s)) as [used s'].
    reflexivity.
Qed.

Lemma border_click_angular_choice_witness :
  input_clickevent_border_candidates (two_candidates 0.01 0.02) 10 360
  = (7, (3, -1, -1, -1))
  /\ calls (input_clickevent (two_candidates 0.01 0.02) SDL_BUTTON_LEFT
              10 360 input_init)
     = [hooks_runParam_mouse 1; player_targetSet 7]
  /\ calls (input_clickevent (two_candidates 0.06 0.02) SDL_BUTTON_LEFT
              10 360 input_init)
     = [hooks_runParam_mouse 1; player_targetPlanetSet 3].
Proof.
  rewrite <- and_assoc. split; [|vm_compute; reflexivity].
  pose proof (border_click_angular_choice (two_candidates 0.01 0.02) 10 360)
    as (Hiff & Hsame & _ & _ & Hpilot & Hevent).
  assert (Hstays : fst (input_clickevent_border_candidates
                          (two_candidates 0.01 0.02) 10 360) <> PLAYER_ID).
  { apply Hiff. repeat split. discriminate. }
  split.
  - destruct (input_clickevent_border_candidates
                (two_candidates 0.01 0.02) 10 360) as [pid assets] eqn:E.
    cbn [fst] in Hsame. rewrite (Hsame Hstays). vm_compute in E.
    injection E as _ <-. reflexivity.
  - rewrite (Hevent SDL_BUTTON_LEFT 10 360 input_init eq_refl eq_refl eq_refl
               (or_introl eq_refl) eq_refl eq_refl).
    cbv zeta.
    destruct (Hpilot false
                (call (hooks_runParam_mouse SDL_BUTTON_LEFT) input_init)
                Hstays) as [Hhandler Hused].
    change (SDL_BUTTON_LEFT =? SDL_BUTTON_RIGHT) with false.
    rewrite Hused, Hhandler. reflexivity.
Defined.

(** C4 as stated fails: a candidate whose angular deviation exceeds pi/64
    is not out of the running whatever its literal distance.  Pilot 7 is
    0.05364 rad off the bearing of a left click on the left edge of the
    window, more than pi/64 = 0.04908..., and the angular stage drops it
    (no candidate is left); the click then falls through to the resolution
    by distance, where the pilot lies within its radius of 120 around the
    clicked position (at the squared distance 12625), and is targeted. *)
Lemma border_click_falls_back_to_distance :
  on_border pilot_past_left_edge 0 360 = true
  /\ border_pilot pilot_past_left_edge 0 360 = 7
  /\ (M_PI / 64 <? border_pilot_deviation pilot_past_left_edge 0 360)%float
     = true
  /\ input_clickevent_border_candidates pilot_past_left_edge 0 360
     = (PLAYER_ID, (-1, -1, -1, -1))
  /\ input_clickPos_candidates pilot_past_left_edge SDL_BUTTON_LEFT
       (-640)%float 0%float 1%float 10%float 15%float
       (call gui_radarClickEvent
          (call (hooks_runParam_mouse SDL_BUTTON_LEFT) input_init))
     = ((7, (-1, -1, -1, -1)),
        call gui_radarClickEvent
          (call (hooks_runParam_mouse SDL_BUTTON_LEFT) input_init))
  /\ calls (input_clickevent pilot_past_left_edge SDL_BUTTON_LEFT 0 360
              input_init)
     = [hooks_runParam_mouse 1; gui_radarClickEvent; player_targetSet 7]
  /\ input_lastClicked (input_clickevent pilot_past_left_edge SDL_BUTTON_LEFT
                          0 360 input_init)
     = Some (PilotPtr 7).
Proof.
  repeat split; vm_compute; reflexivity.
Qed.

(** ** Ship statistics *)

(** C9: two relative entries of +0.10 applied in full to a relative stat
    that starts at the identity 1.0, one after the other with
    [ss_statsModSingle] or together with [ss_statsModFromList], leave the
    stat at the double 1.2100000000000002, the double next to 1.21: within
    1e-12 of 1.21 and a hundredth away from the additive 1.20. *)
Theorem relative_stats_stack_multiplicatively (t : Shipstats.ShipStatsType) :
  Shipstats.ss_kind t = Shipstats.KIND_D ->
  Shipstats.doubles Shipstats.ss_statsInit t = 1%float
  /\ Shipstats.ss_statsModFromList Shipstats.ss_statsInit
       [Shipstats.plus_ten_percent t; Shipstats.plus_ten_percent t]
       Shipstats.full_amount
     = Shipstats.ss_statsModSingle
         (Shipstats.ss_statsModSingle Shipstats.ss_statsInit
            (Shipstats.plus_ten_percent t) Shipstats.full_amount)
         (Shipstats.plus_ten_percent t) Shipstats.full_amount
  /\ Shipstats.two_plus_ten_percent t = 1.2100000000000002%float
  /\ (abs (Shipstats.two_plus_ten_percent t - 1.21) <? 1e-12)%float = true
  /\ (abs (Shipstats.two_plus_ten_percent t - 1.2) <? 0.009)%float = false.
Proof.
  intros Hkind.
  assert (Hvalue : Shipstats.two_plus_ten_percent t
                   = 1.2100000000000002%float).
  { destruct t; try discriminate Hkind; vm_compute; reflexivity. }
  rewrite Hvalue. repeat split.
  unfold Shipstats.ss_statsInit. simpl. rewrite Hkind. reflexivity.
Qed.

Lemma relative_stats_stack_multiplicatively_witness :
  Shipstats.two_plus_ten_percent Shipstats.SS_TYPE_D_SPEED_MOD
  = 1.2100000000000002%float
  /\ (abs (Shipstats.two_plus_ten_percent Shipstats.SS_TYPE_D_SPEED_MOD - 1.21)
      <? 1e-12)%float = true.
Proof.
  pose proof (relative_stats_stack_multiplicatively
                Shipstats.SS_TYPE_D_SPEED_MOD eq_refl)
    as (_ & _ & Hvalue & Hnear & _).
  split; assumption.
Defined.

(** ** Further properties *)

(** X1: double-click detection away from the wrap of the tick counter: with a
    positive threshold whose window in ticks fits an [int], a click on the
    last-clicked item no later than the window after the recorded click is
    a double-click when the deadline fits 32 bits; a click after the
    deadline, or on another item, is not; with a threshold that is not
    positive every click is a double-click. *)
Theorem double_click_detection (w : World) (c : Clicked) (s : State) :
  ((0 <? mouse_doubleclick (conf w))%float = true ->
   window_fits_int w ->
   (input_lastClicked s = Some c ->
    0 <= input_mouseClickLast s <= SDL_GetTicks w ->
    SDL_GetTicks w <= input_mouseClickLast s + doubleclick_ms w < 2 ^ 32 ->
    input_isDoubleClick w c s = true)
   /\ (0 <= input_mouseClickLast s + doubleclick_ms w < SDL_GetTicks w ->
       input_isDoubleClick w c s = false)
   /\ (input_lastClicked s <> Some c -> input_isDoubleClick w c s = false))
  /\ ((mouse_doubleclick (conf w) <=? 0)%float = true ->
      input_isDoubleClick w c s = true).
Proof.
  split.
  - intros Hpos _. rewrite (input_isDoubleClick_enabled w c s Hpos).
    split; [|split].
    + intros Hlast Hsince Huntil. rewrite Hlast, ptr_eqb_same.
      rewrite wrap32_small by lia.
      rewrite andb_true_r. apply Z.leb_le. lia.
    + intros Hlate. apply andb_false_iff. left. apply Z.leb_gt.
      pose proof (wrap32_le (input_mouseClickLast s + doubleclick_ms w)).
      lia.
    + intros Hother. rewrite (ptr_eqb_other c _ Hother). apply andb_false_r.
  - intros Hoff. unfold input_isDoubleClick. rewrite Hoff. reflexivity.
Qed.

Lemma double_click_detection_witness :
  input_isDoubleClick (quiet_world usual_conf 1050) (PilotPtr 7)
    clicked_7_at_1000 = true
  /\ input_isDoubleClick (quiet_world usual_conf 1501) (PilotPtr 7)
       clicked_7_at_1000 = false
  /\ input_isDoubleClick (quiet_world usual_conf 1050) (PilotPtr 8)
       clicked_7_at_1000 = false.
Proof.
  split; [|split].
  - destruct (proj1 (double_click_detection (quiet_world usual_conf 1050)
                       (PilotPtr 7) clicked_7_at_1000) eq_refl eq_refl)
      as (Hin & _ & _).
    apply Hin.
    + reflexivity.
    + vm_compute. split; discriminate.
    + vm_compute. split; [discriminate | reflexivity].
  - destruct (proj1 (double_click_detection (quiet_world usual_conf 1501)
                       (PilotPtr 7) clicked_7_at_1000) eq_refl eq_refl)
      as (_ & Hlate & _).
    apply Hlate. vm_compute. split; [discriminate | reflexivity].
  - destruct (proj1 (double_click_detection (quiet_world usual_conf 1050)
                       (PilotPtr 8) clicked_7_at_1000) eq_refl eq_refl)
      as (_ & _ & Hother).
    apply Hother. discriminate.
Defined.

(** X2: [input_translateMod] yields a combination of the four modifier bits
    and never the match-all mask. *)
Theorem translateMod_never_any (m : SDL_Keymod) :
  0 <= input_translateMod m <= 15 /\ input_translateMod m <> NMOD_ANY.
Proof.
  unfold input_translateMod.
  destruct (negb (Z.land m (Z.lor KMOD_LSHIFT KMOD_RSHIFT) =? 0));
    destruct (negb (Z.land m (Z.lor KMOD_LCTRL KMOD_RCTRL) =? 0));
    destruct (negb (Z.land m (Z.lor KMOD_LALT KMOD_RALT) =? 0));
    destruct (negb (Z.land m (Z.lor KMOD_LGUI KMOD_RGUI) =? 0));
    vm_compute; repeat split; discriminate.
Qed.

Lemma input_key_chain_calls (w : World) (b : Keybind) (value kabs : float)
    (repeat : bool) (s s' : State) :
  input_key_chain w b value kabs repeat s = Some s' ->
  exists l, calls s' = calls s ++ l /\ count_input_hooks l = 0%nat.
Proof.
  unfold input_key_chain.
  unfold input_key_accel, input_key_turn, input_key_reverse, input_key_flag,
    input_key_face, input_key_speed, on_press, andthen, skip.
  intros H.
  repeat match type of H with
         | context [if ?c then _ else _] => destruct c
         end;
    try discriminate H; injection H as <-;
    first [ exists []; split; [symmetry; apply app_nil_r | reflexivity]
          | eexists; split;
            [cbn; rewrite <- ?app_assoc; reflexivity | reflexivity] ].
Qed.

Lemma input_key_chain_accepts (w : World) (b : Keybind) (value kabs : float)
    (repeat : bool) (s s' : State) :
  input_key_chain w b value kabs repeat s = None ->
  input_key_chain w b value kabs repeat s' = None.
Proof.
  unfold input_key_chain. intros H.
  repeat match type of H with
         | context [if ?c then _ else _] => destruct c
         end;
    try discriminate H; reflexivity.
Qed.

(** X3: the "input" hook runs exactly once per accepted input and never
    otherwise.  When a branch of the chain of [input_key] accepts the
    binding (its name is one the chain knows and the guards of its branch
    hold), [input_key] makes the calls of that branch, none of which is
    the hook, and then runs the hook once, with the name of the binding
    and whether the value is positive.  When no branch accepts the
    binding, or the index is outside the table, [input_key] makes no call
    into another module at all.  Whether a branch accepts does not depend
    on the state. *)
Theorem input_hook_once_per_accepted_input (w : World) (keynum : Z)
    (value kabs : float) (repeat : bool) (s : State) :
  (forall (b : Keybind) (s2 : State),
      keybind_at keynum s = Some b ->
      input_key_chain w b value kabs repeat s = Some s2 ->
      exists l : list Call,
        count_input_hooks l = 0%nat
        /\ calls (input_key w keynum value kabs repeat s)
           = calls s ++ l
             ++ [hooks_runParam_input (name b) (0 <? value)%float]
        /\ count_input_hooks
             (l ++ [hooks_runParam_input (name b) (0 <? value)%float])
           = 1%nat)
  /\ (forall b : Keybind,
         keybind_at keynum s = Some b ->
         input_key_chain w b value kabs repeat s = None ->
         calls (input_key w keynum value kabs repeat s) = calls s)
  /\ (keybind_at keynum s = None ->
      calls (input_key w keynum value kabs repeat s) = calls s)
  /\ (forall (b : Keybind) (s' : State),
         input_key_chain w b value kabs repeat s = None
         <-> input_key_chain w b value kabs repeat s' = None).
Proof.
  unfold input_key.
  destruct (input_key_repetition_shape w keynum value repeat
              (log_dispatch (keynum, value, kabs, repeat) s))
    as (k & t & c & ->).
  replace (keybind_at keynum
             (set_repeat k t c
                (log_dispatch (keynum, value, kabs, repeat) s)))
    with (keybind_at keynum s) by reflexivity.
  split; [|split; [|split]].
  - intros b s2 Hrow Haccepted. rewrite Hrow.
    destruct (input_key_chain w b value kabs repeat
                (set_repeat k t c
                   (log_dispatch (keynum, value, kabs, repeat) s)))
      as [s3|] eqn:E.
    + destruct (input_key_chain_calls _ _ _ _ _ _ _ E) as (l & Hl & Hcount).
      exists l. split; [exact Hcount|]. split.
      * cbn [calls call]. rewrite Hl, <- app_assoc. reflexivity.
      * unfold count_input_hooks in *.
        rewrite filter_app, length_app, Hcount. reflexivity.
    + rewrite (input_key_chain_accepts _ _ _ _ _ _ s E) in Haccepted.
      discriminate Haccepted.
  - intros b Hrow Hrejected. rewrite Hrow.
    rewrite (input_key_chain_accepts _ _ _ _ _ _
               (set_repeat k t c
                  (log_dispatch (keynum, value, kabs, repeat) s))
               Hrejected).
    reflexivity.
  - intros ->. reflexivity.
  - intros b s'. split; apply input_key_chain_accepts.
Qed.

(** ** The keybinding table under edits *)

Lemma setKeybind_loop_rows (keybind : string) (ty : KeybindType)
    (k : SDL_Keycode) (m : SDL_Keymod) (binds binds' : list Keybind) :
  setKeybind_loop keybind ty k m binds = Some binds' ->
  map name binds' = map name binds /\ map disabled binds' = map disabled binds.
Proof.
  revert binds'. induction binds as [|b rest IH]; intros binds' H.
  - discriminate H.
  - simpl in H. destruct (String.eqb keybind (name b)).
    + injection H as <-. split; reflexivity.
    + destruct (setKeybind_loop keybind ty k m rest) as [rest'|];
        [|discriminate H].
      injection H as <-. destruct (IH rest' eq_refl) as [Hn Hd].
      simpl. rewrite Hn, Hd. split; reflexivity.
Qed.

Lemma input_setKeybind_rows (keybind : string) (ty : KeybindType)
    (k : SDL_Keycode) (m : SDL_Keymod) (s : State) :
  map name (input_keybinds (input_setKeybind keybind ty k m s))
  = map name (input_keybinds s)
  /\ map disabled (input_keybinds (input_setKeybind keybind ty k m s))
     = map disabled (input_keybinds s).
Proof.
  unfold input_setKeybind.
  destruct (setKeybind_loop keybind ty k m (input_keybinds s)) as [binds'|] eqn:E.
  - exact (setKeybind_loop_rows _ _ _ _ _ _ E).
  - split; reflexivity.
Qed.

Lemma toggleEnable_loop_rows (k : string) (enable : bool)
    (binds : list Keybind) :
  map name (toggleEnable_loop k enable binds) = map name binds
  /\ map binding (toggleEnable_loop k enable binds) = map binding binds.
Proof.
  induction binds as [|b rest [IHn IHb]]; [split; reflexivity|].
  simpl. destruct (String.eqb k (name b)); simpl.
  - split; reflexivity.
  - rewrite IHn, IHb. split; reflexivity.
Qed.

Lemma keeps_rows_andthen (c1 c2 : Cmd) :
  keeps_rows c1 -> keeps_rows c2 -> keeps_rows (c1 ;; c2).
Proof.
  intros H1 H2 s. unfold andthen.
  destruct (H1 s) as [Hn1 Hd1]. destruct (H2 (c1 s)) as [Hn2 Hd2].
  split; congruence.
Qed.

Lemma keeps_rows_setKeybind (keybind : string) (ty : KeybindType)
    (k : SDL_Keycode) (m : SDL_Keymod) :
  keeps_rows (input_setKeybind keybind ty k m).
Proof. intros s. apply input_setKeybind_rows. Qed.

Lemma keeps_rows_setDefault (wasd : bool) : keeps_rows (input_setDefault wasd).
Proof.
  unfold input_setDefault.
  destruct wasd;
    repeat first [ apply keeps_rows_setKeybind | apply keeps_rows_andthen ].
Qed.

Lemma table_of_actions_rows (binds : list Keybind) :
  map name binds = keybind_info ->
  binds = map (fun nb => mkKeybind (disabled (snd nb)) (fst nb) (type (snd nb))
                           (key (snd nb)) (mod_ (snd nb)))
            (combine keybind_info binds).
Proof.
  intros <-. induction binds as [|[d n t k m] rest IH]; [reflexivity|].
  simpl. f_equal. exact IH.
Qed.

Lemma distinct_NoDup (l : list string) : distinct l = true -> NoDup l.
Proof.
  induction l as [|x rest IH]; intros H; [constructor|].
  cbn [distinct] in H. apply andb_true_iff in H as [Hx Hrest].
  constructor; [|exact (IH Hrest)].
  intros Hin. apply negb_true_iff in Hx.
  assert (Hex : existsb (String.eqb x) rest = true).
  { apply existsb_exists. exists x. split; [exact Hin|].
    apply String.eqb_refl. }
  rewrite Hex in Hx. discriminate Hx.
Qed.

(** X4: the rows of the table are fixed once and for all.  [input_init]
    creates one unbound, enabled row per action of [keybind_info], whose
    names are pairwise different; and editing the registry never adds,
    removes, renames or reorders a row: [input_setKeybind] and
    [input_setDefault] keep the names and the enable flags of all rows;
    [input_toggleEnable], [input_enableAll] and [input_disableAll] keep the
    names and what every row is bound to, the last two leaving every row
    enabled, respectively disabled. *)
Theorem registry_edits_keep_rows (s : State) :
  (table_of_actions input_init
   /\ NoDup keybind_info
   /\ Forall (fun b => disabled b = false
                       /\ binding b = (KEYBIND_NULL, SDLK_UNKNOWN, NMOD_NONE))
        (input_keybinds input_init))
  /\ (forall (keybind : string) (ty : KeybindType) (k : SDL_Keycode)
             (m : SDL_Keymod),
         map name (input_keybinds (input_setKeybind keybind ty k m s))
         = map name (input_keybinds s)
         /\ map disabled (input_keybinds (input_setKeybind keybind ty k m s))
            = map disabled (input_keybinds s))
  /\ (forall wasd : bool,
         map name (input_keybinds (input_setDefault wasd s))
         = map name (input_keybinds s)
         /\ map disabled (input_keybinds (input_setDefault wasd s))
            = map disabled (input_keybinds s))
  /\ (forall (k : string) (enable : bool),
         map name (input_keybinds (input_toggleEnable k enable s))
         = map name (input_keybinds s)
         /\ map binding (input_keybinds (input_toggleEnable k enable s))
            = map binding (input_keybinds s))
  /\ (map name (input_keybinds (input_enableAll s))
      = map name (input_keybinds s)
      /\ map binding (input_keybinds (input_enableAll s))
         = map binding (input_keybinds s)
      /\ Forall (fun b => disabled b = false)
           (input_keybinds (input_enableAll s)))
  /\ (map name (input_keybinds (input_disableAll s))
      = map name (input_keybinds s)
      /\ map binding (input_keybinds (input_disableAll s))
         = map binding (input_keybinds s)
      /\ Forall (fun b => disabled b = true)
           (input_keybinds (input_disableAll s))).
Proof.
  split; [|split; [|split; [|split; [|split]]]].
  - split; [|split].
    + unfold table_of_actions, input_init, null_keybinds.
      cbn [input_keybinds]. rewrite map_map. apply map_id.
    + apply distinct_NoDup. vm_compute. reflexivity.
    + unfold input_init, null_keybinds. cbn [input_keybinds].
      apply Forall_map, Forall_forall. intros n _. split; reflexivity.
  - intros keybind ty k m. apply input_setKeybind_rows.
  - intros wasd. apply keeps_rows_setDefault.
  - intros k enable. apply toggleEnable_loop_rows.
  - cbn [input_enableAll set_input_keybinds input_keybinds].
    rewrite !map_map. repeat split. apply Forall_map, Forall_forall.
    reflexivity.
  - cbn [input_disableAll set_input_keybinds input_keybinds].
    rewrite !map_map. repeat split. apply Forall_map, Forall_forall.
    reflexivity.
Qed.

Lemma setKeybind_loop_other (keybind other : string) (ty : KeybindType)
    (k : SDL_Keycode) (m : SDL_Keymod) (binds binds' : list Keybind) :
  other <> keybind ->
  setKeybind_loop keybind ty k m binds = Some binds' ->
  getKeybind_loop other binds' = getKeybind_loop other binds.
Proof.
  intros Hother. revert binds'.
  induction binds as [|b rest IH]; intros binds' H; [discriminate H|].
  simpl in H. destruct (String.eqb_spec keybind (name b)) as [Hname|Hname].
  - injection H as <-. simpl. rewrite <- Hname.
    destruct (String.eqb_spec other keybind); [contradiction|reflexivity].
  - destruct (setKeybind_loop keybind ty k m rest) as [rest'|];
      [|discriminate H].
    injection H as <-. simpl. rewrite (IH rest' eq_refl). reflexivity.
Qed.

Lemma toggleEnable_loop_lookup (k other : string) (enable : bool)
    (binds : list Keybind) :
  option_map binding (getKeybind_loop other (toggleEnable_loop k enable binds))
  = option_map binding (getKeybind_loop other binds).
Proof.
  induction binds as [|b rest IH]; [reflexivity|].
  simpl. destruct (String.eqb k (name b)); simpl.
  - destruct (String.eqb other (name b)); reflexivity.
  - destruct (String.eqb other (name b)); [reflexivity|exact IH].
Qed.

(** X5: binding one action leaves every other action as it was, and
    enabling or disabling an action changes no binding at all: what
    [input_getKeybind] returns for another name (its key, and the type and
    mask it stores) is the same before and after [input_setKeybind], and
    for any name the same before and after [input_toggleEnable]. *)
Theorem setKeybind_leaves_other_actions (s : State) (keybind other : string)
    (ty : KeybindType) (k : SDL_Keycode) (m : SDL_Keymod) (enable : bool)
    (type_out : option KeybindType) (mod_out : option SDL_Keymod) :
  other <> keybind ->
  fst (input_getKeybind other type_out mod_out
         (input_setKeybind keybind ty k m s))
  = fst (input_getKeybind other type_out mod_out s)
  /\ fst (input_getKeybind other type_out mod_out
            (input_toggleEnable keybind enable s))
     = fst (input_getKeybind other type_out mod_out s)
  /\ fst (input_getKeybind keybind type_out mod_out
            (input_toggleEnable keybind enable s))
     = fst (input_getKeybind keybind type_out mod_out s).
Proof.
  intros Hother.
  assert (Htoggle : forall n : string,
             fst (input_getKeybind n type_out mod_out
                    (input_toggleEnable keybind enable s))
             = fst (input_getKeybind n type_out mod_out s)).
  { intros n. unfold input_getKeybind, input_toggleEnable.
    cbn [set_input_keybinds input_keybinds].
    pose proof (toggleEnable_loop_lookup keybind n enable (input_keybinds s))
      as H.
    destruct (getKeybind_loop n (toggleEnable_loop keybind enable
                                   (input_keybinds s))) as [b'|];
      destruct (getKeybind_loop n (input_keybinds s)) as [b|];
      try discriminate H; [|reflexivity].
    injection H as Ht Hk Hm. cbn [fst]. rewrite Ht, Hk, Hm. reflexivity. }
  split; [|split; apply Htoggle].
  unfold input_setKeybind.
  destruct (setKeybind_loop keybind ty k m (input_keybinds s)) as [binds'|] eqn:E.
  - unfold input_getKeybind. cbn [set_input_keybinds input_keybinds].
    rewrite (setKeybind_loop_other _ _ _ _ _ _ _ Hother E).
    destruct (getKeybind_loop other (input_keybinds s)); reflexivity.
  - unfold input_getKeybind. cbn [call input_keybinds].
    destruct (getKeybind_loop other (input_keybinds s)); reflexivity.
Qed.

Lemma setKeybind_leaves_other_actions_witness :
  fst (input_getKeybind "left" (Some KEYBIND_NULL) (Some NMOD_NONE)
         (input_setKeybind "accel" KEYBIND_KEYBOARD SDLK_w NMOD_ANY
            (input_setDefault false input_init)))
  = mkKeybindResult SDLK_LEFT (Some KEYBIND_KEYBOARD) (Some NMOD_ANY).
Proof.
  rewrite (proj1 (setKeybind_leaves_other_actions
                    (input_setDefault false input_init) "accel" "left"
                    KEYBIND_KEYBOARD SDLK_w NMOD_ANY true
                    (Some KEYBIND_NULL) (Some NMOD_NONE)
                    ltac:(discriminate))).
  reflexivity.
Defined.

(** X6: [input_setDefault] resets every binding: on a table with the rows
    of [input_init], whatever the actions were bound to before, each action
    ends up bound as it is when the defaults are loaded right after
    [input_init]; no name is reported unknown, the enable flags stay, and
    nothing else of the state changes. *)
Theorem setDefault_resets_every_binding (wasd : bool) (s : State) :
  table_of_actions s ->
  bindings (input_setDefault wasd s)
  = bindings (input_setDefault wasd input_init)
  /\ map disabled (input_keybinds (input_setDefault wasd s))
     = map disabled (input_keybinds s)
  /\ input_setDefault wasd s
     = set_input_keybinds (input_keybinds (input_setDefault wasd s)) s.
Proof.
  intros Hrows. unfold table_of_actions in Hrows.
  destruct s as [tbl aL aB rk rt rc mt mc mcl lc pf pl pr ps dp cl].
  cbn [input_keybinds] in Hrows.
  unfold keybind_info in Hrows.
  repeat (destruct tbl as [|[? ? ? ? ?] tbl]; [discriminate Hrows|];
          injection Hrows as -> Hrows).
  destruct tbl; [|simpl in Hrows; discriminate Hrows]. clear Hrows.
  destruct wasd; vm_compute; repeat split; reflexivity.
Qed.

Lemma setDefault_resets_every_binding_witness :
  bindings (input_setDefault true (input_setDefault false input_init))
  = bindings (input_setDefault true input_init).
Proof.
  apply (setDefault_resets_every_binding true
           (input_setDefault false input_init)).
  reflexivity.
Defined.

(** ** Joystick filters *)

Lemma dispatches_of_step (fires : nat -> Keybind -> list KeyCall)
    (binds : list Keybind) (from n : nat) :
  dispatches_of fires binds from (S n)
  = match nth_error binds from with
    | Some b => fires from b
    | None => []
    end ++ dispatches_of fires binds (S from) n.
Proof. reflexivity. Qed.

Lemma for_keybinds_dispatches (body : nat -> Cmd)
    (fires : nat -> Keybind -> list KeyCall) :
  (forall (i : nat) (s : State),
      input_keybinds (body i s) = input_keybinds s
      /\ dispatched (body i s)
         = dispatched s ++ match nth_error (input_keybinds s) i with
                           | Some b => fires i b
                           | None => []
                           end) ->
  forall (n from : nat) (s : State),
    input_keybinds (for_keybinds body n from s) = input_keybinds s
    /\ dispatched (for_keybinds body n from s)
       = dispatched s ++ dispatches_of fires (input_keybinds s) from n.
Proof.
  intros Hbody. induction n as [|n IH]; intros from s.
  - split; [reflexivity|]. symmetry. apply app_nil_r.
  - cbn [for_keybinds]. unfold andthen.
    destruct (Hbody from s) as [Ht Hd].
    destruct (IH (S from) (body from s)) as [Ht' Hd'].
    split; [congruence|].
    rewrite Hd', Hd, Ht, dispatches_of_step, app_assoc. reflexivity.
Qed.

Lemma input_joyevent_body_dispatches (w : World) (event : Z)
    (button : SDL_Keycode) (i : nat) (s : State) :
  input_keybinds (input_joyevent_body w event button i s) = input_keybinds s
  /\ dispatched (input_joyevent_body w event button i s)
     = dispatched s
       ++ match nth_error (input_keybinds s) i with
          | Some b => if joybutton_fires event button b
                      then [digital i (double_of_int event)] else []
          | None => []
          end.
Proof.
  unfold input_joyevent_body, joybutton_fires, digital.
  destruct (nth_error (input_keybinds s) i) as [b|];
    [|split; [reflexivity | symmetry; apply app_nil_r]].
  destruct (event_is event KEY_PRESS && disabled b);
    [rewrite andb_false_r; split; [reflexivity | symmetry; apply app_nil_r]|].
  rewrite andb_true_r.
  destruct (KeybindType_eqb (type b) KEYBIND_JBUTTON && (key b =? button));
    [|split; [reflexivity | symmetry; apply app_nil_r]].
  apply input_key_table_and_dispatch.
Qed.

Lemma input_joyhatevent_body_dispatches (w : World) (value hat : Z) (i : nat)
    (s : State) :
  input_keybinds (input_joyhatevent_body w value hat i s) = input_keybinds s
  /\ dispatched (input_joyhatevent_body w value hat i s)
     = dispatched s
       ++ match nth_error (input_keybinds s) i with
          | Some b => hat_fires value hat i b
          | None => []
          end.
Proof.
  assert (Hdir : forall (direction : Z) (b : Keybind),
             input_keybinds
               (input_joyhatevent_direction w value direction i b s)
             = input_keybinds s
             /\ dispatched
                  (input_joyhatevent_direction w value direction i b s)
                = dispatched s
                  ++ (if Z.land value direction =? 0
                      then [digital i KEY_RELEASE]
                      else if disabled b then [] else [digital i KEY_PRESS])).
  { intros direction b. unfold input_joyhatevent_direction, digital.
    destruct (Z.land value direction =? 0); cbn [negb].
    - change (event_is (-1) KEY_PRESS) with false. cbn [andb negb].
      apply input_key_table_and_dispatch.
    - change (event_is 1 KEY_PRESS) with true. cbn [andb].
      destruct (disabled b); cbn [negb].
      + split; [reflexivity | symmetry; apply app_nil_r].
      + apply input_key_table_and_dispatch. }
  unfold input_joyhatevent_body, hat_fires.
  destruct (nth_error (input_keybinds s) i) as [b|];
    [|split; [reflexivity | symmetry; apply app_nil_r]].
  destruct (key b =? hat); cbn [negb];
    [|split; [reflexivity | symmetry; apply app_nil_r]].
  destruct (type b); cbn [KeybindType_eqb hat_direction];
    first [ apply Hdir | split; [reflexivity | symmetry; apply app_nil_r] ].
Qed.

Lemma input_joyaxis_body_dispatches (w : World) (axis : SDL_Keycode)
    (value : Z) (i : nat) (s : State) :
  input_keybinds (input_joyaxis_body w axis value i s) = input_keybinds s
  /\ dispatched (input_joyaxis_body w axis value i s)
     = dispatched s
       ++ match nth_error (input_keybinds s) i with
          | Some b => axis_fires axis value i b
          | None => []
          end.
Proof.
  unfold input_joyaxis_body, axis_fires.
  destruct (nth_error (input_keybinds s) i) as [b|] eqn:Hrow;
    [|split; [reflexivity | symmetry; apply app_nil_r]].
  destruct (key b =? axis);
    [|split; [reflexivity | symmetry; apply app_nil_r]].
  fold (axis_kabs value). unfold input_joyaxis_side. rewrite Hrow.
  assert (Hnone : input_keybinds s = input_keybinds s
                  /\ dispatched s = dispatched s ++ [])
    by (split; [reflexivity | symmetry; apply app_nil_r]).
  destruct (type b) eqn:Hty; cbn [KeybindType_eqb andb]; rewrite ?Hrow;
    try rewrite Hty; cbn [KeybindType_eqb andb]; try exact Hnone.
  - (* the positive side *)
    destruct (Z.ltb_spec 0 value) as [Hpos|Hnpos].
    + replace (0 <=? value) with true by (symmetry; apply Z.leb_le; lia).
      cbn [andb]. destruct (disabled b); [exact Hnone|].
      pose proof (input_key_table_and_dispatch w (Z.of_nat i) KEY_PRESS
                    (axis_kabs value) false s) as [Ht Hd].
      rewrite Ht, Hrow, Hty. cbn [KeybindType_eqb andb]. split; assumption.
    + destruct (Z.eqb_spec value 0) as [Hzero|Hneg].
      * subst value. cbn [Z.leb Z.compare andb].
        pose proof (input_key_table_and_dispatch w (Z.of_nat i) KEY_RELEASE
                      (axis_kabs 0) false s) as [Ht Hd].
        rewrite Ht, Hrow, Hty. cbn [KeybindType_eqb andb]. split; assumption.
      * replace (0 <=? value) with false by (symmetry; apply Z.leb_gt; lia).
        rewrite Hrow, Hty. cbn [KeybindType_eqb andb]. exact Hnone.
  - (* the negative side *)
    destruct (Z.ltb_spec 0 (- value)) as [Hneg|Hnneg].
    + replace (value <=? 0) with true by (symmetry; apply Z.leb_le; lia).
      replace (value <? 0) with true by (symmetry; apply Z.ltb_lt; lia).
      cbn [andb]. destruct (disabled b); [exact Hnone|].
      apply input_key_table_and_dispatch.
    + destruct (Z.eqb_spec (- value) 0) as [Hzero|Hpos].
      * assert (value = 0) by lia. subst value. cbn [Z.leb Z.ltb Z.compare andb].
        apply input_key_table_and_dispatch.
      * replace (value <=? 0) with false by (symmetry; apply Z.leb_gt; lia).
        exact Hnone.
Qed.

Lemma input_joyaxis_loop_dispatches (w : World) (axis : SDL_Keycode)
    (value : Z) (n : nat) :
  forall (from : nat) (s : State),
    input_keybinds (input_joyaxis_loop w axis value n from s)
    = input_keybinds s
    /\ dispatched (input_joyaxis_loop w axis value n from s)
       = dispatched s
         ++ dispatches_of (axis_fires axis value) (input_keybinds s) from n.
Proof.
  induction n as [|n IH]; intros from s.
  - split; [reflexivity|]. symmetry. apply app_nil_r.
  - cbn [input_joyaxis_loop]. unfold andthen.
    destruct (input_joyaxis_body_dispatches w axis value from s) as [Ht Hd].
    destruct (IH (S from) (input_joyaxis_body w axis value from s))
      as [Ht' Hd'].
    split; [congruence|].
    rewrite Hd', Hd, Ht, dispatches_of_step, app_assoc. reflexivity.
Qed.

Lemma dispatches_of_In (fires : nat -> Keybind -> list KeyCall)
    (binds : list Keybind) (d : KeyCall) :
  In d (dispatches_of fires binds 0 (List.length binds))
  <-> exists (i : nat) (b : Keybind),
        nth_error binds i = Some b /\ In d (fires i b).
Proof.
  unfold dispatches_of. rewrite in_flat_map. split.
  - intros (i & _ & Hin).
    destruct (nth_error binds i) as [b|] eqn:Hrow; [|destruct Hin].
    exists i, b. split; [exact Hrow | exact Hin].
  - intros (i & b & Hrow & Hin). exists i. split.
    + apply in_seq. split; [apply Nat.le_0_l|]. simpl.
      apply nth_error_Some. rewrite Hrow. discriminate.
    + rewrite Hrow. exact Hin.
Qed.

Lemma holds_from_spec (P : Z -> bool) (n : nat) :
  forall lo : Z,
    holds_from P n lo = true ->
    forall v : Z, lo <= v < lo + 2 ^ Z.of_nat n -> P v = true.
Proof.
  induction n as [|n IH]; intros lo H v Hv.
  - simpl in Hv. assert (v = lo) by lia. subst v. exact H.
  - cbn [holds_from] in H. apply andb_true_iff in H as [Hlow Hhigh].
    rewrite Nat2Z.inj_succ, Z.pow_succ_r in Hv by lia.
    destruct (Z.lt_ge_cases v (lo + 2 ^ Z.of_nat n)).
    + apply (IH lo Hlow). lia.
    + apply (IH _ Hhigh). lia.
Qed.

Lemma axis_kabs_range (value : Z) :
  -32768 <= value <= 32767 ->
  (0 <=? axis_kabs value)%float = true
  /\ (axis_kabs value <=? 32768 / 32767)%float = true.
Proof.
  intros Hrange. apply andb_true_iff.
  apply (holds_from_spec
           (fun v => (0 <=? axis_kabs v)%float
                     && (axis_kabs v <=? 32768 / 32767)%float)
           16 (-32768)).
  - vm_compute. reflexivity.
  - change (2 ^ Z.of_nat 16) with 65536. lia.
Qed.

Lemma without_afterburn_refl (s : State) : without_afterburn s s.
Proof. exists []. repeat split. symmetry. apply app_nil_r. Qed.

Lemma without_afterburn_same (s s' : State) :
  calls s' = calls s -> input_accelLast s' = input_accelLast s ->
  without_afterburn s s'.
Proof.
  intros Hc Ha. exists []. repeat split; [|exact Ha].
  rewrite Hc. symmetry. apply app_nil_r.
Qed.

Lemma without_afterburn_trans (s1 s2 s3 : State) :
  without_afterburn s1 s2 -> without_afterburn s2 s3 ->
  without_afterburn s1 s3.
Proof.
  intros (l1 & Hc1 & Hn1 & Ha1) (l2 & Hc2 & Hn2 & Ha2).
  exists (l1 ++ l2). repeat split.
  - rewrite Hc2, Hc1, app_assoc. reflexivity.
  - rewrite forallb_app, Hn1, Hn2. reflexivity.
  - congruence.
Qed.

Lemma input_key_chain_analog (w : World) (b : Keybind) (value kabs : float)
    (repeat : bool) (s s' : State) :
  (0 <=? kabs)%float = true ->
  input_key_chain w b value kabs repeat s = Some s' ->
  without_afterburn s s'.
Proof.
  intros Hkabs. unfold input_key_chain.
  unfold input_key_accel, input_key_turn, input_key_reverse, input_key_flag,
    input_key_face, input_key_speed, on_press, andthen, skip.
  rewrite Hkabs. intros H.
  repeat match type of H with
         | context [if ?c then _ else _] => destruct c
         end;
    try discriminate H; injection H as <-;
    first [ exists []; split;
            [symmetry; apply app_nil_r | split; reflexivity]
          | eexists; split;
            [cbn; rewrite <- ?app_assoc; reflexivity | split; reflexivity] ].
Qed.

Lemma input_key_analog (w : World) (keynum : Z) (value kabs : float)
    (repeat : bool) (s : State) :
  (0 <=? kabs)%float = true ->
  without_afterburn s (input_key w keynum value kabs repeat s).
Proof.
  intros Hkabs. unfold input_key.
  destruct (input_key_repetition_shape w keynum value repeat
              (log_dispatch (keynum, value, kabs, repeat) s))
    as (k & t & c & ->).
  replace (keybind_at keynum
             (set_repeat k t c
                (log_dispatch (keynum, value, kabs, repeat) s)))
    with (keybind_at keynum s) by reflexivity.
  destruct (keybind_at keynum s) as [b|];
    [|apply without_afterburn_same; reflexivity].
  destruct (input_key_chain w b value kabs repeat _) as [s2|] eqn:E;
    [|apply without_afterburn_same; reflexivity].
  destruct (input_key_chain_analog _ _ _ _ _ _ _ Hkabs E)
    as (l & Hl & Hnone & Hlast).
  exists (l ++ [hooks_runParam_input (name b) (0 <? value)%float]).
  cbn [calls call input_accelLast]. repeat split.
  - rewrite Hl, <- app_assoc. reflexivity.
  - rewrite forallb_app, Hnone. reflexivity.
  - exact Hlast.
Qed.

Lemma input_joyaxis_body_analog (w : World) (axis : SDL_Keycode) (value : Z)
    (i : nat) (s : State) :
  (0 <=? axis_kabs value)%float = true ->
  without_afterburn s (input_joyaxis_body w axis value i s).
Proof.
  intros Hkabs. unfold input_joyaxis_body.
  destruct (nth_error (input_keybinds s) i) as [b|];
    [|apply without_afterburn_refl].
  destruct (key b =? axis); [|apply without_afterburn_refl].
  fold (axis_kabs value).
  assert (Hside : forall (side : KeybindType) (on_side pressed : bool)
                         (s0 : State),
             match input_joyaxis_side w side on_side pressed
                     (axis_kabs value) i s0 with
             | Some s1 => without_afterburn s0 s1
             | None => True
             end).
  { intros side on_side pressed s0. unfold input_joyaxis_side.
    destruct (nth_error (input_keybinds s0) i) as [b0|];
      [|apply without_afterburn_refl].
    destruct (KeybindType_eqb (type b0) side && on_side);
      [|apply without_afterburn_refl].
    destruct (pressed && disabled b0); [exact I|].
    apply input_key_analog. exact Hkabs. }
  pose proof (Hside KEYBIND_JAXISPOS (0 <=? value) (0 <? value) s) as H1.
  destruct (input_joyaxis_side w KEYBIND_JAXISPOS (0 <=? value) (0 <? value)
              (axis_kabs value) i s) as [s1|];
    [|apply without_afterburn_refl].
  pose proof (Hside KEYBIND_JAXISNEG (value <=? 0) (value <? 0) s1) as H2.
  destruct (input_joyaxis_side w KEYBIND_JAXISNEG (value <=? 0) (value <? 0)
              (axis_kabs value) i s1) as [s2|]; [|exact H1].
  exact (without_afterburn_trans _ _ _ H1 H2).
Qed.

(** X7: what [input_joyaxis] passes on.  For a [Sint16] value, each row
    bound to a side of the axis is dispatched with the magnitude
    |value| / 32767 (at least 0 and at most 32768 / 32767, which the
    value -32768 reaches and which exceeds 1): a press for a value on its
    side unless the row is disabled, a release at 0 whether or not the row
    is disabled, nothing for a value on the other side; rows of other
    types or other axes get nothing. *)
Theorem joyaxis_dispatches_by_side (w : World) (axis : SDL_Keycode)
    (value : Z) (s : State) :
  -32768 <= value <= 32767 ->
  dispatched (input_joyaxis w axis value s)
  = dispatched s
    ++ dispatches_of (axis_fires axis value) (input_keybinds s)
         0 (List.length (input_keybinds s))
  /\ (forall d : KeyCall,
         In d (dispatches_of (axis_fires axis value) (input_keybinds s)
                 0 (List.length (input_keybinds s)))
         <-> exists (i : nat) (b : Keybind),
               nth_error (input_keybinds s) i = Some b
               /\ key b = axis
               /\ (type b = KEYBIND_JAXISPOS /\ 0 <= value
                   \/ type b = KEYBIND_JAXISNEG /\ value <= 0)
               /\ (value <> 0 -> disabled b = false)
               /\ d = (Z.of_nat i,
                       if value =? 0 then KEY_RELEASE else KEY_PRESS,
                       axis_kabs value, false))
  /\ (0 <=? axis_kabs value)%float = true
  /\ (axis_kabs value <=? 32768 / 32767)%float = true
  /\ axis_kabs 32767 = 1%float
  /\ (1 <? axis_kabs (-32768))%float = true.
Proof.
  intros Hrange. split; [|split].
  - apply input_joyaxis_loop_dispatches.
  - intros d. rewrite dispatches_of_In. split.
    + intros (i & b & Hrow & Hin). exists i, b. split; [exact Hrow|].
      unfold axis_fires in Hin.
      destruct (Z.eqb_spec (key b) axis) as [Hkey|]; [|destruct Hin].
      split; [exact Hkey|].
      destruct (type b); try (destruct Hin; fail).
      * destruct (Z.ltb_spec 0 value).
        -- destruct (disabled b); [destruct Hin|].
           destruct Hin as [<-|[]].
           replace (value =? 0) with false by (symmetry; apply Z.eqb_neq; lia).
           repeat split; [left; split; [reflexivity | lia]].
        -- destruct (Z.eqb_spec value 0) as [->|]; [|destruct Hin].
           destruct Hin as [<-|[]].
           repeat split; [left; split; [reflexivity | lia] | contradiction].
      * destruct (Z.ltb_spec 0 (- value)).
        -- destruct (disabled b); [destruct Hin|].
           destruct Hin as [<-|[]].
           replace (value =? 0) with false by (symmetry; apply Z.eqb_neq; lia).
           repeat split; [right; split; [reflexivity | lia]].
        -- destruct (Z.eqb_spec (- value) 0) as [Hz|]; [|destruct Hin].
           assert (value = 0) by lia. subst value.
           destruct Hin as [<-|[]].
           repeat split; [right; split; [reflexivity | lia] | contradiction].
    + intros (i & b & Hrow & Hkey & Hside & Hen & ->). exists i, b.
      split; [exact Hrow|]. unfold axis_fires.
      rewrite (proj2 (Z.eqb_eq _ _) Hkey).
      destruct Hside as [[-> Hv]|[-> Hv]].
      * destruct (Z.eqb_spec value 0) as [->|Hnz]; [left; reflexivity|].
        replace (0 <? value) with true by (symmetry; apply Z.ltb_lt; lia).
        rewrite (Hen Hnz). left. reflexivity.
      * destruct (Z.eqb_spec value 0) as [->|Hnz]; [left; reflexivity|].
        replace (0 <? - value) with true by (symmetry; apply Z.ltb_lt; lia).
        rewrite (Hen Hnz). left. reflexivity.
  - destruct (axis_kabs_range value Hrange) as [Hlow Hhigh].
    repeat split; try assumption; vm_compute; reflexivity.
Qed.

Lemma joyaxis_dispatches_by_side_witness :
  dispatched (input_joyaxis (quiet_world usual_conf 1100) 1 16384
                accel_on_axis)
  = dispatched accel_on_axis
    ++ dispatches_of (axis_fires 1 16384) (input_keybinds accel_on_axis)
         0 (List.length (input_keybinds accel_on_axis)).
Proof.
  apply (joyaxis_dispatches_by_side (quiet_world usual_conf 1100) 1 16384
           accel_on_axis).
  lia.
Defined.

(** X8: an axis never works the afterburner.  Whatever the table holds,
    handling an axis event with a [Sint16] value makes no call of
    [pilot_afterburn] or [pilot_afterburnOver] and does not touch the tick
    of the last tap on "accel": every dispatch of [input_joyaxis] is
    analog. *)
Theorem joyaxis_never_works_afterburner (w : World) (axis : SDL_Keycode)
    (value : Z) (s : State) :
  -32768 <= value <= 32767 ->
  exists l : list Call,
    calls (input_joyaxis w axis value s) = calls s ++ l
    /\ ~ In pilot_afterburn l
    /\ ~ In pilot_afterburnOver l
    /\ input_accelLast (input_joyaxis w axis value s) = input_accelLast s.
Proof.
  intros Hrange. destruct (axis_kabs_range value Hrange) as [Hkabs _].
  assert (Hloop : forall (n from : nat) (s0 : State),
             without_afterburn s0 (input_joyaxis_loop w axis value n from s0)).
  { induction n as [|n IH]; intros from s0; [apply without_afterburn_refl|].
    cbn [input_joyaxis_loop]. unfold andthen.
    exact (without_afterburn_trans _ _ _
             (input_joyaxis_body_analog w axis value from s0 Hkabs)
             (IH (S from) _)). }
  destruct (Hloop (List.length (input_keybinds s)) 0%nat s)
    as (l & Hl & Hnone & Hlast).
  exists l. rewrite forallb_forall in Hnone.
  repeat split; try assumption; intros Hin; apply Hnone in Hin;
    discriminate Hin.
Qed.

Lemma joyaxis_never_works_afterburner_witness :
  exists l : list Call,
    calls (input_joyaxis (quiet_world usual_conf 1100) 1 32767 accel_on_axis)
    = calls accel_on_axis ++ l
    /\ ~ In pilot_afterburn l.
Proof.
  destruct (joyaxis_never_works_afterburner (quiet_world usual_conf 1100) 1
              32767 accel_on_axis ltac:(lia)) as (l & Hl & Hnone & _).
  exists l. split; assumption.
Defined.

(** X9: [input_joyevent] dispatches, in table order and each once, the
    rows that are bound to the button as a joystick button, a disabled row
    being left out of a press only; the dispatch is digital and never a
    repeat.  Rows bound to the same number as a key, an axis or a hat are
    not dispatched. *)
Theorem joyevent_fires_matching_buttons (w : World) (event : Z)
    (button : SDL_Keycode) (s : State) :
  dispatched (input_joyevent w event button s)
  = dispatched s
    ++ dispatches_of
         (fun i b => if joybutton_fires event button b
                     then [digital i (double_of_int event)] else [])
         (input_keybinds s) 0 (List.length (input_keybinds s))
  /\ (forall b : Keybind,
         joybutton_fires event button b = true
         <-> type b = KEYBIND_JBUTTON /\ key b = button
             /\ ~ (event_is event KEY_PRESS = true /\ disabled b = true))
  /\ input_keybinds (input_joyevent w event button s) = input_keybinds s.
Proof.
  destruct (for_keybinds_dispatches (input_joyevent_body w event button)
              (fun i b => if joybutton_fires event button b
                          then [digital i (double_of_int event)] else [])
              (input_joyevent_body_dispatches w event button)
              (List.length (input_keybinds s)) 0%nat s) as [Ht Hd].
  split; [exact Hd|]. split; [|exact Ht].
  intros b. unfold joybutton_fires.
  rewrite !andb_true_iff, negb_true_iff, andb_false_iff, KeybindType_eqb_eq,
    Z.eqb_eq.
  split.
  - intros [[Hty Hkey] Hen]. repeat split; try assumption.
    intros [Hp Hd']. destruct Hen; congruence.
  - intros (Hty & Hkey & Hen). repeat split; try assumption.
    destruct (event_is event KEY_PRESS); [|left; reflexivity].
    destruct (disabled b); [|right; reflexivity].
    exfalso. apply Hen. split; reflexivity.
Qed.

(** X10: [input_joyhatevent] reports the state of all directions at every
    hat event: each row bound to a direction of the hat gets a release
    when its direction is not set in the value, whether or not it was
    pressed before and whether or not it is disabled, and a press when the
    direction is set and the row is enabled; every dispatch is one of
    these, and the table is left as it was. *)
Theorem joyhat_reports_every_direction (w : World) (value hat : Z)
    (s : State) :
  dispatched (input_joyhatevent w value hat s)
  = dispatched s
    ++ dispatches_of (hat_fires value hat) (input_keybinds s)
         0 (List.length (input_keybinds s))
  /\ (forall d : KeyCall,
         In d (dispatches_of (hat_fires value hat) (input_keybinds s)
                 0 (List.length (input_keybinds s)))
         <-> exists (i : nat) (b : Keybind) (direction : Z),
               nth_error (input_keybinds s) i = Some b
               /\ key b = hat
               /\ hat_direction (type b) = Some direction
               /\ (Z.land value direction = 0 /\ d = digital i KEY_RELEASE
                   \/ Z.land value direction <> 0 /\ disabled b = false
                      /\ d = digital i KEY_PRESS))
  /\ input_keybinds (input_joyhatevent w value hat s) = input_keybinds s.
Proof.
  destruct (for_keybinds_dispatches (input_joyhatevent_body w value hat)
              (hat_fires value hat)
              (input_joyhatevent_body_dispatches w value hat)
              (List.length (input_keybinds s)) 0%nat s) as [Ht Hd].
  split; [exact Hd|]. split; [|exact Ht].
  intros d. rewrite dispatches_of_In. split.
  - intros (i & b & Hrow & Hin). unfold hat_fires in Hin.
    destruct (Z.eqb_spec (key b) hat) as [Hkey|]; [|destruct Hin].
    destruct (hat_direction (type b)) as [direction|] eqn:Hdir;
      [|destruct Hin].
    exists i, b, direction. repeat split; try assumption.
    destruct (Z.eqb_spec (Z.land value direction) 0) as [Hbit|Hbit].
    + destruct Hin as [<-|[]]. left. split; [exact Hbit | reflexivity].
    + destruct (disabled b); [destruct Hin|].
      destruct Hin as [<-|[]]. right. repeat split. exact Hbit.
  - intros (i & b & direction & Hrow & Hkey & Hdir & Hcase).
    exists i, b. split; [exact Hrow|]. unfold hat_fires.
    rewrite (proj2 (Z.eqb_eq _ _) Hkey), Hdir.
    destruct Hcase as [[Hbit ->]|(Hbit & Hen & ->)].
    + rewrite (proj2 (Z.eqb_eq _ _) Hbit). left. reflexivity.
    + rewrite (proj2 (Z.eqb_neq _ _) Hbit), Hen. left. reflexivity.
Qed.

(** ** Clicks *)

Lemma click_frame_refl (s : State) : click_frame [] s s.
Proof. unfold click_frame. rewrite app_nil_r. repeat split. Qed.

Lemma click_frame_trans (l1 l2 : list Call) (s1 s2 s3 : State) :
  click_frame l1 s1 s2 -> click_frame l2 s2 s3 ->
  click_frame (l1 ++ l2) s1 s3.
Proof.
  unfold click_frame.
  intros (Hc1 & H1) (Hc2 & H2). split.
  - rewrite Hc2, Hc1, app_assoc. reflexivity.
  - decompose [and] H1. decompose [and] H2. repeat split; congruence.
Qed.

Lemma click_frame_call (c : Call) (s : State) : click_frame [c] s (call c s).
Proof. unfold click_frame. repeat split. Qed.

Lemma click_frame_clicked (w : World) (c : Clicked) (s : State) :
  click_frame [] s (input_clicked w c s).
Proof.
  unfold input_clicked.
  destruct (mouse_doubleclick (conf w) <=? 0)%float;
    [apply click_frame_refl|].
  unfold click_frame. cbn. rewrite app_nil_r. repeat split.
Qed.

Ltac click_cases :=
  repeat match goal with
         | |- context [if ?c then _ else _] => destruct c
         end.

Ltac click_frame_done :=
  first [ exists []; split;
          [unfold click_frame; cbn; rewrite app_nil_r; repeat split;
           reflexivity|]
        | eexists; split;
          [unfold click_frame; cbn; rewrite <- ?app_assoc; repeat split;
           reflexivity|] ].

Lemma input_clickedEntity_frame (w : World) (c : Clicked) (autonav : bool)
    (s : State) :
  exists l : list Call,
    click_frame l s (snd (input_clickedEntity w c autonav s))
    /\ forallb (click_call_ok autonav) l = true
    /\ (fst (input_clickedEntity w c autonav s) = false ->
        snd (input_clickedEntity w c autonav s) = s).
Proof.
  destruct c as [id|id|id|f a]; cbn [input_clickedEntity];
    unfold input_clickedPilot, input_clickedPlanet, input_clickedJump,
      input_clickedAsteroid, input_clicked, andthen;
    destruct autonav; click_cases; cbn [fst snd]; click_frame_done;
    (split; [reflexivity | first [reflexivity | discriminate]]).
Qed.

Lemma input_clickevent_border_frame (w : World) (mx my : Z) (autonav : bool)
    (s : State) :
  exists l : list Call,
    click_frame l s (snd (input_clickevent_border w mx my autonav s))
    /\ forallb (click_call_ok autonav) l = true
    /\ (fst (input_clickevent_border w mx my autonav s) = false ->
        snd (input_clickevent_border w mx my autonav s) = s).
Proof.
  unfold input_clickevent_border.
  destruct (input_clickevent_border_candidates w mx my)
    as [pid [[[pntid jpid] astid] fieid]].
  destruct (negb (pid =? PLAYER_ID));
    [apply (input_clickedEntity_frame w (PilotPtr pid))|].
  destruct (0 <=? pntid);
    [apply (input_clickedEntity_frame w (PlanetPtr pntid))|].
  destruct (0 <=? jpid);
    [apply (input_clickedEntity_frame w (JumpPtr jpid))|].
  destruct (0 <=? astid);
    [apply (input_clickedEntity_frame w (AsteroidPtr fieid astid))|].
  exists []. split; [apply click_frame_refl|]. split; reflexivity.
Qed.

Lemma input_clickPos_act_frame (w : World) (autonav : bool) (x y : float)
    (cand : Candidates) (s : State) :
  exists l : list Call,
    click_frame l s
      (snd (input_clickPos_act w
              (if autonav then SDL_BUTTON_RIGHT else SDL_BUTTON_LEFT)
              x y cand s))
    /\ forallb (click_call_ok autonav) l = true.
Proof.
  unfold input_clickPos_act.
  destruct cand as [pid [[[pntid jpid] astid] fieid]].
  destruct autonav.
  - change (SDL_BUTTON_RIGHT =? SDL_BUTTON_LEFT) with false.
    change (SDL_BUTTON_RIGHT =? SDL_BUTTON_RIGHT) with true.
    unfold input_clickedPilot, input_clickedPlanet, input_clickedJump,
      andthen.
    repeat (cbv beta iota zeta;
            match goal with
            | |- context [if ?c then _ else _] => destruct c
            end);
      cbv beta iota zeta; cbn [fst snd]; click_frame_done; reflexivity.
  - change (SDL_BUTTON_LEFT =? SDL_BUTTON_LEFT) with true. cbv beta iota.
    assert (Hentity : forall c : Clicked,
               exists l : list Call,
                 click_frame l s (snd (input_clickedEntity w c false s))
                 /\ forallb (click_call_ok false) l = true).
    { intros c. destruct (input_clickedEntity_frame w c false s)
        as (l & Hf & Hok & _). exists l. split; assumption. }
    destruct (negb (pid =? PLAYER_ID)); [apply (Hentity (PilotPtr pid))|].
    destruct (0 <=? pntid); [apply (Hentity (PlanetPtr pntid))|].
    destruct (0 <=? jpid); [apply (Hentity (JumpPtr jpid))|].
    destruct (0 <=? astid); [apply (Hentity (AsteroidPtr fieid astid))|].
    exists []. split; [apply click_frame_refl | reflexivity].
Qed.

Lemma input_clickPos_frame (w : World) (autonav : bool)
    (x y zoom minpr minr : float) (s : State) :
  exists l : list Call,
    click_frame l s
      (snd (input_clickPos w
              (if autonav then SDL_BUTTON_RIGHT else SDL_BUTTON_LEFT)
              x y zoom minpr minr s))
    /\ forallb (click_call_ok autonav) l = true.
Proof.
  unfold input_clickPos.
  pose proof (input_clickPos_candidates_warns_only w
                (if autonav then SDL_BUTTON_RIGHT else SDL_BUTTON_LEFT)
                x y zoom minpr minr s) as Hcand.
  destruct (input_clickPos_candidates w _ x y zoom minpr minr s)
    as [cand s1].
  cbn [snd] in Hcand.
  destruct (input_clickPos_act_frame w autonav x y cand s1)
    as (l & Hframe & Hok).
  destruct Hcand as [->| ->].
  - exists l. split; assumption.
  - exists ([WARN "Gfx index out of range" ""] ++ l). split.
    + exact (click_frame_trans _ _ _ _ _ (click_frame_call _ s) Hframe).
    + rewrite forallb_app, Hok. destruct autonav; reflexivity.
Qed.

Lemma input_clickevent_frame (w : World) (button ex ey : Z) (s : State) :
  exists l : list Call,
    click_frame (hooks_runParam_mouse button :: l) s
      (input_clickevent w button ex ey s)
    /\ forallb (click_call_ok (button =? SDL_BUTTON_RIGHT)) l = true
    /\ (player_p w = false \/ player_isFlag PLAYER_DESTROYED s = true
        \/ pilot_isFlag w PILOT_DEAD = true
        \/ (button <> SDL_BUTTON_LEFT /\ button <> SDL_BUTTON_MIDDLE
            /\ button <> SDL_BUTTON_RIGHT) ->
        l = [])
    /\ (button = SDL_BUTTON_MIDDLE -> l = [] \/ l = [player_toggleMouseFly]).
Proof.
  unfold input_clickevent.
  pose proof (click_frame_call (hooks_runParam_mouse button) s) as Hhook.
  set (s0 := call (hooks_runParam_mouse button) s) in *.
  assert (Hnone : click_frame (hooks_runParam_mouse button :: []) s s0
                  /\ forallb (click_call_ok (button =? SDL_BUTTON_RIGHT)) []
                     = true)
    by (split; [exact Hhook | reflexivity]).
  change (player_isFlag PLAYER_DESTROYED s0)
    with (player_isFlag PLAYER_DESTROYED s).
  destruct (player_p w) eqn:Hp; cbn [negb orb];
    [|exists []; repeat split; try apply Hnone; left; reflexivity].
  destruct (player_isFlag PLAYER_DESTROYED s) eqn:Hdestroyed;
    [exists []; repeat split; try apply Hnone; left; reflexivity|].
  destruct (pilot_isFlag w PILOT_DEAD) eqn:Hdead;
    [exists []; repeat split; try apply Hnone; left; reflexivity|].
  destruct (Z.eqb_spec button SDL_BUTTON_MIDDLE) as [Hmiddle|Hmiddle].
  { exists [player_toggleMouseFly]. subst button. split; [|split; [|split]].
    - exact (click_frame_trans [_] [_] _ _ _ Hhook (click_frame_call _ s0)).
    - reflexivity.
    - intros [H|[H|[H|(_ & H & _)]]]; try discriminate H. contradiction.
    - right. reflexivity. }
  destruct (Z.eqb_spec button SDL_BUTTON_LEFT) as [Hleft|Hleft];
    destruct (Z.eqb_spec button SDL_BUTTON_RIGHT) as [Hright|Hright];
    cbn [negb andb];
    try (exists []; repeat split; try apply Hnone;
         [left; reflexivity]).
  all: destruct (gl_windowToScreenPos w ex ey) as [mx my].
  all: assert (Hrest :
           forall autonav : bool,
             button = (if autonav then SDL_BUTTON_RIGHT else SDL_BUTTON_LEFT) ->
             exists l : list Call,
               click_frame l s0
                 (let '(used, s1) :=
                    if on_border w mx my
                    then input_clickevent_border w mx my autonav s0
                    else (false, s0) in
                  if used then s1
                  else input_clickevent_normal w button mx my s1)
               /\ forallb (click_call_ok autonav) l = true).
  1,3,5: intros autonav Hbutton;
    assert (Hnormal : exists l : list Call,
               click_frame l s0 (input_clickevent_normal w button mx my s0)
               /\ forallb (click_call_ok autonav) l = true);
    [ unfold input_clickevent_normal;
      destruct (radar_takes_click w);
      [ exists [gui_radarClickEvent]; split;
        [apply click_frame_call | destruct autonav; reflexivity]
      | destruct (gl_screenToGameCoords w (double_of_int mx)
                    (double_of_int my)) as [x y];
        rewrite Hbutton;
        destruct (input_clickPos_frame w autonav x y
                    (double_of_int (int_of_double (1 / cam_getZoom w)%float))
                    (10 * double_of_int
                            (int_of_double (1 / cam_getZoom w)%float))%float
                    (15 * double_of_int
                            (int_of_double (1 / cam_getZoom w)%float))%float
                    (call gui_radarClickEvent s0)) as (l & Hf & Hok);
        exists ([gui_radarClickEvent] ++ l); split;
        [ exact (click_frame_trans _ _ _ _ _ (click_frame_call _ s0) Hf)
        | rewrite forallb_app, Hok; destruct autonav; reflexivity ] ]
    | destruct (on_border w mx my); [|exact Hnormal];
      destruct (input_clickevent_border_frame w mx my autonav s0)
        as (l & Hf & Hok & Hunused);
      destruct (input_clickevent_border w mx my autonav s0) as [used s1];
      cbn [fst snd] in *;
      destruct used; [exists l; split; assumption|];
      rewrite (Hunused eq_refl); exact Hnormal ].
  - exfalso. rewrite Hleft in Hright. discriminate Hright.
  - destruct (Hrest false Hleft) as (l & Hf & Hok). exists l.
    split; [|split; [|split]].
    + exact (click_frame_trans [_] _ _ _ _ Hhook Hf).
    + exact Hok.
    + intros [H|[H|[H|(H & _)]]]; try discriminate H. contradiction.
    + intros H. contradiction.
  - destruct (Hrest true Hright) as (l & Hf & Hok). exists l.
    split; [|split; [|split]].
    + exact (click_frame_trans [_] _ _ _ _ Hhook Hf).
    + exact Hok.
    + intros [H|[H|[H|(_ & _ & H)]]]; try discriminate H. contradiction.
    + intros H. contradiction.
Qed.

(** X11: a mouse click changes nothing of the input state but the record
    of the last click: [input_clickevent] runs the "mouse" hook first, makes
    further calls, and leaves the table, the dispatch history, the key
    repeat, the accel tap, the mouse timer and counter and the player's
    flags and rates as they were.  Without a live player (no pilot, a
    destroyed or a dead one), or for a button other than left, middle and
    right, the hook is all that happens. *)
Theorem click_changes_only_click_record (w : World) (button ex ey : Z)
    (s : State) :
  exists l : list Call,
    click_frame (hooks_runParam_mouse button :: l) s
      (input_clickevent w button ex ey s)
    /\ (player_p w = false \/ player_isFlag PLAYER_DESTROYED s = true
        \/ pilot_isFlag w PILOT_DEAD = true
        \/ (button <> SDL_BUTTON_LEFT /\ button <> SDL_BUTTON_MIDDLE
            /\ button <> SDL_BUTTON_RIGHT) ->
        l = []
        /\ click_record (input_clickevent w button ex ey s) = click_record s).
Proof.
  destruct (input_clickevent_frame w button ex ey s)
    as (l & Hframe & _ & Hguard & _).
  exists l. split; [exact Hframe|].
  intros H. split; [exact (Hguard H)|].
  unfold input_clickevent.
  change (player_isFlag PLAYER_DESTROYED
            (call (hooks_runParam_mouse button) s))
    with (player_isFlag PLAYER_DESTROYED s).
  destruct H as [->|[->|[->|(Hl & Hm & Hr)]]]; try reflexivity.
  - rewrite orb_true_r. reflexivity.
  - destruct (negb (player_p w) || player_isFlag PLAYER_DESTROYED s);
      reflexivity.
  - destruct (negb (player_p w) || player_isFlag PLAYER_DESTROYED s);
      [reflexivity|].
    destruct (pilot_isFlag w PILOT_DEAD); [reflexivity|].
    rewrite (proj2 (Z.eqb_neq _ _) Hm), (proj2 (Z.eqb_neq _ _) Hl),
      (proj2 (Z.eqb_neq _ _) Hr).
    reflexivity.
Qed.

(** X12: each mouse button keeps to its role.  After the hook, a left click
    makes no autonav call (it selects, or boards, hails, lands or jumps);
    a right click makes no call that boards, hails, lands or jumps (it
    selects and steers the autonav); a middle click at most toggles mouse
    flying. *)
Theorem buttons_keep_to_their_role (w : World) (button ex ey : Z)
    (s : State) :
  exists l : list Call,
    calls (input_clickevent w button ex ey s)
    = calls s ++ hooks_runParam_mouse button :: l
    /\ (button = SDL_BUTTON_LEFT ->
        forall c : Call, In c l -> is_autonav_call c = false)
    /\ (button = SDL_BUTTON_RIGHT ->
        forall c : Call, In c l -> is_primary_call c = false)
    /\ (button = SDL_BUTTON_MIDDLE ->
        l = [] \/ l = [player_toggleMouseFly]).
Proof.
  destruct (input_clickevent_frame w button ex ey s)
    as (l & Hframe & Hok & _ & Hmiddle).
  exists l. split; [exact (proj1 Hframe)|].
  rewrite forallb_forall in Hok.
  split; [|split; [|exact Hmiddle]].
  - intros -> c Hin. apply Hok in Hin.
    apply andb_true_iff in Hin as [_ Hin]. apply negb_true_iff in Hin.
    exact Hin.
  - intros -> c Hin. apply Hok in Hin.
    apply andb_true_iff in Hin as [_ Hin]. apply negb_true_iff in Hin.
    exact Hin.
Qed.

Lemma right_click_pilot_candidate (w : World) (x y zoom minpr minr : float)
    (s : State) :
  fst (fst (input_clickPos_candidates w SDL_BUTTON_RIGHT x y zoom minpr minr
              s)) = PLAYER_ID
  \/ fst (fst (input_clickPos_candidates w SDL_BUTTON_RIGHT x y zoom minpr
                 minr s)) = player_target w.
Proof.
  unfold input_clickPos_candidates.
  change (SDL_BUTTON_RIGHT =? SDL_BUTTON_RIGHT) with true. cbv beta iota zeta.
  destruct (system_getClosest w x y) as [d [[[pntid jpid] astid] fieid]].
  repeat (cbv beta iota zeta;
          match goal with
          | |- context [if ?c then _ else _] => destruct c
          end);
    cbn [fst snd]; auto.
Qed.

(** X13: a right click in the system only controls the autonav.
    [input_clickPos] always reports it used, never records it as a click
    (so it can never be half of a double-click), targets no pilot but the
    one the player already targets, selects no asteroid, and makes no call
    that boards, hails, lands or jumps. *)
Theorem right_click_only_controls_autonav (w : World)
    (x y zoom minpr minr : float) (s : State) :
  fst (input_clickPos w SDL_BUTTON_RIGHT x y zoom minpr minr s) = true
  /\ click_record (snd (input_clickPos w SDL_BUTTON_RIGHT x y zoom minpr minr
                          s))
     = click_record s
  /\ exists l : list Call,
       calls (snd (input_clickPos w SDL_BUTTON_RIGHT x y zoom minpr minr s))
       = calls s ++ l
       /\ (forall id : Z, In (player_targetSet id) l -> id = player_target w)
       /\ (forall field asteroid : Z,
              ~ In (player_targetAsteroidSet field asteroid) l)
       /\ (forall c : Call, In c l -> is_primary_call c = false).
Proof.
  unfold input_clickPos.
  pose proof (right_click_pilot_candidate w x y zoom minpr minr s) as Hpid.
  pose proof (input_clickPos_candidates_warns_only w SDL_BUTTON_RIGHT
                x y zoom minpr minr s) as Hcand.
  destruct (input_clickPos_candidates w SDL_BUTTON_RIGHT x y zoom minpr minr
              s) as [[pid [[[pntid jpid] astid] fieid]] s1].
  cbn [fst snd] in Hpid, Hcand.
  unfold input_clickPos_act.
  change (SDL_BUTTON_RIGHT =? SDL_BUTTON_LEFT) with false.
  change (SDL_BUTTON_RIGHT =? SDL_BUTTON_RIGHT) with true.
  unfold input_clickedPilot, input_clickedPlanet, input_clickedJump, andthen.
  destruct Hpid as [-> | ->];
    [change (negb (PLAYER_ID =? PLAYER_ID)) with false|];
    destruct Hcand as [-> | ->];
    repeat (cbv beta iota zeta;
            match goal with
            | |- context [if ?c then _ else _] => destruct c
            end);
    cbv beta iota zeta; cbn [fst snd];
    (split; [reflexivity|]); (split; [reflexivity|]);
    (first [ exists []; split; [cbn; rewrite app_nil_r; reflexivity|]
           | eexists; split; [cbn; rewrite <- ?app_assoc; reflexivity|] ]);
    cbn [In app];
    (split; [intros id H | split; [intros f a H | intros c H]]);
    repeat match goal with
           | H : _ \/ _ |- _ => destruct H as [H|H]
           | H : False |- _ => destruct H
           end;
    try discriminate H; try (injection H as <-); try (subst c);
    reflexivity.
Qed.

(** ** The event entry point *)

Lemma input_keyevent_loop_for (w : World) (event : Z) (k : SDL_Keycode)
    (mod_filtered : SDL_Keymod) (repeat : bool) (n : nat) :
  forall from : nat,
    input_keyevent_loop w event k mod_filtered repeat n from
    = for_keybinds (input_keyevent_body w event k mod_filtered repeat) n from.
Proof.
  induction n as [|n IH]; intros from; [reflexivity|].
  cbn [input_keyevent_loop for_keybinds]. rewrite IH. reflexivity.
Qed.

Lemma input_joyaxis_loop_for (w : World) (axis : SDL_Keycode) (value : Z)
    (n : nat) :
  forall from : nat,
    input_joyaxis_loop w axis value n from
    = for_keybinds (input_joyaxis_body w axis value) n from.
Proof.
  induction n as [|n IH]; intros from; [reflexivity|].
  cbn [input_joyaxis_loop for_keybinds]. rewrite IH. reflexivity.
Qed.

Section Preserved.

(** A relation between the state before and after that every dispatch
    of [input_key] respects. *)
Variable w : World.
Variable R : State -> State -> Prop.
Hypothesis R_refl : forall s : State, R s s.
Hypothesis R_trans : forall s1 s2 s3 : State, R s1 s2 -> R s2 s3 -> R s1 s3.
Hypothesis R_key :
  forall (keynum : Z) (value kabs : float) (repeat : bool) (s : State),
    R s (input_key w keynum value kabs repeat s).

Lemma for_keybinds_preserves (body : nat -> Cmd) :
  (forall (i : nat) (s : State), R s (body i s)) ->
  forall (n from : nat) (s : State), R s (for_keybinds body n from s).
Proof.
  intros Hbody. induction n as [|n IH]; intros from s; [apply R_refl|].
  cbn [for_keybinds]. unfold andthen.
  exact (R_trans _ _ _ (Hbody from s) (IH (S from) _)).
Qed.

Lemma input_keyevent_preserves (event : Z) (k : SDL_Keycode)
    (m : SDL_Keymod) (repeat : bool) (s : State) :
  R s (input_keyevent w event k m repeat s).
Proof.
  unfold input_keyevent. rewrite input_keyevent_loop_for.
  apply for_keybinds_preserves. intros i s0. unfold input_keyevent_body.
  destruct (nth_error (input_keybinds s0) i) as [b|]; [|apply R_refl].
  click_cases; first [apply R_refl | apply R_key].
Qed.

Lemma input_joyevent_preserves (event : Z) (button : SDL_Keycode)
    (s : State) :
  R s (input_joyevent w event button s).
Proof.
  unfold input_joyevent.
  apply for_keybinds_preserves. intros i s0. unfold input_joyevent_body.
  destruct (nth_error (input_keybinds s0) i) as [b|]; [|apply R_refl].
  click_cases; first [apply R_refl | apply R_key].
Qed.

Lemma input_joyhatevent_preserves (value hat : Z) (s : State) :
  R s (input_joyhatevent w value hat s).
Proof.
  unfold input_joyhatevent.
  apply for_keybinds_preserves. intros i s0.
  unfold input_joyhatevent_body, input_joyhatevent_direction.
  destruct (nth_error (input_keybinds s0) i) as [b|]; [|apply R_refl].
  click_cases; first [apply R_refl | apply R_key].
Qed.

Lemma input_joyaxis_preserves (axis : SDL_Keycode) (value : Z) (s : State) :
  R s (input_joyaxis w axis value s).
Proof.
  unfold input_joyaxis. rewrite input_joyaxis_loop_for.
  apply for_keybinds_preserves. intros i s0. unfold input_joyaxis_body.
  destruct (nth_error (input_keybinds s0) i) as [b|]; [|apply R_refl].
  destruct (key b =? axis); [|apply R_refl].
  assert (Hside : forall (side : KeybindType) (on_side pressed : bool)
                         (kabs : float) (s1 : State),
             match input_joyaxis_side w side on_side pressed kabs i s1 with
             | Some s2 => R s1 s2
             | None => True
             end).
  { intros side on_side pressed kabs s1. unfold input_joyaxis_side.
    destruct (nth_error (input_keybinds s1) i) as [b1|]; [|apply R_refl].
    click_cases; first [exact I | apply R_refl | apply R_key]. }
  cbv zeta.
  match goal with
  | |- context [input_joyaxis_side w KEYBIND_JAXISPOS ?a ?p ?k i s0] =>
      pose proof (Hside KEYBIND_JAXISPOS a p k s0) as H1;
      destruct (input_joyaxis_side w KEYBIND_JAXISPOS a p k i s0) as [s1|];
      [|apply R_refl]
  end.
  match goal with
  | |- context [input_joyaxis_side w KEYBIND_JAXISNEG ?a ?p ?k i s1] =>
      pose proof (Hside KEYBIND_JAXISNEG a p k s1) as H2;
      destruct (input_joyaxis_side w KEYBIND_JAXISNEG a p k i s1) as [s2|];
      [|exact H1]
  end.
  exact (R_trans _ _ _ H1 H2).
Qed.

Lemma input_handle_switch_preserves (h : Handlers) (event : SDL_Event)
    (asked : list Offered) (s : State) :
  (forall button x y : Z, R s (input_clickevent w button x y s)) ->
  R s (handled_state (input_handle_switch w h event asked s)).
Proof.
  intros Hclick.
  destruct event; cbn [input_handle_switch]; click_cases;
    cbn [handled_state];
    first [ apply R_refl | apply input_joyaxis_preserves
          | apply input_joyevent_preserves
          | apply input_joyhatevent_preserves
          | apply input_keyevent_preserves | apply Hclick ].
Qed.

Lemma input_handle_preserves (h : Handlers) (event : SDL_Event) (s : State) :
  (forall (button x y : Z) (s0 : State),
      R s0 (input_clickevent w button x y s0)) ->
  R (mouse_woken event s) (handled_state (input_handle w h event s)).
Proof.
  intros Hclick. unfold input_handle.
  change ((if ismouse event
           then (set_input_mouseTimer MOUSE_HIDE ;; call (SDL_ShowCursor true)) s
           else s)) with (mouse_woken event s).
  cbv zeta.
  destruct (toolkit_isOpen w); [destruct (toolkit_input h);
    [apply R_refl | destruct (ismouse event); [apply R_refl|]]|];
    (destruct (ovr_isOpen h); [destruct (ovr_input h); [apply R_refl|]|]);
    (destruct (gui_handleEvent h); [apply R_refl|]);
    apply input_handle_switch_preserves; intros; apply Hclick.
Qed.

End Preserved.

Lemma cursor_untouched_refl (s : State) : cursor_untouched s s.
Proof.
  split; [reflexivity|]. split; [reflexivity|].
  exists []. split; [symmetry; apply app_nil_r | reflexivity].
Qed.

Lemma cursor_untouched_trans (s1 s2 s3 : State) :
  cursor_untouched s1 s2 -> cursor_untouched s2 s3 -> cursor_untouched s1 s3.
Proof.
  intros (Ht1 & Hc1 & l1 & Hl1 & Hn1) (Ht2 & Hc2 & l2 & Hl2 & Hn2).
  split; [congruence|]. split; [congruence|].
  exists (l1 ++ l2). split.
  - rewrite Hl2, Hl1, app_assoc. reflexivity.
  - rewrite forallb_app, Hn1, Hn2. reflexivity.
Qed.

Lemma input_key_chain_cursor (w : World) (b : Keybind) (value kabs : float)
    (repeat : bool) (s s' : State) :
  input_key_chain w b value kabs repeat s = Some s' ->
  cursor_untouched s s'.
Proof.
  unfold input_key_chain.
  unfold input_key_accel, input_key_turn, input_key_reverse, input_key_flag,
    input_key_face, input_key_speed, on_press, andthen, skip.
  intros H.
  repeat match type of H with
         | context [if ?c then _ else _] => destruct c
         end;
    try discriminate H; injection H as <-;
    (split; [reflexivity|]); (split; [reflexivity|]);
    first [ exists []; split; [symmetry; apply app_nil_r | reflexivity]
          | eexists; split;
            [cbn; rewrite <- ?app_assoc; reflexivity | reflexivity] ].
Qed.

Lemma input_key_cursor (w : World) (keynum : Z) (value kabs : float)
    (repeat : bool) (s : State) :
  cursor_untouched s (input_key w keynum value kabs repeat s).
Proof.
  unfold input_key.
  destruct (input_key_repetition_shape w keynum value repeat
              (log_dispatch (keynum, value, kabs, repeat) s))
    as (k & t & c & ->).
  replace (keybind_at keynum
             (set_repeat k t c
                (log_dispatch (keynum, value, kabs, repeat) s)))
    with (keybind_at keynum s) by reflexivity.
  assert (Hbook : cursor_untouched s
                    (set_repeat k t c
                       (log_dispatch (keynum, value, kabs, repeat) s))).
  { split; [reflexivity|]. split; [reflexivity|].
    exists []. split; [symmetry; apply app_nil_r | reflexivity]. }
  destruct (keybind_at keynum s) as [b|]; [|exact Hbook].
  destruct (input_key_chain w b value kabs repeat _) as [s2|] eqn:E;
    [|exact Hbook].
  apply (cursor_untouched_trans _ _ _ Hbook).
  apply (cursor_untouched_trans _ _ _ (input_key_chain_cursor _ _ _ _ _ _ _ E)).
  split; [reflexivity|]. split; [reflexivity|].
  exists [hooks_runParam_input (name b) (0 <? value)%float].
  split; reflexivity.
Qed.

Lemma input_clickevent_cursor (w : World) (button x y : Z) (s : State) :
  cursor_untouched s (input_clickevent w button x y s).
Proof.
  destruct (input_clickevent_frame w button x y s) as (l & Hframe & Hok & _).
  unfold click_frame in Hframe. decompose [and] Hframe.
  split; [assumption|]. split; [assumption|].
  exists (hooks_runParam_mouse button :: l). split; [assumption|].
  cbn [forallb is_cursor_call negb andb].
  rewrite forallb_forall in Hok. apply forallb_forall. intros c Hin.
  apply Hok in Hin. apply andb_true_iff in Hin as [Hin _]. exact Hin.
Qed.

(** X14: handling an event or a frame never changes the keybinding table:
    whatever the event and whoever takes it, the rows after [input_handle]
    are the rows before, and so they are after [input_update]. *)
Theorem events_never_change_bindings (w : World) (s : State) :
  (forall (h : Handlers) (event : SDL_Event),
      input_keybinds (handled_state (input_handle w h event s))
      = input_keybinds s)
  /\ (forall dt : float,
         input_keybinds (input_update w dt s) = input_keybinds s).
Proof.
  split.
  - intros h event.
    transitivity (input_keybinds (mouse_woken event s)).
    + apply (input_handle_preserves w
               (fun s1 s2 => input_keybinds s2 = input_keybinds s1)).
      * reflexivity.
      * intros s1 s2 s3 H1 H2. congruence.
      * intros keynum value kabs repeat s0.
        apply input_key_table_and_dispatch.
      * intros button x y s0.
        destruct (input_clickevent_frame w button x y s0) as (l & Hf & _).
        apply Hf.
    + unfold mouse_woken. destruct (ismouse event); reflexivity.
  - intros dt. unfold input_update, andthen.
    destruct (input_update_mouse_bookkeeping dt s) as (_ & _ & Hmouse).
    rewrite <- Hmouse. generalize (input_update_mouse dt s). intros s0.
    unfold input_update_repeat. click_cases; try reflexivity.
    destruct (input_key_table_and_dispatch w (repeat_key s0) KEY_PRESS 0%float
                true
                (set_repeat (repeat_key s0) (repeat_keyTimer s0)
                   (wrap32 (repeat_keyCounter s0 + 1)) s0)) as [Ht _].
    exact Ht.
Qed.

(** X15: only events of the mouse wake the cursor.  A motion, button-down
    or button-up event sets the hide timer to [MOUSE_HIDE] and shows the
    cursor, whoever takes the event afterwards; no other event changes the
    timer; and in either case nothing that follows in [input_handle] shows
    or hides the cursor or changes the counter of the mouse. *)
Theorem cursor_woken_by_mouse_events_only (w : World) (h : Handlers)
    (event : SDL_Event) (s : State) :
  input_mouseTimer (handled_state (input_handle w h event s))
  = (if ismouse event then MOUSE_HIDE else input_mouseTimer s)
  /\ input_mouseCounter (handled_state (input_handle w h event s))
     = input_mouseCounter s
  /\ exists l : list Call,
       calls (handled_state (input_handle w h event s))
       = calls s ++ (if ismouse event then [SDL_ShowCursor true] else []) ++ l
       /\ forallb (fun c => negb (is_cursor_call c)) l = true.
Proof.
  destruct (input_handle_preserves w cursor_untouched cursor_untouched_refl
              cursor_untouched_trans (input_key_cursor w) h event s
              (input_clickevent_cursor w))
    as (Ht & Hc & l & Hl & Hnone).
  rewrite Ht, Hc, Hl. unfold mouse_woken.
  destruct (ismouse event); cbn.
  - repeat split. exists l. split; [|exact Hnone].
    rewrite <- app_assoc. reflexivity.
  - repeat split. exists l. split; [reflexivity | exact Hnone].
Qed.

Lemma input_handle_unfold (w : World) (h : Handlers) (event : SDL_Event)
    (s : State) :
  input_handle w h event s
  = if taken_by_others w h event
    then mkHandled (mouse_woken event s) (offered_to w h event) None None
    else input_handle_switch w h event (offered_to w h event)
           (mouse_woken event s).
Proof.
  unfold input_handle, taken_by_others, offered_to, mouse_woken, andthen.
  cbv zeta.
  destruct (toolkit_isOpen w), (toolkit_input h), (ismouse event),
    (ovr_isOpen h), (ovr_input h), (gui_handleEvent h); reflexivity.
Qed.

(** X16: an event that another module takes, or that the keyboard repeats
    by itself, sets nothing in motion.  When the toolkit is open and takes
    the event or the event is of the mouse, when the open map overlay takes
    it, when the GUI takes it, when it is a key event marked as a repeat,
    or when it is a button-up or another event without a case, then
    [input_handle] dispatches no binding, handles no click, and leaves the
    zoom and the mouse position alone: the state is the one before, apart
    from the waking of the cursor for an event of the mouse.  The modules
    are offered the event in the order toolkit, overlay, GUI, each only
    when the ones before left it. *)
Theorem taken_events_set_nothing_in_motion (w : World) (h : Handlers)
    (event : SDL_Event) (s : State) :
  taken_by_others w h event || is_key_autorepeat event || has_no_case event
  = true ->
  handled_state (input_handle w h event s) = mouse_woken event s
  /\ cam_setZoomTarget (input_handle w h event s) = None
  /\ player_mouse (input_handle w h event s) = None
  /\ offered (input_handle w h event s) = offered_to w h event.
Proof.
  rewrite input_handle_unfold. intros H.
  destruct (taken_by_others w h event); [repeat split|].
  cbn [orb] in H.
  destruct event as [axis value|button|button|hat value|sym keymod r
                    |sym keymod r|button x y|button x y|y|x y|];
    cbn [is_key_autorepeat has_no_case orb] in H; try discriminate H;
    cbn [input_handle_switch]; rewrite ?orb_false_r in H; rewrite ?H;
    repeat split.
Qed.

Lemma taken_events_set_nothing_in_motion_witness :
  handled_state
    (input_handle (quiet_world usual_conf 1000)
       nobody_takes
       (SDL_KEYDOWN SDLK_w 0 1) accel_on_a)
  = accel_on_a.
Proof.
  apply (taken_events_set_nothing_in_motion (quiet_world usual_conf 1000)
           nobody_takes
           (SDL_KEYDOWN SDLK_w 0 1) accel_on_a).
  reflexivity.
Defined.

Lemma dispatches_of_Forall (P : KeyCall -> Prop)
    (fires : nat -> Keybind -> list KeyCall) (binds : list Keybind) :
  (forall (i : nat) (b : Keybind), In b binds -> Forall P (fires i b)) ->
  forall from n : nat, Forall P (dispatches_of fires binds from n).
Proof.
  intros Hfires from n. apply Forall_forall. intros d Hin.
  unfold dispatches_of in Hin. apply in_flat_map in Hin as (i & _ & Hin).
  destruct (nth_error binds i) as [b|] eqn:Hrow; [|destruct Hin].
  pose proof (Hfires i b (nth_error_In _ _ Hrow)) as Hall.
  rewrite Forall_forall in Hall. exact (Hall d Hin).
Qed.

Lemma dispatches_of_none (fires : nat -> Keybind -> list KeyCall)
    (binds : list Keybind) (from n : nat) :
  (forall (i : nat) (b : Keybind), In b binds -> fires i b = []) ->
  dispatches_of fires binds from n = [].
Proof.
  intros H. unfold dispatches_of. revert from.
  induction n as [|n IH]; intros from; [reflexivity|].
  cbn [seq flat_map]. rewrite IH.
  destruct (nth_error binds from) as [b|] eqn:Hrow; [|reflexivity].
  rewrite (H from b (nth_error_In _ _ Hrow)). reflexivity.
Qed.

Lemma dispatches_of_ext (f g : nat -> Keybind -> list KeyCall)
    (binds : list Keybind) (from n : nat) :
  (forall (i : nat) (b : Keybind), In b binds -> f i b = g i b) ->
  dispatches_of f binds from n = dispatches_of g binds from n.
Proof.
  intros H. unfold dispatches_of. apply flat_map_ext. intros i.
  destruct (nth_error binds i) as [b|] eqn:Hrow; [|reflexivity].
  apply H. exact (nth_error_In _ _ Hrow).
Qed.

Lemma input_keyevent_dispatches (w : World) (event : Z) (k : SDL_Keycode)
    (m : SDL_Keymod) (repeat : bool) (s : State) :
  dispatched (input_keyevent w event k m repeat s)
  = dispatched s
    ++ dispatches_of
         (fun i b => if binding_fires event k (input_translateMod m) b
                     then [(Z.of_nat i, double_of_int event, (-1)%float,
                            repeat)]
                     else [])
         (input_keybinds s) 0 (List.length (input_keybinds s)).
Proof.
  unfold input_keyevent. rewrite input_keyevent_loop_for.
  apply for_keybinds_dispatches. intros i s0.
  destruct (input_keyevent_body_spec w event k (input_translateMod m) repeat
              i s0) as [Ht Hd].
  split; [exact Ht|]. rewrite Hd. f_equal.
  unfold firing_indices. cbn [seq filter].
  destruct (nth_error (input_keybinds s0) i) as [b|]; [|reflexivity].
  destruct (binding_fires event k (input_translateMod m) b); reflexivity.
Qed.

(** X17: while every binding is disabled, releases get through and nothing
    else does.  On a table whose rows are all disabled (as
    [input_disableAll] leaves it), the dispatches that [input_handle]
    makes for an event are exactly the releases that the event brings, in
    table order: for a key-up every keyboard row of the key, whatever the
    modifiers; for a button-up every row of the button; for a hat motion
    every row of the hat whose direction is clear; for an axis motion to 0
    every row of the axis; provided no other module takes the event.
    Presses of keys and buttons, set hat directions and deflected axes
    dispatch nothing.  So every dispatch carries [KEY_RELEASE]. *)
Theorem disabled_bindings_pass_releases_only (w : World) (h : Handlers)
    (event : SDL_Event) (s : State) :
  all_disabled s ->
  dispatched (handled_state (input_handle w h event s))
  = dispatched s ++ releases_of w h event s
  /\ Forall (fun d => dispatch_value d = KEY_RELEASE)
       (releases_of w h event s)
  /\ (forall d : KeyCall,
         In d (releases_of w h event s)
         <-> taken_by_others w h event = false
             /\ exists (i : nat) (b : Keybind),
                  nth_error (input_keybinds s) i = Some b
                  /\ In d (released_by event i b)).
Proof.
  unfold all_disabled. intros Hall. rewrite Forall_forall in Hall.
  split; [|split].
  - unfold releases_of. rewrite input_handle_unfold.
    destruct (taken_by_others w h event).
    { cbn [handled_state]. rewrite app_nil_r. unfold mouse_woken.
      destruct (ismouse event); reflexivity. }
    assert (Hnone : forall (f : nat -> Keybind -> list KeyCall) (s' : State),
               dispatched s' = dispatched s ->
               (forall (i : nat) (b : Keybind), f i b = []) ->
               dispatched s'
               = dispatched s
                 ++ dispatches_of f (input_keybinds s)
                      0 (List.length (input_keybinds s))).
    { intros f s' Hs' Hf. rewrite dispatches_of_none by (intros; apply Hf).
      rewrite app_nil_r. exact Hs'. }
    destruct event as [axis value|button|button|hat value|sym keymod r
                      |sym keymod r|button x y|button x y|y|x y|];
      cbn [input_handle_switch mouse_woken ismouse released_by].
    + (* axis *)
      cbn [handled_state]. unfold input_joyaxis.
      destruct (input_joyaxis_loop_dispatches w axis value
                  (List.length (input_keybinds s)) 0%nat s) as [_ Hd].
      rewrite Hd. f_equal. apply dispatches_of_ext. intros i b Hin.
      unfold axis_fires, released_by. rewrite (Hall b Hin).
      destruct (key b =? axis); [|rewrite andb_false_r; reflexivity].
      rewrite andb_true_r.
      destruct (type b); cbn [KeybindType_eqb orb andb]; cbv zeta;
        rewrite ?andb_false_r; try reflexivity.
      * destruct (Z.ltb_spec 0 value); destruct (Z.eqb_spec value 0);
          try reflexivity; lia.
      * destruct (Z.ltb_spec 0 (- value)); destruct (Z.eqb_spec value 0);
          destruct (Z.eqb_spec (- value) 0); try reflexivity; lia.
    + (* button down *)
      cbn [handled_state].
      destruct (for_keybinds_dispatches (input_joyevent_body w 1 button)
                  (fun i b => if joybutton_fires 1 button b
                              then [digital i (double_of_int 1)] else [])
                  (input_joyevent_body_dispatches w 1 button)
                  (List.length (input_keybinds s)) 0%nat s) as [_ Hd].
      unfold input_joyevent. rewrite Hd. f_equal.
      apply dispatches_of_ext. intros i b Hin. unfold joybutton_fires.
      rewrite (Hall b Hin). change (event_is 1 KEY_PRESS) with true.
      rewrite andb_false_r. reflexivity.
    + (* button up *)
      cbn [handled_state].
      destruct (for_keybinds_dispatches (input_joyevent_body w (-1) button)
                  (fun i b => if joybutton_fires (-1) button b
                              then [digital i (double_of_int (-1))] else [])
                  (input_joyevent_body_dispatches w (-1) button)
                  (List.length (input_keybinds s)) 0%nat s) as [_ Hd].
      unfold input_joyevent. rewrite Hd. f_equal.
      apply dispatches_of_ext. intros i b Hin. unfold joybutton_fires.
      change (event_is (-1) KEY_PRESS) with false.
      cbn [andb negb]. rewrite andb_true_r. reflexivity.
    + (* hat *)
      cbn [handled_state].
      destruct (for_keybinds_dispatches (input_joyhatevent_body w value hat)
                  (hat_fires value hat)
                  (input_joyhatevent_body_dispatches w value hat)
                  (List.length (input_keybinds s)) 0%nat s) as [_ Hd].
      unfold input_joyhatevent. rewrite Hd. f_equal.
      apply dispatches_of_ext. intros i b Hin. unfold hat_fires.
      rewrite (Hall b Hin). reflexivity.
    + (* key down *)
      destruct (negb (r =? 0)); [apply Hnone; [reflexivity | intros; reflexivity]|].
      cbn [handled_state]. rewrite input_keyevent_dispatches. f_equal.
      apply dispatches_of_ext. intros i b Hin. unfold binding_fires.
      rewrite (Hall b Hin). change (event_is 1 KEY_PRESS) with true.
      rewrite andb_false_r. reflexivity.
    + (* key up *)
      destruct (r =? 0) eqn:Hr; cbn [negb andb];
        [|apply Hnone; [reflexivity|];
          intros; cbn [released_by]; rewrite Hr; reflexivity].
      cbn [handled_state]. rewrite input_keyevent_dispatches. f_equal.
      apply dispatches_of_ext. intros i b Hin.
      unfold binding_fires. cbn [released_by]. rewrite Hr.
      change (event_is (-1) KEY_PRESS) with false.
      change (event_is (-1) KEY_RELEASE) with true.
      rewrite orb_true_r. cbn [andb negb]. rewrite !andb_true_r.
      reflexivity.
    + (* click *)
      apply Hnone; [|intros; reflexivity]. cbn [handled_state].
      destruct (input_clickevent_frame w button x y
                  (call (SDL_ShowCursor true)
                     (set_input_mouseTimer MOUSE_HIDE s))) as (l & Hf & _).
      unfold click_frame in Hf. decompose [and] Hf. assumption.
    + apply Hnone; [reflexivity | intros; reflexivity].
    + (* wheel *)
      destruct (0 <? y); (apply Hnone; [reflexivity | intros; reflexivity]).
    + apply Hnone; [reflexivity | intros; reflexivity].
    + apply Hnone; [reflexivity | intros; reflexivity].
  - unfold releases_of. destruct (taken_by_others w h event); [constructor|].
    apply dispatches_of_Forall. intros i b _.
    unfold released_by. destruct event; click_cases; repeat constructor.
    destruct (hat_direction (type b)); click_cases; repeat constructor.
  - intros d. unfold releases_of.
    destruct (taken_by_others w h event).
    + split; [intros [] | intros [Htaken _]; discriminate Htaken].
    + rewrite dispatches_of_In. split.
      * intros H. split; [reflexivity | exact H].
      * intros [_ H]. exact H.
Qed.

Lemma disabled_bindings_pass_releases_only_witness :
  dispatched
    (handled_state
       (input_handle (quiet_world usual_conf 1000) nobody_takes
          (SDL_KEYDOWN 119 0 0) (input_disableAll three_on_w)))
  = dispatched (input_disableAll three_on_w)
  /\ dispatched
       (handled_state
          (input_handle (quiet_world usual_conf 1000) nobody_takes
             (SDL_KEYUP 119 0 0) (input_disableAll three_on_w)))
     = dispatched (input_disableAll three_on_w)
       ++ [digital 0 KEY_RELEASE; digital 11 KEY_RELEASE;
           digital 13 KEY_RELEASE].
Proof.
  assert (Hall : all_disabled (input_disableAll three_on_w)).
  { unfold all_disabled.
    cbn [input_disableAll set_input_keybinds input_keybinds].
    apply Forall_map, Forall_forall. reflexivity. }
  split.
  - rewrite (proj1 (disabled_bindings_pass_releases_only
                      (quiet_world usual_conf 1000) nobody_takes
                      (SDL_KEYDOWN 119 0 0) (input_disableAll three_on_w)
                      Hall)).
    vm_compute. reflexivity.
  - rewrite (proj1 (disabled_bindings_pass_releases_only
                      (quiet_world usual_conf 1000) nobody_takes
                      (SDL_KEYUP 119 0 0) (input_disableAll three_on_w)
                      Hall)).
    vm_compute. reflexivity.
Defined.

(** ** Guards of the dispatcher *)

Lemma input_key_unused (w : World) (keynum : Z) (value kabs : float)
    (repeat : bool) (s : State) (b : Keybind) :
  keybind_at keynum s = Some b ->
  (forall s0 : State, input_key_chain w b value kabs repeat s0 = None) ->
  input_key w keynum value kabs repeat s
  = input_key_repetition w keynum value repeat
      (log_dispatch (keynum, value, kabs, repeat) s).
Proof.
  intros Hrow Hchain. unfold input_key.
  destruct (input_key_repetition_shape w keynum value repeat
              (log_dispatch (keynum, value, kabs, repeat) s))
    as (k & t & c & ->).
  replace (keybind_at keynum
             (set_repeat k t c
                (log_dispatch (keynum, value, kabs, repeat) s)))
    with (keybind_at keynum s) by reflexivity.
  rewrite Hrow, Hchain. reflexivity.
Qed.

Lemma not_listed (n : string) (l : list string) (x : string) :
  ~ In n l -> In x l -> String.eqb n x = false.
Proof.
  intros Hnot Hin. destruct (String.eqb_spec n x) as [->|]; [|reflexivity].
  contradiction.
Qed.

(** X18: what still works without a live player or behind the toolkit.
    When the player has no pilot or a dead one, only "accel", "left",
    "right", "reverse", "jump", "screenshot", "togglefullscreen", "pause"
    and "speed" are acted on; while the toolkit is open, only the actions
    of [actions_in_toolkit] are.  For any other action [input_key] does
    the repeat bookkeeping and nothing else: no call, no hook, no flag. *)
Theorem guards_of_input_key (w : World) (keynum : Z) (value kabs : float)
    (repeat : bool) (s : State) (b : Keybind) :
  keybind_at keynum s = Some b ->
  (NODEAD w = false /\ ~ In (name b) actions_when_dead
   \/ toolkit_isOpen w = true /\ ~ In (name b) actions_in_toolkit) ->
  input_key w keynum value kabs repeat s
  = input_key_repetition w keynum value repeat
      (log_dispatch (keynum, value, kabs, repeat) s)
  /\ calls (input_key w keynum value kabs repeat s) = calls s
  /\ player_flags (input_key w keynum value kabs repeat s) = player_flags s.
Proof.
  intros Hrow Hguard.
  assert (Hunused : input_key w keynum value kabs repeat s
                    = input_key_repetition w keynum value repeat
                        (log_dispatch (keynum, value, kabs, repeat) s)).
  { apply (input_key_unused _ _ _ _ _ _ b Hrow). intros s0.
    unfold input_key_chain. cbv zeta beta.
    destruct Hguard as [[Hdead Hname]|[Hopen Hname]].
    - pose proof (fun x => not_listed _ _ x Hname) as Hn.
      unfold actions_when_dead in Hn.
      rewrite !(Hn "accel"), !(Hn "left"), !(Hn "right"), !(Hn "reverse"),
        !(Hn "jump"), !(Hn "screenshot"), !(Hn "togglefullscreen"),
        !(Hn "pause"), !(Hn "speed") by (simpl; tauto).
      rewrite Hdead.
      repeat (rewrite ?andb_false_r; cbn [andb]). reflexivity.
    - pose proof (fun x => not_listed _ _ x Hname) as Hn.
      unfold actions_in_toolkit in Hn.
      rewrite !(Hn "accel"), !(Hn "left"), !(Hn "right"), !(Hn "reverse"),
        !(Hn "primary"), !(Hn "secondary"), !(Hn "autonav"),
        !(Hn "thyperspace"), !(Hn "starmap"), !(Hn "mousefly"),
        !(Hn "autobrake"), !(Hn "screenshot"), !(Hn "togglefullscreen"),
        !(Hn "pause"), !(Hn "speed"), !(Hn "menu"), !(Hn "info"),
        !(Hn "console") by (simpl; tauto).
      unfold INGAME. rewrite Hopen. cbn [negb].
      repeat (rewrite ?andb_false_r; cbn [andb]). reflexivity. }
  rewrite Hunused. split; [reflexivity|].
  destruct (input_key_repetition_shape w keynum value repeat
              (log_dispatch (keynum, value, kabs, repeat) s))
    as (k & t & c & ->).
  split; reflexivity.
Qed.

Lemma guards_of_input_key_witness :
  calls (input_key (behind_toolkit (quiet_world usual_conf 1000)) 6 KEY_PRESS
           (-1)%float false (input_setDefault true input_init))
  = [].
Proof.
  apply (guards_of_input_key (behind_toolkit (quiet_world usual_conf 1000))
           6 KEY_PRESS (-1)%float false (input_setDefault true input_init)
           (mkKeybind false "target_nearest" KEYBIND_KEYBOARD SDLK_t NMOD_ANY)).
  - reflexivity.
  - right. split; [reflexivity|]. vm_compute. intuition discriminate.
Defined.





(** ** Key repeat and the mouse cursor in [input_update] *)

(** X20: a frame generates at most one key repeat, and only when due.
    [input_update] dispatches the held key once, as a press marked as a
    repeat, exactly when repeating is configured, a key is held and the
    deadline has passed, and otherwise dispatches nothing: nothing while
    no key is held, and nothing before the deadline (when it fits 32
    bits).  Whether the held binding is disabled makes no difference: the
    repeat of a key that was pressed before [input_disableAll] goes on. *)
Theorem key_repeat_only_when_due (w : World) (dt : float) (s : State) :
  dispatched (input_update w dt s)
  = dispatched s
    ++ (if repeat_due w s then [(repeat_key s, KEY_PRESS, 0%float, true)]
        else [])
  /\ (repeat_key s = -1 -> repeat_due w s = false)
  /\ (0 <= repeat_keyTimer s + repeat_delay (conf w)
           + repeat_keyCounter s * repeat_freq (conf w) < 2 ^ 32 ->
      SDL_GetTicks w < repeat_keyTimer s + repeat_delay (conf w)
                       + repeat_keyCounter s * repeat_freq (conf w) ->
      repeat_due w s = false)
  /\ dispatched (input_update w dt (input_disableAll s))
     = dispatched (input_update w dt s).
Proof.
  assert (Hupdate : forall s0 : State,
             dispatched (input_update w dt s0)
             = dispatched s0
               ++ (if repeat_due w s0
                   then [(repeat_key s0, KEY_PRESS, 0%float, true)] else [])).
  { intros s0. unfold input_update, andthen.
    destruct (input_update_mouse_bookkeeping dt s0) as (Hrec & Hd & _).
    injection Hrec as Hk Ht Hc.
    unfold repeat_due. rewrite <- Hk, <- Ht, <- Hc, <- Hd.
    generalize (input_update_mouse dt s0). intros s1.
    unfold input_update_repeat.
    destruct (negb (repeat_delay (conf w) =? 0)); cbn [andb];
      [|symmetry; apply app_nil_r].
    destruct (repeat_key s1 =? -1); cbn [negb andb];
      [symmetry; apply app_nil_r|].
    destruct (SDL_GetTicks w <? _); cbn [negb];
      [symmetry; apply app_nil_r|].
    destruct (input_key_table_and_dispatch w (repeat_key s1) KEY_PRESS 0%float
                true
                (set_repeat (repeat_key s1) (repeat_keyTimer s1)
                   (wrap32 (repeat_keyCounter s1 + 1)) s1)) as [_ Hdisp].
    exact Hdisp. }
  split; [apply Hupdate|]. split; [|split].
  - intros Hnone. unfold repeat_due. rewrite Hnone.
    rewrite andb_false_r. reflexivity.
  - intros Hfits Hearly. unfold repeat_due.
    rewrite wrap32_small by exact Hfits.
    rewrite (proj2 (Z.ltb_lt _ _) Hearly). apply andb_false_r.
  - rewrite !Hupdate. reflexivity.
Qed.

(** X21: showing and hiding the mouse.  [input_mouseHide] never leaves the
    counter negative (a surplus hide is forgotten) and undoes an
    [input_mouseShow]; the hide that brings the counter to 0 starts the
    [MOUSE_HIDE] timer, an earlier one leaves the timer alone.  The frame
    update never shows the cursor, and hides it only when the timer was
    running, runs out in this frame, and no request to show the mouse is
    outstanding. *)
Theorem mouse_show_hide_balance (s : State) :
  0 <= input_mouseCounter (input_mouseHide s)
  /\ (0 <= input_mouseCounter s ->
      input_mouseCounter (input_mouseHide (input_mouseShow s))
      = input_mouseCounter s)
  /\ (input_mouseCounter s <= 1 ->
      input_mouseCounter (input_mouseHide s) = 0
      /\ input_mouseTimer (input_mouseHide s) = MOUSE_HIDE)
  /\ (1 < input_mouseCounter s ->
      input_mouseCounter (input_mouseHide s) = input_mouseCounter s - 1
      /\ input_mouseTimer (input_mouseHide s) = input_mouseTimer s)
  /\ (forall (w : World) (dt : float),
         exists l : list Call,
           calls (input_update w dt s) = calls s ++ l
           /\ ~ In (SDL_ShowCursor true) l
           /\ (In (SDL_ShowCursor false) l ->
               (0 <? input_mouseTimer s)%float = true
               /\ (input_mouseTimer s - dt <? 0)%float = true
               /\ input_mouseCounter s <= 0)).
Proof.
  unfold input_mouseHide, input_mouseShow, andthen.
  cbn [set_input_mouseCounter input_mouseCounter call].
  split; [|split; [|split; [|split]]].
  - destruct (Z.leb_spec (input_mouseCounter s - 1) 0); cbn; lia.
  - intros Hpos.
    replace (input_mouseCounter s + 1 - 1) with (input_mouseCounter s) by lia.
    destruct (Z.leb_spec (input_mouseCounter s) 0); cbn; lia.
  - intros Hlast.
    rewrite (proj2 (Z.leb_le _ _)) by lia. split; reflexivity.
  - intros Hmore.
    rewrite (proj2 (Z.leb_gt _ _)) by lia. split; reflexivity.
  - intros w dt. unfold input_update, andthen.
    assert (Hrepeat : forall s0 : State,
               cursor_untouched s0 (input_update_repeat w s0)).
    { intros s0. unfold input_update_repeat.
      click_cases; try apply cursor_untouched_refl.
      apply (cursor_untouched_trans _
               (set_repeat (repeat_key s0) (repeat_keyTimer s0)
                  (wrap32 (repeat_keyCounter s0 + 1)) s0));
        [|apply input_key_cursor].
      split; [reflexivity|]. split; [reflexivity|].
      exists []. split; [symmetry; apply app_nil_r | reflexivity]. }
    destruct (Hrepeat (input_update_mouse dt s)) as (_ & _ & l & Hl & Hnone).
    rewrite forallb_forall in Hnone.
    assert (Hquiet : forall b : bool, ~ In (SDL_ShowCursor b) l).
    { intros b Hin. apply Hnone in Hin. discriminate Hin. }
    rewrite Hl. unfold input_update_mouse.
    destruct (0 <? input_mouseTimer s)%float;
      [|exists l; split; [reflexivity|]; split; [apply Hquiet|];
        intros Hin; destruct (Hquiet false Hin)].
    cbn [set_input_mouseTimer input_mouseTimer input_mouseCounter].
    destruct (input_mouseTimer s - dt <? 0)%float; cbn [andb];
      [|exists l; split; [reflexivity|]; split; [apply Hquiet|];
        intros Hin; destruct (Hquiet false Hin)].
    destruct (Z.leb_spec (input_mouseCounter s) 0);
      [|exists l; split; [reflexivity|]; split; [apply Hquiet|];
        intros Hin; destruct (Hquiet false Hin)].
    exists (SDL_ShowCursor false :: l). split; [|split].
    + cbn [calls call set_input_mouseTimer]. rewrite <- app_assoc.
      reflexivity.
    + intros [Hin|Hin]; [discriminate Hin | exact (Hquiet true Hin)].
    + intros _. repeat split. assumption.
Qed.

(** ** Conflicts between bindings *)

Lemma keyAlreadyBound_loop_find (ty : KeybindType) (k : SDL_Keycode)
    (m : SDL_Keymod) (rows : list (string * Keybind)) :
  keyAlreadyBound_loop ty k m rows
  = option_map fst (find (fun r => key_conflicts ty k m (snd r)) rows).
Proof.
  induction rows as [|[info b] rest IH]; [reflexivity|].
  cbn [keyAlreadyBound_loop find snd]. unfold key_conflicts at 1.
  destruct (KeybindType_eqb (type b) ty); cbn [negb andb]; [|exact IH].
  destruct (k =? key b); cbn [negb andb]; [|exact IH].
  destruct ty; try reflexivity; try exact IH.
  destruct ((mod_ b =? NMOD_ANY) || (m =? NMOD_ANY) || (mod_ b =? m));
    [reflexivity | exact IH].
Qed.

Lemma table_of_actions_combine (binds : list Keybind) :
  combine (map name binds) binds = map (fun b => (name b, b)) binds.
Proof.
  induction binds as [|b rest IH]; [reflexivity|].
  simpl. rewrite IH. reflexivity.
Qed.

Lemma find_named_row (f : Keybind -> bool) (binds : list Keybind) :
  option_map fst (find (fun r => f (snd r))
                    (map (fun b => (name b, b)) binds))
  = option_map name (find f binds).
Proof.
  induction binds as [|b rest IH]; [reflexivity|].
  simpl. destruct (f b); [reflexivity | exact IH].
Qed.

Lemma input_keyAlreadyBound_find (ty : KeybindType) (k : SDL_Keycode)
    (m : SDL_Keymod) (s : State) :
  table_of_actions s ->
  input_keyAlreadyBound ty k m s
  = option_map name (find (key_conflicts ty k m) (input_keybinds s)).
Proof.
  unfold table_of_actions, input_keyAlreadyBound. intros <-.
  rewrite keyAlreadyBound_loop_find, table_of_actions_combine.
  apply find_named_row.
Qed.

Lemma find_none_iff (A : Type) (f : A -> bool) (l : list A) :
  find f l = None <-> forall x : A, In x l -> f x = false.
Proof.
  split.
  - intros H x Hin. exact (find_none f l H x Hin).
  - intros H. destruct (find f l) as [x|] eqn:E; [|reflexivity].
    apply find_some in E as [Hin Hx]. rewrite (H x Hin) in Hx.
    discriminate Hx.
Qed.

(** X22: what [input_keyAlreadyBound] finds.  On a table with the rows of
    [input_init] it returns the name of the first row that conflicts with
    the key: a row of the same type and key, and for keyboard bindings with
    the same mask or with [NMOD_ANY] on either side; it returns [NULL]
    exactly when no row conflicts, always for the type [KEYBIND_NULL], so
    unbound actions never conflict with each other.  Once an action is
    bound with [input_setKeybind], that very key is reported as bound,
    by a name of the table. *)
Theorem keyAlreadyBound_finds_conflicts (s : State) (ty : KeybindType)
    (k : SDL_Keycode) (m : SDL_Keymod) :
  table_of_actions s ->
  input_keyAlreadyBound ty k m s
  = option_map name (find (key_conflicts ty k m) (input_keybinds s))
  /\ (input_keyAlreadyBound ty k m s = None
      <-> forall b : Keybind,
            In b (input_keybinds s) -> key_conflicts ty k m b = false)
  /\ (forall n : string,
         input_keyAlreadyBound ty k m s = Some n ->
         In n keybind_info
         /\ exists b : Keybind,
              In b (input_keybinds s) /\ name b = n
              /\ type b = ty /\ key b = k
              /\ (ty = KEYBIND_KEYBOARD ->
                  mod_ b = NMOD_ANY \/ m = NMOD_ANY \/ mod_ b = m))
  /\ input_keyAlreadyBound KEYBIND_NULL k m s = None
  /\ (forall keybind : string,
         In keybind keybind_info -> ty <> KEYBIND_NULL ->
         exists n : string,
           In n keybind_info
           /\ input_keyAlreadyBound ty k m (input_setKeybind keybind ty k m s)
              = Some n).
Proof.
  intros Hrows.
  assert (Hfound : forall (s0 : State) (n : string),
             table_of_actions s0 ->
             input_keyAlreadyBound ty k m s0 = Some n ->
             In n keybind_info
             /\ exists b : Keybind,
                  In b (input_keybinds s0) /\ name b = n
                  /\ key_conflicts ty k m b = true).
  { intros s0 n Hrows0 H. rewrite (input_keyAlreadyBound_find _ _ _ _ Hrows0) in H.
    destruct (find (key_conflicts ty k m) (input_keybinds s0)) as [b|] eqn:E;
      [|discriminate H].
    injection H as <-. apply find_some in E as [Hin Hb].
    split; [|exists b; repeat split; assumption].
    rewrite <- Hrows0. apply in_map. exact Hin. }
  rewrite (input_keyAlreadyBound_find _ _ _ _ Hrows).
  split; [reflexivity|]. split; [|split; [|split]].
  - rewrite <- find_none_iff.
    destruct (find (key_conflicts ty k m) (input_keybinds s));
      split; intros H; try reflexivity; discriminate H.
  - intros n H. rewrite <- (input_keyAlreadyBound_find _ _ _ _ Hrows) in H.
    destruct (Hfound s n Hrows H) as (Hn & b & Hin & Hname & Hb).
    split; [exact Hn|]. exists b. unfold key_conflicts in Hb.
    apply andb_true_iff in Hb as [Hb Hmod].
    apply andb_true_iff in Hb as [Hty Hkey].
    apply KeybindType_eqb_eq in Hty. apply Z.eqb_eq in Hkey.
    repeat split; try assumption; [symmetry; exact Hkey|].
    intros ->. apply orb_true_iff in Hmod as [Hmod|Hmod];
      [apply orb_true_iff in Hmod as [Hmod|Hmod]|];
      apply Z.eqb_eq in Hmod; auto.
  - rewrite (input_keyAlreadyBound_find _ _ _ _ Hrows).
    replace (find (key_conflicts KEYBIND_NULL k m) (input_keybinds s))
      with (@None Keybind); [reflexivity|].
    symmetry. apply find_none_iff. intros b _. unfold key_conflicts.
    apply andb_false_r.
  - intros keybind Hin Hty.
    assert (Hrows' : table_of_actions (input_setKeybind keybind ty k m s)).
    { unfold table_of_actions.
      rewrite (proj1 (input_setKeybind_rows keybind ty k m s)). exact Hrows. }
    destruct (input_keyAlreadyBound ty k m (input_setKeybind keybind ty k m s))
      as [n|] eqn:E.
    + exists n. split; [|reflexivity].
      exact (proj1 (Hfound _ n Hrows' E)).
    + exfalso.
      rewrite (input_keyAlreadyBound_find _ _ _ _ Hrows') in E.
      destruct (find (key_conflicts ty k m)
                  (input_keybinds (input_setKeybind keybind ty k m s)))
        as [b|] eqn:Efind; [discriminate E|].
      rewrite <- Hrows in Hin.
      destruct (setKeybind_loop_found keybind ty k m (input_keybinds s) Hin)
        as (binds' & b & Hset & Hget & Hbty & Hbkey & Hbmod).
      unfold input_setKeybind in Efind. rewrite Hset in Efind.
      cbn [set_input_keybinds input_keybinds] in Efind.
      assert (Hb : In b binds').
      { clear - Hget. induction binds' as [|b0 rest IH]; [discriminate Hget|].
        simpl in Hget. destruct (String.eqb keybind (name b0)).
        - injection Hget as ->. left. reflexivity.
        - right. exact (IH Hget). }
      pose proof (find_none _ _ Efind b Hb) as Hfree.
      unfold key_conflicts in Hfree.
      rewrite Hbty, Hbkey, Hbmod, Z.eqb_refl in Hfree.
      rewrite (proj2 (KeybindType_eqb_eq ty ty) eq_refl) in Hfree.
      destruct ty; cbn in Hfree; try discriminate Hfree;
        [contradiction|].
      rewrite Z.eqb_refl, orb_true_r in Hfree. discriminate Hfree.
Qed.

Lemma keyAlreadyBound_finds_conflicts_witness :
  input_keyAlreadyBound KEYBIND_KEYBOARD SDLK_1 NMOD_ALT
    (input_setDefault false input_init)
  = Some "weapset1".
Proof.
  rewrite (proj1 (keyAlreadyBound_finds_conflicts
                    (input_setDefault false input_init)
                    KEYBIND_KEYBOARD SDLK_1 NMOD_ALT eq_refl)).
  reflexivity.
Defined.

Lemma filter_none (A : Type) (f : A -> bool) (l : list A) :
  (forall x : A, In x l -> f x = false) -> filter f l = [].
Proof.
  induction l as [|x rest IH]; intros H; [reflexivity|].
  simpl. rewrite (H x (or_introl eq_refl)).
  apply IH. intros y Hy. apply H. right. exact Hy.
Qed.

(** X23: a key that [input_keyAlreadyBound] reports free fires nothing.
    On a table with the rows of [input_init]: when the check finds no
    conflict for a key with the translated modifiers of a key press, that
    press dispatches no binding; when it finds none for the key with
    [NMOD_ANY], no press and no release of the key dispatches anything,
    whatever the modifiers; and when it finds none for a joystick button,
    no event of that button dispatches anything. *)
Theorem free_key_fires_nothing (w : World) (s : State) (k : SDL_Keycode) :
  table_of_actions s ->
  (forall (m : SDL_Keymod) (repeat : bool),
      input_keyAlreadyBound KEYBIND_KEYBOARD k (input_translateMod m) s = None ->
      dispatched (input_keyevent w 1 k m repeat s) = dispatched s)
  /\ (input_keyAlreadyBound KEYBIND_KEYBOARD k NMOD_ANY s = None ->
      forall (event : Z) (m : SDL_Keymod) (repeat : bool),
        dispatched (input_keyevent w event k m repeat s) = dispatched s)
  /\ (forall m : SDL_Keymod,
         input_keyAlreadyBound KEYBIND_JBUTTON k m s = None ->
         forall event : Z,
           dispatched (input_joyevent w event k s) = dispatched s).
Proof.
  intros Hrows.
  assert (Hfree : forall (ty : KeybindType) (m : SDL_Keymod),
             input_keyAlreadyBound ty k m s = None ->
             forall b : Keybind,
               In b (input_keybinds s) -> key_conflicts ty k m b = false).
  { intros ty m H. rewrite (input_keyAlreadyBound_find _ _ _ _ Hrows) in H.
    apply find_none_iff.
    destruct (find (key_conflicts ty k m) (input_keybinds s));
      [discriminate H | reflexivity]. }
  assert (Hkeys : forall (event : Z) (m : SDL_Keymod) (repeat : bool),
             (forall b : Keybind,
                 In b (input_keybinds s) ->
                 binding_fires event k (input_translateMod m) b = false) ->
             dispatched (input_keyevent w event k m repeat s) = dispatched s).
  { intros event m repeat Hnone. unfold input_keyevent.
    destruct (input_keyevent_loop_spec w event k (input_translateMod m)
                repeat (List.length (input_keybinds s)) 0%nat s) as [_ Hd].
    rewrite Hd. unfold firing_indices. rewrite filter_none.
    - apply app_nil_r.
    - intros i _. destruct (nth_error (input_keybinds s) i) as [b|] eqn:Hrow;
        [|reflexivity].
      apply Hnone. exact (nth_error_In _ _ Hrow). }
  split; [|split].
  - intros m repeat H. apply Hkeys. intros b Hin.
    pose proof (Hfree _ _ H b Hin) as Hb.
    unfold key_conflicts in Hb. unfold binding_fires.
    change (event_is 1 KEY_RELEASE) with false. rewrite orb_false_r.
    rewrite (Z.eqb_sym (key b) k).
    destruct (KeybindType_eqb (type b) KEYBIND_KEYBOARD); [|reflexivity].
    destruct (k =? key b); [|reflexivity].
    cbn [andb] in *.
    destruct (mod_ b =? NMOD_ANY); [discriminate Hb|].
    destruct (mod_ b =? input_translateMod m);
      [rewrite orb_true_r in Hb; discriminate Hb | reflexivity].
  - intros H event m repeat. apply Hkeys. intros b Hin.
    pose proof (Hfree _ _ H b Hin) as Hb.
    unfold key_conflicts in Hb. unfold binding_fires.
    rewrite (Z.eqb_sym (key b) k).
    destruct (KeybindType_eqb (type b) KEYBIND_KEYBOARD); [|reflexivity].
    destruct (k =? key b); [|reflexivity].
    cbn [andb] in Hb. rewrite Z.eqb_refl, orb_true_r in Hb.
    discriminate Hb.
  - intros m H event.
    destruct (for_keybinds_dispatches (input_joyevent_body w event k)
                (fun i b => if joybutton_fires event k b
                            then [digital i (double_of_int event)] else [])
                (input_joyevent_body_dispatches w event k)
                (List.length (input_keybinds s)) 0%nat s) as [_ Hd].
    unfold input_joyevent. rewrite Hd, dispatches_of_none; [apply app_nil_r|].
    intros i b Hin. pose proof (Hfree _ _ H b Hin) as Hb.
    unfold key_conflicts in Hb. unfold joybutton_fires.
    rewrite (Z.eqb_sym (key b) k).
    destruct (KeybindType_eqb (type b) KEYBIND_JBUTTON); [|reflexivity].
    destruct (k =? key b); [|reflexivity].
    discriminate Hb.
Qed.

Lemma free_key_fires_nothing_witness :
  dispatched (input_keyevent (quiet_world usual_conf 1000) 1 SDLK_z 0 false
                (input_setDefault false input_init))
  = dispatched (input_setDefault false input_init).
Proof.
  assert (Hrows : table_of_actions (input_setDefault false input_init))
    by (vm_compute; reflexivity).
  destruct (free_key_fires_nothing (quiet_world usual_conf 1000)
              (input_setDefault false input_init) SDLK_z Hrows)
    as [Hpress _].
  apply Hpress. vm_compute. reflexivity.
Defined.

(** ** Names and descriptions *)

(** X24: the name of the modifiers of a key event.  The text that
    [input_modToText] gives for the translated modifiers of an event is
    "None" when no modifier is held, the name of the group when keys of
    one group are held (left, right or both), and "unknown" as soon as two
    groups are held together; it is never "Any". *)
Theorem modToText_of_event_modifiers (m : SDL_Keymod) :
  (input_modToText (input_translateMod m) = "None" <-> held_groups m = 0%nat)
  /\ (input_modToText (input_translateMod m) = "unknown"
      <-> (2 <= held_groups m)%nat)
  /\ (held_groups m = 1%nat ->
      input_modToText (input_translateMod m)
      = (if negb (Z.land m (Z.lor KMOD_LSHIFT KMOD_RSHIFT) =? 0) then "Shift"
         else if negb (Z.land m (Z.lor KMOD_LCTRL KMOD_RCTRL) =? 0)
              then "Ctrl"
              else if negb (Z.land m (Z.lor KMOD_LALT KMOD_RALT) =? 0)
                   then "Alt" else "Meta"))
  /\ input_modToText (input_translateMod m) <> "Any".
Proof.
  unfold input_translateMod, held_groups. cbn [filter].
  destruct (negb (Z.land m (Z.lor KMOD_LSHIFT KMOD_RSHIFT) =? 0));
    destruct (negb (Z.land m (Z.lor KMOD_LCTRL KMOD_RCTRL) =? 0));
    destruct (negb (Z.land m (Z.lor KMOD_LALT KMOD_RALT) =? 0));
    destruct (negb (Z.land m (Z.lor KMOD_LGUI KMOD_RGUI) =? 0));
    vm_compute; repeat split; intros; try discriminate; try reflexivity;
    try lia.
Qed.

Lemma getKeybindDescription_loop_find (keybind : string)
    (rows : list (string * string * string)) :
  forall binds : list Keybind,
    map name binds = map (fun r => fst (fst r)) rows ->
    getKeybindDescription_loop keybind (combine rows binds)
    = option_map snd
        (find (fun r => String.eqb keybind (fst (fst r))) rows).
Proof.
  induction rows as [|r rest IH]; intros binds H.
  - reflexivity.
  - destruct binds as [|b binds]; [discriminate H|].
    injection H as Hname Hrest.
    cbn [combine getKeybindDescription_loop find]. rewrite Hname.
    destruct (String.eqb keybind (fst (fst r))); [reflexivity|].
    exact (IH binds Hrest).
Qed.

(** X25: every action has a description, and unknown names are reported.
    On a table with the rows of [input_init],
    [input_getKeybindDescription] returns for each name of [keybind_info]
    the description of its row, without a warning; for any other name it
    warns and returns [NULL]. *)
Theorem description_of_every_action (s : State) (keybind : string) :
  table_of_actions s ->
  (In keybind keybind_info ->
   exists title description : string,
     In (keybind, title, description) keybind_info_rows
     /\ input_getKeybindDescription keybind s = (Some description, s))
  /\ (~ In keybind keybind_info ->
      input_getKeybindDescription keybind s
      = (None,
         call (WARN
                 "Unable to get keybinding description '%s', that command doesn't exist"
                 keybind) s)).
Proof.
  intros Hrows. unfold input_getKeybindDescription.
  rewrite (getKeybindDescription_loop_find keybind keybind_info_rows
             (input_keybinds s)) by (rewrite Hrows; reflexivity).
  change keybind_info with (map (fun r => fst (fst r)) keybind_info_rows).
  generalize keybind_info_rows. intros rows. split.
  - intros Hin.
    destruct (find (fun r => String.eqb keybind (fst (fst r))) rows)
      as [[[n title] d]|] eqn:E.
    + apply find_some in E as [Hr Hn]. cbn [fst] in Hn.
      apply String.eqb_eq in Hn. subst n.
      exists title, d. split; [exact Hr | reflexivity].
    + exfalso. apply in_map_iff in Hin as (r & Hname & Hr).
      pose proof (find_none _ _ E r Hr) as Hno. cbn beta in Hno.
      rewrite Hname, String.eqb_refl in Hno. discriminate Hno.
  - intros Hnot.
    destruct (find (fun r => String.eqb keybind (fst (fst r))) rows)
      as [r|] eqn:E; [|reflexivity].
    exfalso. apply Hnot. apply find_some in E as [Hr Hn].
    apply String.eqb_eq in Hn. rewrite Hn.
    exact (in_map (fun r0 : string * string * string => fst (fst r0)) _ _ Hr).
Qed.

Lemma description_of_every_action_witness :
  input_getKeybindDescription "reverse" input_init
  = (Some "Makes your ship face the direction you're moving from. Useful for braking.",
     input_init)
  /\ fst (input_getKeybindDescription "warp" input_init) = None.
Proof.
  destruct (description_of_every_action input_init "warp" eq_refl)
    as [_ Hunknown].
  split; [reflexivity|].
  rewrite Hunknown; [reflexivity|].
  vm_compute. intuition discriminate.
Defined.

(** ** The wheel and the pointer *)

(** X26: the wheel zooms and the pointer is tracked, without touching the
    input state.  For a wheel event that nobody takes, the zoom target is
    multiplied by 1.1 when the wheel moved up and by 0.9 otherwise (also
    for a purely horizontal motion, [y] = 0), and only while the player has
    a pilot; for a motion event that nobody takes, the mouse position of
    the player becomes the screen position of the pointer.  Neither
    dispatches a binding or makes a call beyond waking the cursor. *)
Theorem wheel_zooms_and_motion_tracks (w : World) (h : Handlers) (s : State) :
  taken_by_others w h (SDL_MOUSEWHEEL 0) = false ->
  (forall y : Z,
      input_handle w h (SDL_MOUSEWHEEL y) s
      = mkHandled s (offered_to w h (SDL_MOUSEWHEEL y))
          (if player_p w
           then Some (cam_getZoomTarget h
                      * (if (0 <? y)%Z then 1.1 else 0.9))%float
           else None)
          None)
  /\ (toolkit_isOpen w = false ->
      forall x y : Z,
        input_handle w h (SDL_MOUSEMOTION x y) s
        = mkHandled (mouse_woken (SDL_MOUSEMOTION x y) s)
            (offered_to w h (SDL_MOUSEMOTION x y)) None
            (Some (gl_windowToScreenPos w x y))).
Proof.
  intros Hfree. split.
  - intros y. rewrite input_handle_unfold.
    change (taken_by_others w h (SDL_MOUSEWHEEL y))
      with (taken_by_others w h (SDL_MOUSEWHEEL 0)).
    rewrite Hfree. cbn [input_handle_switch mouse_woken ismouse].
    unfold input_clickZoom.
    destruct (0 <? y); destruct (player_p w); reflexivity.
  - intros Hclosed x y. rewrite input_handle_unfold.
    unfold taken_by_others in *. rewrite Hclosed in *.
    cbn [andb orb ismouse] in *. rewrite Hfree. reflexivity.
Qed.

Lemma wheel_zooms_and_motion_tracks_witness :
  cam_setZoomTarget
    (input_handle (quiet_world usual_conf 1000) nobody_takes
       (SDL_MOUSEWHEEL 0) input_init)
  = Some 0.9%float.
Proof.
  rewrite (proj1 (wheel_zooms_and_motion_tracks (quiet_world usual_conf 1000)
                    nobody_takes input_init eq_refl) 0).
  reflexivity.
Defined.

(** ** Releases *)

Lemma input_key_chain_release (w : World) (b : Keybind) (kabs : float)
    (repeat : bool) (s s' : State) :
  (0 <=? kabs)%float = false ->
  input_key_chain w b KEY_RELEASE kabs repeat s = Some s' ->
  only_stopped s s'.
Proof.
  intros Hkabs. unfold input_key_chain.
  unfold input_key_accel, input_key_turn, input_key_reverse, input_key_flag,
    input_key_face, input_key_speed, on_press, andthen, skip.
  rewrite Hkabs. key_values.
  repeat (rewrite ?andb_false_r; cbn [andb]).
  intros H.
  repeat match type of H with
         | context [if ?c then _ else _] => destruct c
         end;
    try discriminate H; injection H as <-;
    (split;
     [ first [ exists []; split; [symmetry; apply app_nil_r | reflexivity]
             | eexists; split;
               [cbn; rewrite <- ?app_assoc; reflexivity | reflexivity] ]
     | split;
       [ intros f; cbn; unfold player_isFlag;
         repeat match goal with
                | |- context [PlayerFlag_eqb ?a ?c] =>
                    destruct (PlayerFlag_eqb a c)
                end;
         first [ discriminate | exact (fun x => x) ]
       | repeat split; first [ left; reflexivity | right; reflexivity
                             | reflexivity ] ] ]).
Qed.

(** X27: releasing a key only ever stops things.  A digital release
    (kabs below 0, as keys, buttons and hats send it) makes [input_key]
    call nothing but the end of acceleration and of the afterburner, the
    release of a weapon set or of the overlay key, and the "input" hook
    for a release; it sets no player flag, leaves each turn rate as it was
    or resets it to 0, and keeps the speed and the tick of the last accel
    tap.  So no release fires, targets, boards, lands, jumps or opens a
    menu. *)
Theorem digital_release_only_stops (w : World) (keynum : Z) (kabs : float)
    (repeat : bool) (s : State) :
  (0 <=? kabs)%float = false ->
  only_stopped s (input_key w keynum KEY_RELEASE kabs repeat s).
Proof.
  intros Hkabs. unfold input_key.
  destruct (input_key_repetition_shape w keynum KEY_RELEASE repeat
              (log_dispatch (keynum, KEY_RELEASE, kabs, repeat) s))
    as (k & t & c & ->).
  replace (keybind_at keynum
             (set_repeat k t c
                (log_dispatch (keynum, KEY_RELEASE, kabs, repeat) s)))
    with (keybind_at keynum s) by reflexivity.
  assert (Hbook : only_stopped s
                    (set_repeat k t c
                       (log_dispatch (keynum, KEY_RELEASE, kabs, repeat) s))).
  { unfold only_stopped. cbn. repeat split; try (left; reflexivity); auto.
    exists []. split; [symmetry; apply app_nil_r | reflexivity]. }
  destruct (keybind_at keynum s) as [b|]; [|exact Hbook].
  destruct (input_key_chain w b KEY_RELEASE kabs repeat _) as [s2|] eqn:E;
    [|exact Hbook].
  destruct (input_key_chain_release _ _ _ _ _ _ Hkabs E)
    as ((l & Hl & Hstop) & Hflags & Hleft & Hright & Hspeed & Hlast).
  unfold only_stopped. cbn [calls call player_flags player_left player_right
                            player_speed input_accelLast].
  split; [|repeat split; assumption].
  exists (l ++ [hooks_runParam_input (name b) (0 <? KEY_RELEASE)%float]).
  split.
  - rewrite Hl. cbn [calls set_repeat log_dispatch]. rewrite <- app_assoc.
    reflexivity.
  - rewrite forallb_app, Hstop. reflexivity.
Qed.

Lemma digital_release_only_stops_witness :
  only_stopped tap1_down
    (input_key (quiet_world usual_conf 1050) 0 KEY_RELEASE (-1)%float false
       tap1_down).
Proof.
  apply (digital_release_only_stops (quiet_world usual_conf 1050) 0
           (-1)%float false tap1_down).
  reflexivity.
Defined.
